(** * Assignment 7 helper library: datasets, network factory, training loop

    A shallow embedding of [Assignment 7/dl_assignment_7_common.py].

    - Python [float] is IEEE-754 binary64; it is modelled by the Standard
      Library's [SpecFloat] at precision 53 and maximal exponent 1024, so
      that every product, sum and quotient below rounds as CPython's does.
    - Python exceptions are values of [exn]; pure fallible code lives in
      [result], the training loop in a state-and-error monad over [world].
    - torch, torchvision and d2l are collaborators: what the code needs of
      them is collected in the class [Torch]. *)

From Stdlib Require Import ZArith Lia Bool List String Ascii Permutation.
From Stdlib Require Import Floats.SpecFloat.
From Stdlib Require Import DecimalString.
Import ListNotations.

Local Open Scope string_scope.
Local Open Scope Z_scope.

(** ** Python exceptions and fallible results *)

Inductive exn : Type :=
| ValueError (msg : string)
| TypeError (msg : string)
| NotImplementedError
| ZeroDivisionError
| OverflowError
| IndexError
| RuntimeError (msg : string)
| UnboundLocalError (var : string).

Inductive result (A : Type) : Type :=
| Ok (a : A)
| Raise (e : exn).

Arguments Ok {A} a.
Arguments Raise {A} e.

Definition rbind {A B : Type} (r : result A) (k : A -> result B) : result B :=
  match r with
  | Ok a => k a
  | Raise e => Raise e
  end.

Declare Scope result_scope.
Delimit Scope result_scope with result.
Notation "x <-? r ;; k" := (rbind r (fun x => k))
  (at level 61, r at next level, right associativity) : result_scope.
Notation "' p <-? r ;; k" := (rbind r (fun x => match x with p => k end))
  (at level 61, p pattern, r at next level, right associativity) : result_scope.

(** ** Python floats (binary64) *)

Module PyFloat.

Definition prec : Z := 53.
Definition emax : Z := 1024.

Definition float : Type := spec_float.

Definition fzero : float := S754_zero false.

(** [a + b], [a * b] on floats never raise; they round to nearest even and
    overflow to an infinity. *)
Definition fadd (a b : float) : float := SFadd prec emax a b.
Definition fmul (a b : float) : float := SFmul prec emax a b.

Definition is_zero (a : float) : bool :=
  match a with
  | S754_zero _ => true
  | _ => false
  end.

(** [a / b] raises [ZeroDivisionError] when [b] is [0.0] or [-0.0]. *)
Definition fdiv (a b : float) : result float :=
  if is_zero b then Raise ZeroDivisionError else Ok (SFdiv prec emax a b).

(** [float(n)] for a Python int: correctly rounded, [OverflowError] when the
    int is too large for a double. *)
Definition of_int (n : Z) : result float :=
  match binary_normalize prec emax n 0 false with
  | S754_infinity _ => Raise OverflowError
  | f => Ok f
  end.

(** [f * n] with [n] an int: the int is converted first. *)
Definition fmul_int (a : float) (n : Z) : result float :=
  match of_int n with
  | Ok b => Ok (fmul a b)
  | Raise e => Raise e
  end.

(** The integer [floor (m * 2^e)] for a signed mantissa [m]. *)
Definition floor_scaled (m e : Z) : Z :=
  if 0 <=? e then m * 2 ^ e else m / 2 ^ (- e).

Definition signed (s : bool) (m : positive) : Z :=
  if s then Z.neg m else Z.pos m.

(** [math.floor] and [math.ceil] return exact ints; they raise on NaN
    ([ValueError]) and on infinities ([OverflowError]). *)
Definition floor (a : float) : result Z :=
  match a with
  | S754_zero _ => Ok 0
  | S754_finite s m e => Ok (floor_scaled (signed s m) e)
  | S754_infinity _ => Raise OverflowError
  | S754_nan => Raise (ValueError "cannot convert float NaN to integer")
  end.

Definition ceil (a : float) : result Z :=
  match a with
  | S754_zero _ => Ok 0
  | S754_finite s m e => Ok (- floor_scaled (- signed s m) e)
  | S754_infinity _ => Raise OverflowError
  | S754_nan => Raise (ValueError "cannot convert float NaN to integer")
  end.

(** The literals [0.9] and [0.1]: the doubles nearest to them. *)
Definition lit_0_9 : float := S754_finite false 8106479329266893 (-53).
Definition lit_0_1 : float := S754_finite false 7205759403792794 (-56).
Definition lit_1_0 : float := S754_finite false 4503599627370496 (-52).

(** [0 < a <= 1] for a float, decided on the representation: a positive
    finite [m * 2^e] is at most one when [m <= 2^(-e)]. *)
Definition in_unit_interval (a : float) : bool :=
  match a with
  | S754_finite false m e =>
      if 0 <=? e then Z.pos m * 2 ^ e <=? 1 else Z.pos m <=? 2 ^ (- e)
  | _ => false
  end.

(** Auxiliary notions for reasoning about rounding. *)

(** The exponent of the unit in the last place kept for a double whose
    magnitude has [e] binary digits before the point. *)
Definition fexp64 (e : Z) : Z := Z.max (e - 53) (-1074).

(** What rounding returns for a rounded mantissa [m2] at exponent [e0]:
    zero, a finite double (renormalised when the mantissa reached [2^53]),
    or an infinity on overflow. *)
Definition encode (s : bool) (m2 e0 : Z) : spec_float :=
  match m2 with
  | Z0 => S754_zero s
  | Zpos p =>
      if m2 <? 2 ^ 53
      then if e0 <=? 971 then S754_finite s p e0 else S754_infinity s
      else if e0 + 1 <=? 971 then S754_finite s (Pos.div2 p) (e0 + 1) else S754_infinity s
  | Zneg _ => S754_nan
  end.

(** [+0.0], a positive finite double, or [+inf]. *)
Definition sign_clear (a : float) : bool :=
  match a with
  | S754_zero false | S754_finite false _ _ | S754_infinity false => true
  | _ => false
  end.

(** [a <= n] and [n <= a] for an integer [n], read through [ceil] and
    [floor]. *)
Definition le_int (a : float) (n : Z) : Prop :=
  exists c : Z, ceil a = Ok c /\ c <= n.

Definition ge_int (a : float) (n : Z) : Prop :=
  a = S754_infinity false \/ exists f : Z, floor a = Ok f /\ n <= f.

End PyFloat.

(** ** String formatting *)

Module PyFormat.
Import PyFloat.

(** [str(n)] for an int, as an f-string interpolates it. *)
Definition str (n : Z) : string := NilZero.string_of_int (Z.to_int n).

Definition digit (d : Z) : ascii := ascii_of_nat (48 + Z.to_nat d).

(** The three digits of [0 <= r < 1000]. *)
Definition pad3 (r : Z) : string :=
  String (digit (r / 100))
    (String (digit (r / 10 mod 10))
       (String (digit (r mod 10)) EmptyString)).

(** [num / den] rounded to the nearest integer, ties to even. *)
Definition round_half_even (num den : Z) : Z :=
  let q := num / den in
  let r := num mod den in
  match 2 * r ?= den with
  | Lt => q
  | Gt => q + 1
  | Eq => if Z.even q then q else q + 1
  end.

(** The magnitude [m * 2^e] times 1000, rounded to an integer. *)
Definition thousandths (m : positive) (e : Z) : Z :=
  if 0 <=? e then Z.pos m * 2 ^ e * 1000
  else round_half_even (Z.pos m * 1000) (2 ^ (- e)).

Definition sign_prefix (s : bool) : string := if s then "-" else "".

(** [format(a, '.3f')]: correctly rounded to three decimals; NaN and the
    infinities print as words. *)
Definition format_3f (a : float) : string :=
  match a with
  | S754_nan => "nan"
  | S754_infinity s => sign_prefix s ++ "inf"
  | S754_zero s => sign_prefix s ++ "0.000"
  | S754_finite s m e =>
      let q := thousandths m e in
      sign_prefix s ++ str (q / 1000) ++ "." ++ pad3 (q mod 1000)
  end.

End PyFormat.

(** ** [d2l.Accumulator] *)

Module Accumulators.
Import PyFloat.
Local Open Scope result_scope.

(** A Python number handed to [add]: an int or a float. *)
Inductive Number : Type :=
| Num_int (n : Z)
| Num_float (f : float).

(** [float(b)] *)
Definition to_float (b : Number) : result float :=
  match b with
  | Num_int n => of_int n
  | Num_float f => Ok f
  end.

(** [self.data], a list of floats. *)
Definition Accumulator : Type := list float.

(** [Accumulator(n)]: [self.data = [0.0] * n] *)
Definition new (n : nat) : Accumulator := repeat fzero n.

(** [add(args...)]: [self.data = [a + float(b) for a, b in zip(self.data, args)]] *)
Fixpoint add (data : Accumulator) (args : list Number) : result Accumulator :=
  match data, args with
  | a :: data', b :: args' =>
      fb <-? to_float b ;;
      rest <-? add data' args' ;;
      Ok (fadd a fb :: rest)
  | _, _ => Ok []
  end.

(** [self.data[idx]] *)
Definition get (data : Accumulator) (idx : nat) : result float :=
  match nth_error data idx with
  | Some a => Ok a
  | None => Raise IndexError
  end.

(** The weighted-mean read [metric[i] / metric[j]]. *)
Definition mean (data : Accumulator) (i j : nat) : result float :=
  a <-? get data i ;;
  b <-? get data j ;;
  fdiv a b.

End Accumulators.

(** ** Datasets *)

Module Datasets.
Import PyFloat PyFormat.
Local Open Scope result_scope.

(** A torchvision dataset, as far as this code looks at it: its length. *)
Record Dataset : Type := { len : Z }.

(** The two partitions of a named torchvision dataset:
    [train=True] and [train=False]. *)
Record Source : Type := { source_train : Dataset; source_test : Dataset }.

Record DataLoader : Type :=
  { dl_len : Z; dl_batch_size : Z; dl_shuffle : bool }.

(** [DataLoader(dataset, batch_size, shuffle=...)] over a dataset of [n]
    samples.  A shuffling loader builds a [RandomSampler], which refuses an
    empty dataset; every loader then builds a [BatchSampler], which refuses
    a batch size below one. *)
Definition new_DataLoader (n batch_size : Z) (shuffle : bool)
  : result DataLoader :=
  if shuffle && (n <=? 0)
  then Raise (ValueError
         ("num_samples should be a positive integer value, but got num_samples="
          ++ str n))
  else if batch_size <=? 0
  then Raise (ValueError
         ("batch_size should be a positive integer value, but got batch_size="
          ++ str batch_size))
  else Ok {| dl_len := n; dl_batch_size := batch_size; dl_shuffle := shuffle |}.

Record Loaders : Type :=
  { ld_train : DataLoader; ld_val : DataLoader; ld_test : DataLoader }.

(** Length of the Python slice [xs[a:b]] of a sequence of length [n]. *)
Definition clamp_index (n i : Z) : Z :=
  if i <? 0 then Z.max 0 (i + n) else Z.min i n.

Definition slice_len (n a b : Z) : Z :=
  Z.max 0 (clamp_index n b - clamp_index n a).

Fixpoint split_sizes (n running : Z) (lengths : list Z) : list Z :=
  match lengths with
  | [] => []
  | l :: ls =>
      let offset := running + l in
      slice_len n (offset - l) offset :: split_sizes n offset ls
  end.

Definition sum_list (ls : list Z) : Z := fold_right Z.add 0 ls.

(** [torch.utils.data.random_split dataset lengths] for integer lengths:
    the lengths must add up to the dataset's; the subsets are consecutive
    slices of a random permutation of its indices. *)
Definition random_split (d : Dataset) (lengths : list Z) : result (list Z) :=
  if sum_list lengths =? len d
  then Ok (split_sizes (len d) 0 lengths)
  else Raise (ValueError "Sum of input lengths does not equal the length of the input dataset!").

(** Lines 37-39 of [get_dataset]: the train, validation and unused counts
    of a train/validation source of length [n]. *)
Definition train_val_counts (n : Z) (used_data : float) : result (Z * Z * Z) :=
  fn <-? of_int n ;;
  train_data_count <-? floor (fmul (fmul lit_0_9 fn) used_data) ;;
  fn' <-? of_int n ;;
  validation_data_count <-? ceil (fmul (fmul lit_0_1 fn') used_data) ;;
  let unused_data_count := n - train_data_count - validation_data_count in
  Ok (train_data_count, validation_data_count, unused_data_count).

(** Lines 45-46 of [get_dataset]: the reduced test partition. *)
Definition test_counts (n_test : Z) (used_data : float) : result (Z * Z) :=
  ft <-? of_int n_test ;;
  test_count <-? ceil (fmul ft used_data) ;;
  let unused_data_count := n_test - test_count in
  Ok (test_count, unused_data_count).

Section GetDataset.

(** The torchvision collaborators [MNIST(...)] and [FashionMNIST(...)]. *)
Variables MNIST FashionMNIST : Source.

Definition load_source (name : string) : result Source :=
  if String.eqb name "mnist" then Ok MNIST
  else if String.eqb name "fashionmnist" then Ok FashionMNIST
  else Raise (ValueError ("Dataset name " ++ name ++ " was not recognized")).

Definition nth_size (sizes : list Z) (i : nat) : Z := nth i sizes 0.

Definition get_dataset (name : string) (batch_size : Z) (used_data : float)
  : result Loaders :=
  src <-? load_source name ;;
  let train_and_val_data := source_train src in
  let test_data := source_test src in
  '(train_data_count, validation_data_count, unused_data_count) <-?
    train_val_counts (len train_and_val_data) used_data ;;
  parts <-? random_split train_and_val_data
              [train_data_count; validation_data_count; unused_data_count] ;;
  '(test_count, unused_data_count) <-? test_counts (len test_data) used_data ;;
  parts' <-? random_split test_data [test_count; unused_data_count] ;;
  train <-? new_DataLoader (nth_size parts 0) batch_size true ;;
  val <-? new_DataLoader (nth_size parts 1) batch_size false ;;
  test <-? new_DataLoader (nth_size parts' 0) batch_size false ;;
  Ok {| ld_train := train; ld_val := val; ld_test := test |}.

End GetDataset.

End Datasets.

(** ** Network architectures *)

Module Networks.
Import PyFormat.
Local Open Scope result_scope.

(** The layers [create_lenet] stacks in an [nn.Sequential]. *)
Inductive Layer : Type :=
| LazyLinear (out_features : Z)
| Linear (in_features out_features : Z)
| Sigmoid.

Definition Network : Type := list Layer.

(** The keyword options [**kwargs] handed on by [create_network]. *)
Definition Kwargs : Type := list (string * Z).

(** Binding [**kwargs] to the signature [create_lenet(num_classes=10)]:
    any other keyword is a [TypeError]. *)
Fixpoint bind_num_classes (kwargs : Kwargs) (num_classes : Z) : result Z :=
  match kwargs with
  | [] => Ok num_classes
  | (k, v) :: rest =>
      if String.eqb k "num_classes" then bind_num_classes rest v
      else Raise (TypeError
             ("create_lenet() got an unexpected keyword argument '" ++ k ++ "'"))
  end.

(** [nn.Linear(in_features, out_features)] allocates a weight of
    [out_features] rows, which torch refuses for a negative number. *)
Definition new_Linear (in_features out_features : Z) : result Layer :=
  if out_features <? 0
  then Raise (RuntimeError
         ("Trying to create tensor with negative dimension "
          ++ str out_features ++ ": [" ++ str out_features ++ ", "
          ++ str in_features ++ "]"))
  else Ok (Linear in_features out_features).

Definition create_lenet (kwargs : Kwargs) : result Network :=
  num_classes <-? bind_num_classes kwargs 10 ;;
  output <-? new_Linear 100 num_classes ;;
  Ok [LazyLinear 300; Sigmoid; Linear 300 100; Sigmoid; output].

(** [create_arch2()] takes no argument, so a keyword fails the call before
    the body raises. *)
Definition create_arch2 (kwargs : Kwargs) : result Network :=
  match kwargs with
  | [] => Raise NotImplementedError
  | (k, _) :: _ =>
      Raise (TypeError
        ("create_arch2() got an unexpected keyword argument '" ++ k ++ "'"))
  end.

Definition create_network (arch : string) (kwargs : Kwargs) : result Network :=
  net <-?
    (if String.eqb arch "lenet" then create_lenet kwargs
     else if String.eqb arch "arch2" then create_arch2 kwargs
     else Raise (ValueError ("Architecture name " ++ arch ++ " was not recognized"))) ;;
  Ok net.

End Networks.

(** ** The training and evaluation loops *)

Module Training.
Import PyFloat PyFormat Accumulators.

(** The collaborators the loops are written against: the network's forward
    pass, autograd, the data loaders and the tensor helpers of d2l.  The
    forward pass reads the parameters and the train/eval mode flag and
    writes neither. *)
Class Torch : Type := {
  Params : Type;
  OptState : Type;
  Rng : Type;
  Loader : Type;
  X : Type;
  Y : Type;
  Pred : Type;
  Loss : Type;
  Grads : Type;
  (* [iter(data_loader)]: the batches of one pass, drawn with the generator *)
  iter_loader : Loader -> Rng -> list (X * Y) * Rng;
  (* [x.shape[0]] *)
  shape0 : X -> Z;
  (* [net(x)] *)
  net_call : Params -> bool -> X -> Pred;
  (* the gradients [loss.backward()] leaves after [optimizer.zero_grad()] *)
  backward : Loss -> Grads;
  (* [float(d2l.reduce_sum(loss))] *)
  d2l_reduce_sum : Loss -> float;
  (* [d2l.size(loss)] *)
  d2l_size_loss : Loss -> Z;
  (* [d2l.accuracy(y_hat, y)], a float count of correct predictions *)
  d2l_accuracy : Pred -> Y -> float;
  (* [d2l.size(y)] *)
  d2l_size : Y -> Z
}.

Inductive Phase : Type := train_phase | val_phase.

Definition is_train (phase : Phase) : bool :=
  match phase with train_phase => true | val_phase => false end.

Definition phase_name (phase : Phase) : string :=
  match phase with train_phase => "train" | val_phase => "val" end.

(** [for phase in ('train', 'val')] *)
Definition phases : list Phase := [train_phase; val_phase].

(** [range(epochs)] *)
Definition range (epochs : Z) : list Z :=
  map Z.of_nat (seq 0 (Z.to_nat epochs)).

(** [epoch % eval_every_n_epochs] on ints: the result takes the sign of the
    divisor, and a zero divisor raises. *)
Definition pymod (a n : Z) : result Z :=
  if n =? 0 then Raise ZeroDivisionError else Ok (a mod n).

Definition checkpoint_path (model_file_name : string) (epoch : Z) : string :=
  "checkpoints/model-" ++ model_file_name ++ "-" ++ str epoch ++ ".pth".

Definition final_path (model_file_name : string) : string :=
  "checkpoints/model-" ++ model_file_name ++ "-final.pth".

(** The summary line [train] prints. *)
Definition summary_line
    (train_loss train_acc val_loss val_acc test_loss test_acc : float) : string :=
  "train loss " ++ format_3f train_loss ++
  ", train accuracy " ++ format_3f train_acc ++
  ", val loss " ++ format_3f val_loss ++
  ", val accuracy " ++ format_3f val_acc ++
  ", test loss " ++ format_3f test_loss ++
  ", test accuracy " ++ format_3f test_acc.

Section Loops.
Context {T : Torch}.

(** The optimizer class handed to [train]: its constructor and [step]. *)
Record Optimizer : Type := {
  opt_new : Params -> float -> OptState;
  opt_step : OptState -> Params -> Grads -> OptState * Params
}.

(** [data_loaders], a dict with the keys ['train'], ['val'] and ['test']. *)
Record DataLoaders : Type := {
  dl_train : Loader;
  dl_val : Loader;
  dl_test : Loader
}.

Definition loader_of (data_loaders : DataLoaders) (phase : Phase) : Loader :=
  match phase with
  | train_phase => dl_train data_loaders
  | val_phase => dl_val data_loaders
  end.

(** [metrics], one accumulator per phase. *)
Record Metrics : Type := {
  m_train : Accumulator;
  m_val : Accumulator
}.

Definition metrics_of (metrics : Metrics) (phase : Phase) : Accumulator :=
  match phase with
  | train_phase => m_train metrics
  | val_phase => m_val metrics
  end.

Definition set_metrics (metrics : Metrics) (phase : Phase) (a : Accumulator)
  : Metrics :=
  match phase with
  | train_phase => {| m_train := a; m_val := m_val metrics |}
  | val_phase => {| m_train := m_train metrics; m_val := a |}
  end.

(** Everything a run reads and writes: the network (its parameters and its
    mode flag), the optimizer instance, the random generator, the checkpoint
    directory, the animator's points, the laps of the two timers and the
    console. *)
Record State : Type := {
  params : Params;
  training : bool;
  opt_state : OptState;
  rng : Rng;
  files : list (string * Params);
  curves : list (Z * list float);
  laps_train : nat;
  laps_val : nat;
  stdout : list string
}.

(** A run either completes or stops at an unhandled exception; the state
    reached is kept in both cases. *)
Inductive outcome (A : Type) : Type :=
| Done (a : A) (s : State)
| Fail (e : exn) (s : State).
Arguments Done {A} a s.
Arguments Fail {A} e s.

Definition M (A : Type) : Type := State -> outcome A.

Definition ret {A : Type} (a : A) : M A := fun s => Done a s.

Definition bind {A B : Type} (m : M A) (k : A -> M B) : M B :=
  fun s =>
    match m s with
    | Done a s' => k a s'
    | Fail e s' => Fail e s'
    end.

Definition lift {A : Type} (r : result A) : M A :=
  fun s =>
    match r with
    | Ok a => Done a s
    | Raise e => Fail e s
    end.

Definition state_of {A : Type} (o : outcome A) : State :=
  match o with
  | Done _ s => s
  | Fail _ s => s
  end.

End Loops.

Arguments Done {T A} a s.
Arguments Fail {T A} e s.

Declare Scope train_scope.
Delimit Scope train_scope with train.
Notation "x <- m ;; k" := (bind m (fun x => k))
  (at level 61, m at next level, right associativity) : train_scope.
Notation "' p <- m ;; k" := (bind m (fun x => match x with p => k end))
  (at level 61, p pattern, m at next level, right associativity) : train_scope.
Notation "m ;; k" := (bind m (fun _ => k))
  (at level 61, right associativity) : train_scope.

Section Train.
Context {T : Torch}.
Local Open Scope train_scope.

(** *** The primitive effects *)

(** [net(x)] with the network as it is now. *)
Definition forward (x : X) : M Pred :=
  fun s => Done (net_call (params s) (training s) x) s.

(** [net.train(mode)]; [net.eval()] is [net.train(False)]. *)
Definition set_training (mode : bool) : M unit :=
  fun s =>
    Done tt {| params := params s; training := mode;
               opt_state := opt_state s; rng := rng s; files := files s;
               curves := curves s; laps_train := laps_train s;
               laps_val := laps_val s; stdout := stdout s |}.

(** Starting a pass over a data loader. *)
Definition iterate (data_iter : Loader) : M (list (X * Y)) :=
  fun s =>
    let (batches, g) := iter_loader data_iter (rng s) in
    Done batches
      {| params := params s; training := training s;
         opt_state := opt_state s; rng := g; files := files s;
         curves := curves s; laps_train := laps_train s;
         laps_val := laps_val s; stdout := stdout s |}.

(** [optimizer = optimizer(net.parameters(), lr=learning_rate)] *)
Definition optimizer_new (optimizer : Optimizer) (learning_rate : float)
  : M unit :=
  fun s =>
    Done tt {| params := params s; training := training s;
               opt_state := opt_new optimizer (params s) learning_rate;
               rng := rng s; files := files s; curves := curves s;
               laps_train := laps_train s; laps_val := laps_val s;
               stdout := stdout s |}.

(** [optimizer.zero_grad(); loss.backward(); optimizer.step()] *)
Definition optimizer_step (optimizer : Optimizer) (loss : Loss) : M unit :=
  fun s =>
    let (o, p) := opt_step optimizer (opt_state s) (params s) (backward loss) in
    Done tt {| params := p; training := training s; opt_state := o;
               rng := rng s; files := files s; curves := curves s;
               laps_train := laps_train s; laps_val := laps_val s;
               stdout := stdout s |}.

(** [d2l.Animator(...)] and the two [d2l.Timer()]s, created empty. *)
Definition new_animator_and_timers : M unit :=
  fun s =>
    Done tt {| params := params s; training := training s;
               opt_state := opt_state s; rng := rng s; files := files s;
               curves := []; laps_train := 0; laps_val := 0;
               stdout := stdout s |}.

(** [training_progression_animator.add(x, ys)] *)
Definition animator_add (x : Z) (ys : list float) : M unit :=
  fun s =>
    Done tt {| params := params s; training := training s;
               opt_state := opt_state s; rng := rng s; files := files s;
               curves := curves s ++ [(x, ys)];
               laps_train := laps_train s; laps_val := laps_val s;
               stdout := stdout s |}.

(** [training_progression_timer[phase].start()] only notes the time. *)
Definition timer_start (phase : Phase) : M unit := ret tt.

(** [training_progression_timer[phase].stop()] records one more lap. *)
Definition timer_stop (phase : Phase) : M unit :=
  fun s =>
    Done tt {| params := params s; training := training s;
               opt_state := opt_state s; rng := rng s; files := files s;
               curves := curves s;
               laps_train := (if is_train phase then S (laps_train s)
                              else laps_train s);
               laps_val := (if is_train phase then laps_val s
                            else S (laps_val s));
               stdout := stdout s |}.

(** [torch.save(net.state_dict(), path)] *)
Definition save (path : string) : M unit :=
  fun s =>
    Done tt {| params := params s; training := training s;
               opt_state := opt_state s; rng := rng s;
               files := files s ++ [(path, params s)];
               curves := curves s; laps_train := laps_train s;
               laps_val := laps_val s; stdout := stdout s |}.

(** [print(line)] *)
Definition print (line : string) : M unit :=
  fun s =>
    Done tt {| params := params s; training := training s;
               opt_state := opt_state s; rng := rng s; files := files s;
               curves := curves s; laps_train := laps_train s;
               laps_val := laps_val s; stdout := stdout s ++ [line] |}.

(** *** Evaluation *)

Section Evaluate.
Variable loss_fn : Pred -> Y -> Loss.

(** The body of [for x, y in data_iter] in [evaluate_loss]. *)
Fixpoint evaluate_loss_loop (batches : list (X * Y)) (metric : Accumulator)
  : M Accumulator :=
  match batches with
  | [] => ret metric
  | (x, y) :: rest =>
      y_hat <- forward x ;;
      let loss := loss_fn y_hat y in
      metric' <- lift (add metric [Num_float (d2l_reduce_sum loss);
                                   Num_int (d2l_size_loss loss)]) ;;
      evaluate_loss_loop rest metric'
  end.

Definition evaluate_loss (data_iter : Loader) : M float :=
  let metric := new 2 in
  batches <- iterate data_iter ;;
  metric <- evaluate_loss_loop batches metric ;;
  lift (mean metric 0 1).

(** The loop of [d2l.evaluate_accuracy_gpu]. *)
Fixpoint evaluate_accuracy_loop (batches : list (X * Y)) (metric : Accumulator)
  : M Accumulator :=
  match batches with
  | [] => ret metric
  | (x, y) :: rest =>
      y_hat <- forward x ;;
      metric' <- lift (add metric [Num_float (d2l_accuracy y_hat y);
                                   Num_int (d2l_size y)]) ;;
      evaluate_accuracy_loop rest metric'
  end.

(** [d2l.evaluate_accuracy_gpu(net, data_iter, device)]: the library puts the
    network in evaluation mode, then accumulates the number of correct
    predictions and the number of predictions. *)
Definition evaluate_accuracy_gpu (data_iter : Loader) : M float :=
  set_training false ;;
  let metric := new 2 in
  batches <- iterate data_iter ;;
  metric <- evaluate_accuracy_loop batches metric ;;
  lift (mean metric 0 1).

Definition evaluate (evaluation_set : Loader) : M (float * float) :=
  loss <- evaluate_loss evaluation_set ;;
  accuracy <- evaluate_accuracy_gpu evaluation_set ;;
  ret (loss, accuracy).

End Evaluate.

End Train.

Section TrainLoop.
Context {T : Torch}.
Local Open Scope train_scope.

Variable data_loaders : DataLoaders.
Variable optimizer : Optimizer.
Variable loss_fn : Pred -> Y -> Loss.
Variable model_file_name : string.
Variable eval_every_n_epochs : Z.

(** The body of [for _, (x, y) in enumerate(data_loaders[phase])]. *)
Definition train_batch (phase : Phase) (metrics : Metrics) (xy : X * Y)
  : M Metrics :=
  let (x, y) := xy in
  timer_start phase ;;
  y_hat <- forward x ;;
  let loss := loss_fn y_hat y in
  (if is_train phase then optimizer_step optimizer loss else ret tt) ;;
  ' (loss, accuracy) <- evaluate loss_fn (loader_of data_loaders phase) ;;
  weighted_loss <- lift (fmul_int loss (shape0 x)) ;;
  weighted_accuracy <- lift (fmul_int accuracy (shape0 x)) ;;
  acc <- lift (add (metrics_of metrics phase)
                 [Num_float weighted_loss; Num_float weighted_accuracy;
                  Num_int (shape0 x)]) ;;
  timer_stop phase ;;
  ret (set_metrics metrics phase acc).

Fixpoint train_batches (phase : Phase) (batches : list (X * Y))
    (metrics : Metrics) : M Metrics :=
  match batches with
  | [] => ret metrics
  | xy :: rest =>
      metrics' <- train_batch phase metrics xy ;;
      train_batches phase rest metrics'
  end.

(** [phase == 'val' and not epoch % eval_every_n_epochs == 0]: the remainder
    is only computed for the val phase. *)
Definition skip_phase (phase : Phase) (epoch : Z) : M bool :=
  if is_train phase then ret false
  else r <- lift (pymod epoch eval_every_n_epochs) ;; ret (negb (r =? 0)).

(** The body of [for phase in ('train', 'val')]. *)
Definition run_phase (epoch : Z) (metrics : Metrics) (phase : Phase)
  : M Metrics :=
  skip <- skip_phase phase epoch ;;
  if skip then ret metrics
  else
    set_training (is_train phase) ;;
    batches <- iterate (loader_of data_loaders phase) ;;
    train_batches phase batches metrics.

Fixpoint run_phases (epoch : Z) (ps : list Phase) (metrics : Metrics)
  : M Metrics :=
  match ps with
  | [] => ret metrics
  | phase :: rest =>
      metrics' <- run_phase epoch metrics phase ;;
      run_phases epoch rest metrics'
  end.

(** What an epoch does after its phases: the periodic checkpoint and the
    point added to the animator. *)
Definition report_epoch (epoch : Z) (metrics : Metrics) : M unit :=
  r <- lift (pymod epoch eval_every_n_epochs) ;;
  if r =? 0 then
    save (checkpoint_path model_file_name epoch) ;;
    train_loss <- lift (mean (m_train metrics) 0 2) ;;
    train_acc <- lift (mean (m_train metrics) 1 2) ;;
    val_loss <- lift (mean (m_val metrics) 0 2) ;;
    val_acc <- lift (mean (m_val metrics) 1 2) ;;
    animator_add (epoch + 1) [train_loss; train_acc; val_loss; val_acc]
  else
    train_loss <- lift (mean (m_train metrics) 0 2) ;;
    train_acc <- lift (mean (m_train metrics) 1 2) ;;
    animator_add (epoch + 1) [train_loss; train_acc].

(** The body of [for epoch in range(epochs)]. *)
Definition run_epoch (epoch : Z) : M Metrics :=
  let metrics := {| m_train := new 3; m_val := new 3 |} in
  metrics <- run_phases epoch phases metrics ;;
  report_epoch epoch metrics ;;
  ret metrics.

(** The epoch loop; [metrics] is the local variable of that name, unbound
    until the first epoch binds it. *)
Fixpoint run_epochs (epochs : list Z) (metrics : option Metrics)
  : M (option Metrics) :=
  match epochs with
  | [] => ret metrics
  | epoch :: rest =>
      metrics' <- run_epoch epoch ;;
      run_epochs rest (Some metrics')
  end.

(** Reading the local variable [metrics] after the loop. *)
Definition read_metrics (metrics : option Metrics) : M Metrics :=
  match metrics with
  | Some m => ret m
  | None => lift (Raise (UnboundLocalError "metrics"))
  end.

(** The statements of [train] after the epoch loop. *)
Definition finish (metrics : option Metrics) : M unit :=
  ' (test_loss, test_acc) <- evaluate loss_fn (dl_test data_loaders) ;;
  ' (val_loss, val_acc) <- evaluate loss_fn (dl_val data_loaders) ;;
  m <- read_metrics metrics ;;
  train_loss <- lift (mean (m_train m) 0 2) ;;
  m <- read_metrics metrics ;;
  train_acc <- lift (mean (m_train m) 1 2) ;;
  save (final_path model_file_name) ;;
  print (summary_line train_loss train_acc val_loss val_acc test_loss test_acc).

Definition train (learning_rate : float) (epochs : Z) : M unit :=
  optimizer_new optimizer learning_rate ;;
  new_animator_and_timers ;;
  metrics <- run_epochs (range epochs) None ;;
  finish metrics.

End TrainLoop.

End Training.

(** ** A small concrete instance

    A one-weight linear model on integer data, with the squared error per
    example as loss, used to run the loops on concrete inputs. *)

Module Example.
Import PyFloat Accumulators Training.

Definition sum_Z (l : list Z) : Z := fold_right Z.add 0 l.

(** The double nearest to an int of small magnitude. *)
Definition float_of_Z (n : Z) : float := binary_normalize prec emax n 0 false.

(** The number of outputs that equal their label; a prediction is a list of
    (input, output) pairs. *)
Fixpoint count_equal (p : list (Z * Z)) (y : list Z) : Z :=
  match p, y with
  | (_, o) :: p', t :: y' => (if o =? t then 1 else 0) + count_equal p' y'
  | _, _ => 0
  end.

(** Per example, the squared error and its derivative in the weight. *)
Fixpoint squared_errors (p : list (Z * Z)) (y : list Z) : list (Z * Z) :=
  match p, y with
  | (x, o) :: p', t :: y' =>
      ((o - t) * (o - t), 2 * (o - t) * x) :: squared_errors p' y'
  | _, _ => []
  end.

(** Parameters: the weight.  Optimizer state: the number of steps taken.
    A loader holds its batches; a shuffling loader yields them in reverse on
    every other pass. *)
#[export] Instance linear_model : Torch := {|
  Params := Z;
  OptState := nat;
  Rng := nat;
  Loader := bool * list (list Z * list Z);
  X := list Z;
  Y := list Z;
  Pred := list (Z * Z);
  Loss := list (Z * Z);
  Grads := Z;
  iter_loader := fun l g =>
    (if fst l && Nat.odd g then rev (snd l) else snd l, S g);
  shape0 := fun x => Z.of_nat (List.length x);
  net_call := fun w _ x => map (fun xi => (xi, w * xi)) x;
  backward := fun l => sum_Z (map snd l);
  d2l_reduce_sum := fun l => float_of_Z (sum_Z (map fst l));
  d2l_size_loss := fun l => Z.of_nat (List.length l);
  d2l_accuracy := fun p y => float_of_Z (count_equal p y);
  d2l_size := fun y => Z.of_nat (List.length y)
|}.

(** An optimizer that moves the weight one unit against the sign of the
    gradient. *)
Definition sign_descent : Optimizer :=
  {| opt_new := fun _ _ => 0%nat;
     opt_step := fun o w g => (S o, w - Z.sgn g) |}.

Definition squared_error (p : Pred) (y : Y) : Loss := squared_errors p y.

(** Six training examples in batches of two, two validation examples and
    two test examples, all of the line [y = 2 x]. *)
Definition loaders : DataLoaders :=
  {| dl_train := (true, [([1; 2], [2; 4]); ([3; 4], [6; 8]); ([5; 6], [10; 12])]);
     dl_val := (false, [([7; 8], [14; 16])]);
     dl_test := (false, [([9; 10], [18; 20])]) |}.

(** The same with an empty train partition. *)
Definition loaders_no_train : DataLoaders :=
  {| dl_train := (true, []);
     dl_val := dl_val loaders;
     dl_test := dl_test loaders |}.

Definition initial : State :=
  {| params := 0; training := false; opt_state := 0%nat; rng := 0%nat;
     files := []; curves := []; laps_train := 0; laps_val := 0;
     stdout := [] |}.

Definition learning_rate : float := S754_finite false 5534023222112865 (-62).

End Example.

(** * Proofs *)

(** ** Rounding of binary64 *)

Section Rounding.
Import PyFloat.

Lemma iter_pos_nat {A} (f : A -> A) (p : positive) (x : A) :
  iter_pos f p x = Nat.iter (Pos.to_nat p) f x.
Proof.
  revert x. induction p as [p IH|p IH|]; intro x; cbn [iter_pos].
  - rewrite !IH. rewrite Pos2Nat.inj_xI.
    replace (S (2 * Pos.to_nat p))%nat with (Pos.to_nat p + (Pos.to_nat p + 1))%nat by lia.
    rewrite !Nat.iter_add. reflexivity.
  - rewrite !IH. rewrite Pos2Nat.inj_xO.
    replace (2 * Pos.to_nat p)%nat with (Pos.to_nat p + Pos.to_nat p)%nat by lia.
    rewrite Nat.iter_add. reflexivity.
  - reflexivity.
Qed.

(** One shift keeps the quotient by two and records what was lost. *)
Lemma shr_1_m (mrs : shr_record) :
  0 <= shr_m mrs -> shr_m (shr_1 mrs) = shr_m mrs / 2.
Proof.
  destruct mrs as [m r s]; simpl. intros Hm.
  destruct m as [|p|p]; simpl; try lia.
  - reflexivity.
  - destruct p; simpl.
    + rewrite Pos2Z.inj_xI. apply Z.div_unique with 1; lia.
    + rewrite Pos2Z.inj_xO. apply Z.div_unique with 0; lia.
    + reflexivity.
Qed.

Lemma shr_1_sticky (mrs : shr_record) :
  0 <= shr_m mrs ->
  orb (shr_r (shr_1 mrs)) (shr_s (shr_1 mrs)) = false ->
  shr_m mrs mod 2 = 0 /\ orb (shr_r mrs) (shr_s mrs) = false.
Proof.
  destruct mrs as [m r s]; simpl. intros Hm.
  destruct m as [|p|p]; simpl; try lia.
  - intros H. split; [reflexivity|exact H].
  - destruct p; simpl; intros H; try discriminate.
    split; [|exact H]. rewrite Pos2Z.inj_xO. symmetry.
    apply Z.mod_unique with (Z.pos p); lia.
Qed.

Lemma shr_iter_spec (k : nat) (m : Z) :
  0 <= m ->
  let mrs := Nat.iter k shr_1 (Build_shr_record m false false) in
  shr_m mrs = m / 2 ^ Z.of_nat k /\
  (m mod 2 ^ Z.of_nat k = 0 -> orb (shr_r mrs) (shr_s mrs) = false) /\
  (orb (shr_r mrs) (shr_s mrs) = false -> m mod 2 ^ Z.of_nat k = 0).
Proof.
  intros Hm. induction k as [|k IH].
  - simpl. rewrite Z.div_1_r, Z.mod_1_r. auto.
  - cbn zeta in *. rewrite Nat2Z.inj_succ, Z.pow_succ_r by lia.
    simpl Nat.iter.
    set (mrs := Nat.iter k shr_1 _) in *.
    destruct IH as (IHm & IHe & IHs).
    assert (Hpos : 0 < 2 ^ Z.of_nat k) by (apply Z.pow_pos_nonneg; lia).
    assert (Hq : 0 <= shr_m mrs) by (rewrite IHm; apply Z.div_pos; lia).
    split; [|split].
    + rewrite shr_1_m by exact Hq. rewrite IHm.
      rewrite Z.div_div by lia. f_equal. lia.
    + intros H0.
      assert (Hk : m mod 2 ^ Z.of_nat k = 0).
      { apply Z.mod_divide in H0; [|lia]. apply Z.mod_divide; [lia|].
        destruct H0 as [c Hc]. exists (c * 2). lia. }
      specialize (IHe Hk).
      assert (Heven : shr_m mrs mod 2 = 0).
      { rewrite IHm. apply Z.mod_divide in H0; [|lia]. destruct H0 as [c Hc].
        subst m. replace (c * (2 * 2 ^ Z.of_nat k)) with ((c * 2) * 2 ^ Z.of_nat k) by lia.
        rewrite Z.div_mul by lia. apply Z.mod_mul. lia. }
      destruct mrs as [mm r s]. simpl in *.
      rewrite IHe. destruct mm as [|p|p]; simpl; try lia; try reflexivity.
      destruct p; simpl; try reflexivity.
      * rewrite Pos2Z.inj_xI in Heven. exfalso.
        rewrite Z.add_comm, Z.mul_comm, Z.mod_add in Heven by lia. discriminate.
      * discriminate.
    + intros H. apply shr_1_sticky in H; [|exact Hq].
      destruct H as [Heven Hrs]. specialize (IHs Hrs).
      rewrite IHm in Heven.
      rewrite Z.mul_comm, Z.rem_mul_r by lia.
      rewrite IHs, Heven. lia.
Qed.

Lemma pow2_pred (d : Z) : 0 < d -> 2 ^ d = 2 * 2 ^ (d - 1).
Proof.
  intros Hd. rewrite <- Z.pow_succ_r by lia. f_equal. lia.
Qed.

Lemma digits2_pos_bounds (p : positive) :
  2 ^ (Z.pos (digits2_pos p) - 1) <= Z.pos p < 2 ^ Z.pos (digits2_pos p).
Proof.
  induction p as [p IH|p IH|]; cbn [digits2_pos].
  - rewrite Pos2Z.inj_succ. change (Z.pos p~1) with (2 * Z.pos p + 1).
    replace (Z.succ (Z.pos (digits2_pos p)) - 1) with (Z.pos (digits2_pos p)) by lia.
    rewrite Z.pow_succ_r by lia.
    pose proof (pow2_pred (Z.pos (digits2_pos p)) ltac:(lia)) as E.
    set (a := 2 ^ Z.pos (digits2_pos p)) in *.
    set (b := 2 ^ (Z.pos (digits2_pos p) - 1)) in *. clearbody a b. lia.
  - rewrite Pos2Z.inj_succ. change (Z.pos p~0) with (2 * Z.pos p).
    replace (Z.succ (Z.pos (digits2_pos p)) - 1) with (Z.pos (digits2_pos p)) by lia.
    rewrite Z.pow_succ_r by lia.
    pose proof (pow2_pred (Z.pos (digits2_pos p)) ltac:(lia)) as E.
    set (a := 2 ^ Z.pos (digits2_pos p)) in *.
    set (b := 2 ^ (Z.pos (digits2_pos p) - 1)) in *. clearbody a b. lia.
  - simpl. lia.
Qed.

Lemma Zdigits2_upper (m d : Z) :
  0 <= d -> 0 <= m < 2 ^ d -> Zdigits2 m <= d.
Proof.
  intros Hd [H0 Hm]. destruct m as [|p|p]; simpl; try lia.
  destruct (digits2_pos_bounds p) as [Hlo _].
  destruct (Z_le_gt_dec (Z.pos (digits2_pos p)) d) as [|Hgt]; [assumption|exfalso].
  assert (2 ^ d <= 2 ^ (Z.pos (digits2_pos p) - 1)) by (apply Z.pow_le_mono_r; lia).
  lia.
Qed.

Lemma shr_spec (m e k : Z) :
  0 <= m ->
  let '(mrs, e') := shr (Build_shr_record m false false) e k in
  e' = e + Z.max 0 k /\
  shr_m mrs = m / 2 ^ Z.max 0 k /\
  (m mod 2 ^ Z.max 0 k = 0 <-> orb (shr_r mrs) (shr_s mrs) = false).
Proof.
  intros Hm. unfold shr. destruct k as [|p|p].
  - simpl. rewrite Z.div_1_r, Z.mod_1_r. repeat split; auto; lia.
  - rewrite iter_pos_nat.
    replace (Z.max 0 (Z.pos p)) with (Z.of_nat (Pos.to_nat p)) by lia.
    destruct (shr_iter_spec (Pos.to_nat p) m Hm) as (H1 & H2 & H3).
    repeat split; auto. lia.
  - simpl. rewrite Z.div_1_r, Z.mod_1_r. repeat split; auto; lia.
Qed.

Lemma round_nearest_even_spec (mrs : shr_record) :
  let q := shr_m mrs in
  let q' := round_nearest_even q (loc_of_shr_record mrs) in
  q <= q' <= q + 1 /\ (orb (shr_r mrs) (shr_s mrs) = false -> q' = q).
Proof.
  destruct mrs as [q r s]. simpl.
  destruct r, s; simpl; try (split; [lia|intros; try discriminate; reflexivity]).
  destruct (Z.even q); split; try lia; discriminate.
Qed.

Lemma fexp_64 e : fexp 53 1024 e = fexp64 e.
Proof. reflexivity. Qed.

Lemma round_aux_spec (s : bool) (m : positive) (e : Z) :
  let k := Z.max 0 (fexp64 (Z.pos (digits2_pos m) + e) - e) in
  exists m2 : Z,
    Z.pos m / 2 ^ k <= m2 <= Z.pos m / 2 ^ k + 1 /\
    (Z.pos m mod 2 ^ k = 0 -> m2 = Z.pos m / 2 ^ k) /\
    m2 <= 2 ^ 53 /\
    binary_round_aux 53 1024 s (Z.pos m) e loc_Exact = encode s m2 (e + k).
Proof.
  intros k. unfold binary_round_aux, shr_fexp.
  cbn [shr_record_of_loc Zdigits2]. rewrite fexp_64. fold k.
  pose proof (shr_spec (Z.pos m) e (fexp64 (Z.pos (digits2_pos m) + e) - e) ltac:(lia)) as Hs.
  destruct (shr _ e _) as [mrs e'].
  fold k in Hs. destruct Hs as (He' & Hq & Hex).
  pose proof (round_nearest_even_spec mrs) as Hr. cbn zeta in Hr.
  set (m2 := round_nearest_even (shr_m mrs) (loc_of_shr_record mrs)) in *.
  rewrite Hq in Hr. destruct Hr as [Hb Hexact].
  assert (Hk0 : 0 <= k) by (unfold k; lia).
  assert (Hpk : 0 < 2 ^ k) by (apply Z.pow_pos_nonneg; lia).
  assert (Hq0 : 0 <= Z.pos m / 2 ^ k) by (apply Z.div_pos; lia).
  assert (Hlt : Z.pos m / 2 ^ k < 2 ^ 53).
  { destruct (digits2_pos_bounds m) as [_ Hhi].
    apply Z.div_lt_upper_bound; [lia|].
    rewrite <- Z.pow_add_r by lia.
    eapply Z.lt_le_trans; [exact Hhi|].
    apply Z.pow_le_mono_r; [lia|]. unfold k, fexp64. lia. }
  exists m2. split; [exact Hb|]. split; [intros H; apply Hexact, Hex, H|].
  split; [lia|].
  subst e'.
  assert (Hfe : -1074 <= e + k).
  { unfold k, fexp64. lia. }
  pose proof (shr_spec m2 (e + k) (fexp 53 1024 (Zdigits2 m2 + (e + k)) - (e + k)) ltac:(lia)) as Hs2.
  rewrite fexp_64 in *.
  destruct (shr _ (e + k) _) as [mrs2 e2].
  destruct Hs2 as (He2 & Hq2 & _).
  unfold encode.
  destruct (Z.ltb_spec m2 (2 ^ 53)) as [Hsmall|Hbig].
  - assert (Hd : Zdigits2 m2 <= 53) by (apply Zdigits2_upper; lia).
    assert (Hk2 : Z.max 0 (fexp64 (Zdigits2 m2 + (e + k)) - (e + k)) = 0)
      by (unfold fexp64; lia).
    rewrite Hk2 in *. rewrite Z.div_1_r in Hq2. rewrite Z.add_0_r in He2.
    rewrite Hq2, He2. destruct m2; reflexivity.
  - assert (Hm2 : m2 = 2 ^ 53) by lia.
    rewrite Hm2 in *.
    change (Zdigits2 (2 ^ 53)) with 54 in *.
    assert (Hk2 : Z.max 0 (fexp64 (54 + (e + k)) - (e + k)) = 1)
      by (unfold fexp64; lia).
    rewrite Hk2 in *. rewrite Hq2, He2. reflexivity.
Qed.

(** ** Integer sandwich for rounding *)

Lemma floor_scaled_nonpos_exp (x e : Z) :
  e <= 0 -> floor_scaled x e = x / 2 ^ (- e).
Proof.
  intros He. unfold floor_scaled. destruct (Z.leb_spec 0 e).
  - replace e with 0 by lia. simpl. rewrite Z.div_1_r. lia.
  - reflexivity.
Qed.

Lemma floor_scaled_double (x e : Z) :
  floor_scaled (2 * x) e = floor_scaled x (e + 1).
Proof.
  unfold floor_scaled.
  destruct (Z.leb_spec 0 e), (Z.leb_spec 0 (e + 1)); try lia.
  - rewrite Z.pow_add_r by lia. simpl (2 ^ 1). lia.
  - assert (e = -1) by lia; subst e.
    change (- -1) with 1. change (-1 + 1) with 0.
    rewrite Z.pow_1_r, Z.pow_0_r, Z.mul_1_r, Z.mul_comm, Z.div_mul by lia. reflexivity.
  - replace (- e) with (1 + - (e + 1)) by lia.
    rewrite Z.pow_add_r by lia. simpl (2 ^ 1).
    rewrite Z.div_mul_cancel_l; [reflexivity| |lia].
    apply Z.pow_nonzero; lia.
Qed.

Lemma floor_scaled_0 (e : Z) : floor_scaled 0 e = 0.
Proof.
  unfold floor_scaled. destruct (Z.leb_spec 0 e); [apply Z.mul_0_l|].
  apply Z.div_0_l. apply Z.pow_nonzero; lia.
Qed.

Lemma floor_encode (m2 e0 : Z) :
  0 <= m2 <= 2 ^ 53 ->
  encode false m2 e0 = S754_infinity false \/
  floor (encode false m2 e0) = Ok (floor_scaled m2 e0).
Proof.
  intros Hm. unfold encode. destruct m2 as [|p|p]; try lia.
  - right. rewrite floor_scaled_0. reflexivity.
  - destruct (Z.ltb_spec (Z.pos p) (2 ^ 53)).
    + destruct (e0 <=? 971); [right; reflexivity|left; reflexivity].
    + destruct (e0 + 1 <=? 971); [right|left; reflexivity].
      assert (Hp : Z.pos p = 2 ^ 53) by lia. injection Hp as ->.
      cbn [floor signed]. f_equal.
      change (Z.pos (Pos.div2 9007199254740992)) with (2 ^ 52).
      rewrite <- floor_scaled_double. reflexivity.
Qed.

Lemma ceil_encode (m2 e0 : Z) :
  0 <= m2 <= 2 ^ 53 -> e0 + 1 <= 971 ->
  ceil (encode false m2 e0) = Ok (- floor_scaled (- m2) e0).
Proof.
  intros Hm He. unfold encode. destruct m2 as [|p|p]; try lia.
  - change (- 0) with 0. rewrite floor_scaled_0. reflexivity.
  - destruct (Z.ltb_spec (Z.pos p) (2 ^ 53)).
    + destruct (Z.leb_spec e0 971); [reflexivity|lia].
    + destruct (Z.leb_spec (e0 + 1) 971); [|lia].
      assert (Hp : Z.pos p = 2 ^ 53) by lia. injection Hp as ->.
      cbn [ceil signed]. f_equal. f_equal.
      change (- Z.pos (Pos.div2 9007199254740992)) with (- 2 ^ 52).
      change (- Z.pos 9007199254740992) with (2 * - 2 ^ 52).
      rewrite floor_scaled_double. reflexivity.
Qed.

Lemma pow2_pos (a : Z) : 0 <= a -> 0 < 2 ^ a.
Proof. intros. apply Z.pow_pos_nonneg; lia. Qed.

Lemma floor_scaled_mono (x y e : Z) :
  x <= y -> floor_scaled x e <= floor_scaled y e.
Proof.
  intros Hxy. unfold floor_scaled. destruct (Z.leb_spec 0 e).
  - apply Z.mul_le_mono_nonneg_r; [|exact Hxy]. pose proof (pow2_pos e); lia.
  - apply Z.div_le_mono; [|exact Hxy]. apply pow2_pos; lia.
Qed.

Lemma floor_scaled_nonneg (x e : Z) : 0 <= x -> 0 <= floor_scaled x e.
Proof.
  intros Hx. rewrite <- (floor_scaled_0 e). apply floor_scaled_mono, Hx.
Qed.

Lemma ceil_scaled_nonneg (x e : Z) : 0 <= x -> 0 <= - floor_scaled (- x) e.
Proof.
  intros Hx. pose proof (floor_scaled_mono (- x) 0 e ltac:(lia)) as H.
  rewrite floor_scaled_0 in H. lia.
Qed.

Lemma floor_le_ceil_scaled (x e : Z) :
  floor_scaled x e <= - floor_scaled (- x) e.
Proof.
  unfold floor_scaled. destruct (Z.leb_spec 0 e); [lia|].
  pose proof (pow2_pos (- e) ltac:(lia)) as HP.
  pose proof (Z.mul_div_le x _ HP).
  pose proof (Z.mul_div_le (- x) _ HP).
  set (P := 2 ^ (- e)) in *. clearbody P.
  set (a := x / P) in *. set (b := - x / P) in *. clearbody a b.
  pose proof (Z.mod_pos_bound x P HP). pose proof (Z.mod_pos_bound (- x) P HP).
  nia.
Qed.

(** [ceil (x * 2^e) <= n] read on integers. *)
Lemma ceil_scaled_le (x e n : Z) :
  - floor_scaled (- x) e <= n <->
  (if 0 <=? e then x * 2 ^ e <= n else x <= n * 2 ^ (- e)).
Proof.
  unfold floor_scaled. destruct (Z.leb_spec 0 e) as [He|He].
  - rewrite Z.mul_opp_l. lia.
  - pose proof (pow2_pos (- e) ltac:(lia)) as HP.
    set (P := 2 ^ (- e)) in *. clearbody P.
    split; intros H.
    + assert (- n <= - x / P) by lia.
      pose proof (Z.mul_div_le (- x) P HP). nia.
    + assert (- n <= - x / P); [|lia].
      apply Z.div_le_lower_bound; [exact HP|]. nia.
Qed.

(** [n <= floor (x * 2^e)] read on integers. *)
Lemma floor_scaled_ge (x e n : Z) :
  n <= floor_scaled x e <->
  (if 0 <=? e then n <= x * 2 ^ e else n * 2 ^ (- e) <= x).
Proof.
  unfold floor_scaled. destruct (Z.leb_spec 0 e) as [He|He].
  - reflexivity.
  - pose proof (pow2_pos (- e) ltac:(lia)) as HP.
    set (P := 2 ^ (- e)) in *. clearbody P.
    split; intros H.
    + pose proof (Z.mul_div_le x P HP). nia.
    + apply Z.div_le_lower_bound; [exact HP|]. nia.
Qed.

Lemma pow2_lt_exp (a b : Z) : 0 <= b -> 2 ^ a < 2 ^ b -> a < b.
Proof.
  intros Hb H. destruct (Z_lt_ge_dec a b) as [|Hge]; [assumption|exfalso].
  assert (2 ^ b <= 2 ^ a) by (apply Z.pow_le_mono_r; lia). lia.
Qed.

Lemma pow2_split (a b : Z) : 0 <= a -> 0 <= b -> 2 ^ (a + b) = 2 ^ a * 2 ^ b.
Proof. intros. apply Z.pow_add_r; assumption. Qed.

(** Rounding an exact positive [m * 2^e] that lies below an integer
    [n < 2^53] stays below [n]: the result is finite and its ceiling is
    at most [n]. *)
Lemma round_le_int (m : positive) (e n : Z) :
  n < 2 ^ 53 ->
  - floor_scaled (- Z.pos m) e <= n ->
  exists c : Z,
    ceil (binary_round_aux 53 1024 false (Z.pos m) e loc_Exact) = Ok c /\
    0 <= c <= n.
Proof.
  intros Hn Hle.
  destruct (round_aux_spec false m e) as (m2 & Hb & Hex & H53 & Heq).
  cbn zeta in *. rewrite Heq. clear Heq.
  set (d := Z.pos (digits2_pos m)) in *.
  destruct (digits2_pos_bounds m) as [Hlo Hhi]. fold d in Hlo, Hhi.
  assert (Hd : 1 <= d) by (unfold d; lia).
  set (k := Z.max 0 (fexp64 (d + e) - e)) in *.
  assert (Hk0 : 0 <= k) by (unfold k; lia).
  pose proof (pow2_pos k Hk0) as HK.
  assert (Hq0 : 0 <= Z.pos m / 2 ^ k) by (apply Z.div_pos; lia).
  apply ceil_scaled_le in Hle.
  destruct (Z.leb_spec 0 e) as [He|He].
  - (* e >= 0: nothing is shifted out *)
    pose proof (pow2_pos e He) as HE.
    assert (Hm53 : Z.pos m < 2 ^ 53) by nia.
    assert (Hd53 : d - 1 < 53) by (apply pow2_lt_exp; lia).
    assert (He53 : e < 53).
    { apply pow2_lt_exp; [lia|]. nia. }
    assert (Hk : k = 0) by (unfold k, fexp64; lia).
    rewrite Hk in *. rewrite Z.div_1_r, Z.mod_1_r in *.
    specialize (Hex eq_refl). subst m2. rewrite Z.add_0_r.
    rewrite ceil_encode by lia.
    eexists; split; [reflexivity|]. split.
    + apply ceil_scaled_nonneg; lia.
    + apply ceil_scaled_le. destruct (Z.leb_spec 0 e); [exact Hle|lia].
  - (* e < 0 *)
    pose proof (pow2_pos (- e) ltac:(lia)) as HE.
    assert (Hn0 : 0 < n) by nia.
    assert (Hde : d - 1 < 53 - e).
    { apply pow2_lt_exp; [lia|].
      replace (53 - e) with (53 + - e) by lia. rewrite pow2_split by lia.
      nia. }
    assert (HE0 : e + k <= 0) by (unfold k, fexp64; lia).
    rewrite ceil_encode by lia.
    eexists; split; [reflexivity|]. split.
    + apply ceil_scaled_nonneg; lia.
    + apply ceil_scaled_le.
      destruct (Z.leb_spec 0 (e + k)) as [Hz|Hz].
      * assert (Hek : e + k = 0) by lia. rewrite Hek, Z.pow_0_r, Z.mul_1_r.
        replace (- e) with k in * by lia.
        destruct (Z.eq_dec (Z.pos m mod 2 ^ k) 0) as [Hr|Hr].
        -- rewrite (Hex Hr). apply Z.div_le_upper_bound; lia.
        -- pose proof (Z.div_mod (Z.pos m) (2 ^ k) ltac:(lia)).
           pose proof (Z.mod_pos_bound (Z.pos m) (2 ^ k) HK).
           set (q := Z.pos m / 2 ^ k) in *. set (r := Z.pos m mod 2 ^ k) in *.
           set (K := 2 ^ k) in *. clearbody q r K. nia.
      * assert (HP : 2 ^ (- e) = 2 ^ (- (e + k)) * 2 ^ k).
        { rewrite <- pow2_split by lia. f_equal. lia. }
        pose proof (pow2_pos (- (e + k)) ltac:(lia)) as HE0'.
        rewrite HP in Hle.
        destruct (Z.eq_dec (Z.pos m mod 2 ^ k) 0) as [Hr|Hr].
        -- rewrite (Hex Hr). apply Z.div_le_upper_bound; [lia|].
           set (K := 2 ^ k) in *. set (P := 2 ^ (- (e + k))) in *.
           clearbody K P. nia.
        -- pose proof (Z.div_mod (Z.pos m) (2 ^ k) ltac:(lia)).
           pose proof (Z.mod_pos_bound (Z.pos m) (2 ^ k) HK).
           set (q := Z.pos m / 2 ^ k) in *. set (r := Z.pos m mod 2 ^ k) in *.
           set (K := 2 ^ k) in *. set (P := 2 ^ (- (e + k))) in *.
           clearbody q r K P. nia.
Qed.

(** Rounding an exact positive [m * 2^e] that lies above an integer
    [n < 2^53] stays above [n]: the result is [+inf] or its floor is at
    least [n]. *)
Lemma round_ge_int (m : positive) (e n : Z) :
  n < 2 ^ 53 ->
  n <= floor_scaled (Z.pos m) e ->
  let r := binary_round_aux 53 1024 false (Z.pos m) e loc_Exact in
  r = S754_infinity false \/
  exists f : Z, floor r = Ok f /\ n <= f.
Proof.
  intros Hn Hge r. subst r.
  destruct (round_aux_spec false m e) as (m2 & Hb & Hex & H53 & Heq).
  cbn zeta in *. rewrite Heq. clear Heq.
  set (d := Z.pos (digits2_pos m)) in *.
  destruct (digits2_pos_bounds m) as [Hlo Hhi]. fold d in Hlo, Hhi.
  assert (Hd : 1 <= d) by (unfold d; lia).
  set (k := Z.max 0 (fexp64 (d + e) - e)) in *.
  assert (Hk0 : 0 <= k) by (unfold k; lia).
  pose proof (pow2_pos k Hk0) as HK.
  assert (Hq0 : 0 <= Z.pos m / 2 ^ k) by (apply Z.div_pos; lia).
  destruct (floor_encode m2 (e + k) ltac:(lia)) as [Hinf|Hfl]; [left; exact Hinf|right].
  eexists; split; [exact Hfl|].
  apply Z.le_trans with (floor_scaled (Z.pos m / 2 ^ k) (e + k));
    [|apply floor_scaled_mono; lia].
  destruct (Z.eq_dec k 0) as [Hk|Hk].
  - rewrite Hk, Z.div_1_r, Z.add_0_r. exact Hge.
  - assert (Hkpos : 0 < k) by lia.
    assert (HE0 : e + k = fexp64 (d + e)) by (unfold k; lia).
    destruct (Z_le_gt_dec (e + k) 0) as [Hz|Hz].
    + (* the rounded exponent is not positive: divide in two steps *)
      rewrite floor_scaled_nonpos_exp by lia.
      rewrite floor_scaled_nonpos_exp in Hge by lia.
      rewrite Z.div_div by (pose proof (pow2_pos (- (e + k))); lia).
      rewrite <- pow2_split by lia.
      replace (k + - (e + k)) with (- e) by lia. exact Hge.
    + (* the result is normal and at least 2^53 *)
      assert (Hkd : k = d - 53) by (unfold fexp64 in HE0; lia).
      assert (Hq52 : 2 ^ 52 <= Z.pos m / 2 ^ k).
      { apply Z.div_le_lower_bound; [lia|].
        rewrite <- pow2_split by lia.
        replace (k + 52) with (d - 1) by lia. lia. }
      unfold floor_scaled. destruct (Z.leb_spec 0 (e + k)); [|lia].
      assert (2 <= 2 ^ (e + k)).
      { change 2 with (2 ^ 1) at 1. apply Z.pow_le_mono_r; lia. }
      set (q := Z.pos m / 2 ^ k) in *. set (P := 2 ^ (e + k)) in *.
      clearbody q P. change (2 ^ 53) with (2 ^ 52 * 2) in Hn. nia.
Qed.

(** A product or sum of floats with sign bit clear never has a negative
    floor or ceiling. *)
Lemma floor_encode_nonneg (m2 e0 f : Z) :
  0 <= m2 <= 2 ^ 53 -> floor (encode false m2 e0) = Ok f -> 0 <= f.
Proof.
  intros Hm Hf. destruct (floor_encode m2 e0 Hm) as [Hinf|Hfl].
  - rewrite Hinf in Hf. discriminate.
  - rewrite Hfl in Hf. injection Hf as <-. apply floor_scaled_nonneg; lia.
Qed.

Lemma ceil_scaled_le_at (x e n b : Z) :
  b <= e -> b <= 0 ->
  (- floor_scaled (- x) e <= n <-> x * 2 ^ (e - b) <= n * 2 ^ (- b)).
Proof.
  intros Hbe Hb0. rewrite ceil_scaled_le.
  pose proof (pow2_pos (- b) ltac:(lia)) as HB.
  pose proof (pow2_pos (e - b) ltac:(lia)) as HEB.
  destruct (Z.leb_spec 0 e) as [He|He].
  - replace (e - b) with (e + - b) by lia. rewrite pow2_split by lia.
    pose proof (pow2_pos e He).
    set (E := 2 ^ e) in *. set (B := 2 ^ (- b)) in *. clearbody E B.
    split; intros; nia.
  - replace (- b) with (- e + (e - b)) by lia. rewrite pow2_split by lia.
    pose proof (pow2_pos (- e) ltac:(lia)).
    set (E := 2 ^ (- e)) in *. set (B := 2 ^ (e - b)) in *. clearbody E B.
    split; intros; nia.
Qed.

Lemma floor_scaled_ge_at (x e n b : Z) :
  b <= e -> b <= 0 ->
  (n <= floor_scaled x e <-> n * 2 ^ (- b) <= x * 2 ^ (e - b)).
Proof.
  intros Hbe Hb0. rewrite floor_scaled_ge.
  pose proof (pow2_pos (- b) ltac:(lia)) as HB.
  pose proof (pow2_pos (e - b) ltac:(lia)) as HEB.
  destruct (Z.leb_spec 0 e) as [He|He].
  - replace (e - b) with (e + - b) by lia. rewrite pow2_split by lia.
    pose proof (pow2_pos e He).
    set (E := 2 ^ e) in *. set (B := 2 ^ (- b)) in *. clearbody E B.
    split; intros; nia.
  - replace (- b) with (- e + (e - b)) by lia. rewrite pow2_split by lia.
    pose proof (pow2_pos (- e) ltac:(lia)).
    set (E := 2 ^ (- e)) in *. set (B := 2 ^ (e - b)) in *. clearbody E B.
    split; intros; nia.
Qed.

Lemma iter_xO_pow (m d : positive) :
  Z.pos (Pos.iter xO m d) = Z.pos m * 2 ^ Z.pos d.
Proof.
  induction d as [|d IH] using Pos.peano_ind.
  - simpl. lia.
  - rewrite Pos.iter_succ, Pos2Z.inj_succ, Z.pow_succ_r by lia.
    change (Z.pos (Pos.iter xO m d)~0) with (2 * Z.pos (Pos.iter xO m d)).
    rewrite IH. lia.
Qed.

Lemma shl_align_spec (mx : positive) (ex ex' : Z) :
  let '(mz, ez) := shl_align mx ex ex' in
  ez = Z.min ex ex' /\ Z.pos mz = Z.pos mx * 2 ^ (ex - ez).
Proof.
  unfold shl_align. destruct (ex' - ex) as [|d|d] eqn:Hd.
  - split; [lia|]. rewrite Z.sub_diag. simpl. lia.
  - split; [lia|]. rewrite Z.sub_diag. simpl. lia.
  - split; [lia|]. rewrite iter_xO_pow. f_equal. f_equal. lia.
Qed.

Lemma floor_scaled_shift (x e j : Z) :
  0 <= j -> floor_scaled (x * 2 ^ j) (e - j) = floor_scaled x e.
Proof.
  intros Hj. revert e. pattern j. apply natlike_ind; [| |exact Hj].
  - intros e. rewrite Z.pow_0_r, Z.mul_1_r, Z.sub_0_r. reflexivity.
  - intros i Hi IH e. rewrite Z.pow_succ_r by lia.
    replace (x * (2 * 2 ^ i)) with (2 * (x * 2 ^ i)) by lia.
    rewrite floor_scaled_double.
    replace (e - Z.succ i + 1) with (e - i) by lia. apply IH.
Qed.

Lemma encode_sign_clear (m2 e0 : Z) : 0 <= m2 -> sign_clear (encode false m2 e0) = true.
Proof.
  intros Hm. unfold encode. destruct m2 as [|p|p]; try lia; [reflexivity|].
  destruct (Z.pos p <? 2 ^ 53).
  - destruct (e0 <=? 971); reflexivity.
  - destruct (e0 + 1 <=? 971); reflexivity.
Qed.

Lemma round_aux_sign_clear (m : positive) (e : Z) :
  sign_clear (binary_round_aux 53 1024 false (Z.pos m) e loc_Exact) = true.
Proof.
  destruct (round_aux_spec false m e) as (m2 & Hb & _ & _ & Heq).
  cbn zeta in *. rewrite Heq. apply encode_sign_clear.
  assert (0 <= Z.pos m / 2 ^ Z.max 0 (fexp64 (Z.pos (digits2_pos m) + e) - e)).
  { apply Z.div_pos; [lia|]. apply pow2_pos. lia. }
  lia.
Qed.

Lemma binary_round_spec (m : positive) (e : Z) :
  exists (mz : positive) (ez : Z),
    binary_round 53 1024 false m e
    = binary_round_aux 53 1024 false (Z.pos mz) ez loc_Exact /\
    floor_scaled (Z.pos mz) ez = floor_scaled (Z.pos m) e /\
    floor_scaled (- Z.pos mz) ez = floor_scaled (- Z.pos m) e.
Proof.
  unfold binary_round.
  pose proof (shl_align_spec m e (fexp 53 1024 (Z.pos (digits2_pos m) + e))) as Hs.
  destruct (shl_align m e _) as [mz ez]. destruct Hs as [Hez Hmz].
  exists mz, ez. split; [reflexivity|].
  rewrite Hmz. replace ez with (e - (e - ez)) at 2 4 by lia.
  split.
  - apply floor_scaled_shift. lia.
  - rewrite <- Z.mul_opp_l. apply floor_scaled_shift. lia.
Qed.

Lemma binary_round_le_int (m : positive) (e n : Z) :
  n < 2 ^ 53 ->
  - floor_scaled (- Z.pos m) e <= n ->
  le_int (binary_round 53 1024 false m e) n.
Proof.
  intros Hn Hle. destruct (binary_round_spec m e) as (mz & ez & -> & _ & Hc).
  rewrite <- Hc in Hle.
  destruct (round_le_int mz ez n Hn Hle) as (c & Hceil & Hb).
  exists c. split; [exact Hceil|lia].
Qed.

Lemma binary_round_ge_int (m : positive) (e n : Z) :
  n < 2 ^ 53 ->
  n <= floor_scaled (Z.pos m) e ->
  ge_int (binary_round 53 1024 false m e) n.
Proof.
  intros Hn Hge. destruct (binary_round_spec m e) as (mz & ez & -> & Hf & _).
  rewrite <- Hf in Hge. exact (round_ge_int mz ez n Hn Hge).
Qed.

Lemma binary_round_sign_clear (m : positive) (e : Z) :
  sign_clear (binary_round 53 1024 false m e) = true.
Proof.
  destruct (binary_round_spec m e) as (mz & ez & -> & _).
  apply round_aux_sign_clear.
Qed.

(** [float(n)] of a small non-negative int is that int. *)
Lemma of_int_exact (n : Z) :
  0 <= n < 2 ^ 53 ->
  exists a : float,
    of_int n = Ok a /\ sign_clear a = true /\ le_int a n /\ ge_int a n.
Proof.
  intros [H0 Hn]. unfold of_int, binary_normalize.
  destruct n as [|p|p]; try lia.
  - exists (S754_zero false). repeat split.
    + exists 0. split; [reflexivity|lia].
    + right. exists 0. split; [reflexivity|lia].
  - pose proof (binary_round_sign_clear p 0) as Hs.
    assert (Hle : le_int (binary_round 53 1024 false p 0) (Z.pos p)).
    { apply binary_round_le_int; [exact Hn|].
      unfold floor_scaled. simpl. lia. }
    assert (Hge : ge_int (binary_round 53 1024 false p 0) (Z.pos p)).
    { apply binary_round_ge_int; [exact Hn|].
      unfold floor_scaled. simpl. lia. }
    change (PyFloat.prec) with 53. change PyFloat.emax with 1024.
    destruct (binary_round 53 1024 false p 0) as [s|s| |s m e] eqn:Hr.
    + eexists; repeat split; eauto.
    + destruct Hle as (c & Hc & _). discriminate.
    + discriminate.
    + eexists; repeat split; eauto.
Qed.

Lemma in_unit_interval_inv (u : float) :
  in_unit_interval u = true ->
  exists (m : positive) (e : Z),
    u = S754_finite false m e /\ - floor_scaled (- Z.pos m) e <= 1.
Proof.
  destruct u as [s|s| |s m e]; try discriminate.
  destruct s; [discriminate|]. cbn [in_unit_interval]. intros H.
  exists m, e. split; [reflexivity|]. apply ceil_scaled_le.
  destruct (0 <=? e); [apply Z.leb_le in H|apply Z.leb_le in H]; lia.
Qed.

Lemma fmul_finite_le (ma mu : positive) (ea eu n : Z) :
  n < 2 ^ 53 ->
  - floor_scaled (- Z.pos ma) ea <= n ->
  - floor_scaled (- Z.pos mu) eu <= 1 ->
  - floor_scaled (- Z.pos (ma * mu)) (ea + eu) <= n.
Proof.
  intros Hn Ha Hu.
  set (ba := Z.min ea 0). set (bu := Z.min eu 0).
  apply (ceil_scaled_le_at _ _ _ ba) in Ha; [|lia|lia].
  apply (ceil_scaled_le_at _ _ _ bu) in Hu; [|lia|lia].
  apply (ceil_scaled_le_at _ _ _ (ba + bu)); [lia|lia|].
  replace (ea + eu - (ba + bu)) with ((ea - ba) + (eu - bu)) by lia.
  replace (- (ba + bu)) with (- ba + - bu) by lia.
  rewrite !pow2_split by lia. rewrite Pos2Z.inj_mul.
  pose proof (pow2_pos (ea - ba) ltac:(lia)).
  pose proof (pow2_pos (eu - bu) ltac:(lia)).
  pose proof (pow2_pos (- ba) ltac:(lia)).
  pose proof (pow2_pos (- bu) ltac:(lia)).
  set (A := 2 ^ (ea - ba)) in *. set (U := 2 ^ (eu - bu)) in *.
  set (BA := 2 ^ (- ba)) in *. set (BU := 2 ^ (- bu)) in *.
  clearbody A U BA BU.
  assert (0 < Z.pos ma * A) by nia.
  assert (0 < Z.pos mu * U) by nia.
  assert (Z.pos ma * A * (Z.pos mu * U) <= n * BA * (1 * BU)).
  { apply Z.mul_le_mono_nonneg; lia. }
  nia.
Qed.

(** Multiplying a float that is at most [n] by a float in (0, 1] gives a
    float that is at most [n], on either side. *)
Lemma fmul_unit_le (a u : float) (n : Z) :
  n < 2 ^ 53 ->
  sign_clear a = true -> le_int a n -> in_unit_interval u = true ->
  (sign_clear (fmul a u) = true /\ le_int (fmul a u) n) /\
  (sign_clear (fmul u a) = true /\ le_int (fmul u a) n).
Proof.
  intros Hn Hs (c & Hc & Hcn) Hu.
  destruct (in_unit_interval_inv u Hu) as (mu & eu & -> & Hu1).
  destruct a as [s|s| |s ma ea]; try discriminate; destruct s; try discriminate.
  - simpl in Hc. injection Hc as <-.
    split; (split; [reflexivity|exists 0; split; [reflexivity|lia]]).
  - cbn [ceil signed] in Hc. injection Hc as <-.
    unfold fmul, SFmul. cbn [xorb].
    rewrite (Pos.mul_comm mu ma), (Z.add_comm eu ea).
    change PyFloat.prec with 53. change PyFloat.emax with 1024.
    pose proof (round_aux_sign_clear (ma * mu) (ea + eu)) as Hsc.
    destruct (round_le_int (ma * mu) (ea + eu) n Hn) as (c' & Hc' & Hb).
    { apply fmul_finite_le; assumption. }
    assert (Hle : le_int (binary_round_aux 53 1024 false (Z.pos (ma * mu)) (ea + eu) loc_Exact) n)
      by (exists c'; split; [exact Hc'|lia]).
    auto.
Qed.

Lemma in_unit_interval_0_9 : in_unit_interval lit_0_9 = true.
Proof. reflexivity. Qed.

Lemma in_unit_interval_0_1 : in_unit_interval lit_0_1 = true.
Proof. reflexivity. Qed.

Lemma floor_of_le_int (a : float) (n : Z) :
  sign_clear a = true -> le_int a n ->
  exists f : Z, floor a = Ok f /\ 0 <= f <= n.
Proof.
  intros Hs (c & Hc & Hcn).
  destruct a as [s|s| |s m e]; try discriminate; destruct s; try discriminate.
  - exists 0. simpl in *. injection Hc as <-. split; [reflexivity|lia].
  - cbn [ceil floor signed] in *. injection Hc as <-.
    eexists; split; [reflexivity|]. split.
    + apply floor_scaled_nonneg; lia.
    + pose proof (floor_le_ceil_scaled (Z.pos m) e) as H.
      change (- Z.pos m) with (Z.neg m) in *. lia.
Qed.

Lemma ceil_of_le_int (a : float) (n : Z) :
  sign_clear a = true -> le_int a n ->
  exists c : Z, ceil a = Ok c /\ 0 <= c <= n.
Proof.
  intros Hs (c & Hc & Hcn). exists c. split; [exact Hc|].
  destruct a as [s|s| |s m e]; try discriminate; destruct s; try discriminate.
  - simpl in Hc. injection Hc as <-. lia.
  - cbn [ceil signed] in Hc. injection Hc as <-.
    split; [|lia]. change (Z.neg m) with (- Z.pos m).
    apply ceil_scaled_nonneg; lia.
Qed.

End Rounding.

(** ** Small non-negative ints as doubles *)

Section SmallInts.
Import PyFloat.

(** The double of an int [n] with [0 <= n < 2^53]: the int itself, its
    mantissa shifted to 53 binary digits. *)
Definition float_of (n : Z) : float :=
  match n with
  | Z.pos _ =>
      S754_finite false (Z.to_pos (n * 2 ^ (52 - Z.log2 n))) (Z.log2 n - 52)
  | _ => fzero
  end.

(** [m * 2^e = n], without fractions. *)
Definition scaled (m e n : Z) : Prop :=
  m * 2 ^ Z.max 0 e = n * 2 ^ Z.max 0 (- e).

Lemma scaled_shift (m e n j : Z) :
  0 <= j -> scaled m e n -> scaled (m * 2 ^ j) (e - j) n.
Proof.
  unfold scaled. intros Hj H.
  destruct (Z_le_gt_dec 0 e) as [He|He].
  - replace (Z.max 0 e) with e in H by lia.
    replace (Z.max 0 (- e)) with 0 in H by lia.
    rewrite Z.pow_0_r, Z.mul_1_r in H. subst n.
    destruct (Z_le_gt_dec j e) as [Hje|Hje].
    + replace (Z.max 0 (e - j)) with (e - j) by lia.
      replace (Z.max 0 (- (e - j))) with 0 by lia.
      rewrite Z.pow_0_r, Z.mul_1_r, <- Z.mul_assoc, <- Z.pow_add_r by lia.
      do 2 f_equal. lia.
    + replace (Z.max 0 (e - j)) with 0 by lia.
      replace (Z.max 0 (- (e - j))) with (j - e) by lia.
      rewrite Z.pow_0_r, Z.mul_1_r, <- Z.mul_assoc, <- Z.pow_add_r by lia.
      do 2 f_equal. lia.
  - replace (Z.max 0 e) with 0 in H by lia.
    replace (Z.max 0 (- e)) with (- e) in H by lia.
    rewrite Z.pow_0_r, Z.mul_1_r in H. subst m.
    replace (Z.max 0 (e - j)) with 0 by lia.
    replace (Z.max 0 (- (e - j))) with (- e + j) by lia.
    rewrite Z.pow_0_r, Z.mul_1_r, <- Z.mul_assoc, <- Z.pow_add_r by lia.
    reflexivity.
Qed.

Lemma scaled_add (m m' e a b : Z) :
  scaled m e a -> scaled m' e b -> scaled (m + m') e (a + b).
Proof. unfold scaled. intros H H'. lia. Qed.

Lemma scaled_digits (m : positive) (e n : Z) :
  0 < n -> scaled (Z.pos m) e n ->
  Z.pos (digits2_pos m) + e = Z.log2 n + 1.
Proof.
  intros Hn H. unfold scaled in H.
  destruct (digits2_pos_bounds m) as [Hlo Hhi].
  set (d := Z.pos (digits2_pos m)) in *.
  assert (Hd : 0 < d) by (unfold d; lia).
  enough (Z.log2 n = d + e - 1) by lia.
  destruct (Z_le_gt_dec 0 e) as [He|He].
  - replace (Z.max 0 e) with e in H by lia.
    replace (Z.max 0 (- e)) with 0 in H by lia.
    rewrite Z.pow_0_r, Z.mul_1_r in H. subst n.
    apply Z.log2_unique; [lia|].
    replace (d + e - 1) with (d - 1 + e) by lia.
    replace (Z.succ (d - 1 + e)) with (d + e) by lia.
    rewrite !Z.pow_add_r by lia.
    pose proof (pow2_pos e He). split.
    + apply Z.mul_le_mono_nonneg_r; lia.
    + apply Z.mul_lt_mono_pos_r; lia.
  - replace (Z.max 0 e) with 0 in H by lia.
    replace (Z.max 0 (- e)) with (- e) in H by lia.
    rewrite Z.pow_0_r, Z.mul_1_r in H.
    pose proof (pow2_pos (- e) ltac:(lia)) as Hp.
    assert (Hj : - e < d).
    { apply pow2_lt_exp; [lia|]. nia. }
    apply Z.log2_unique; [lia|].
    replace (Z.succ (d + e - 1)) with (d + e) by lia.
    assert (E1 : 2 ^ d = 2 ^ (d + e) * 2 ^ (- e)).
    { rewrite <- Z.pow_add_r by lia. f_equal. lia. }
    assert (E2 : 2 ^ (d - 1) = 2 ^ (d + e - 1) * 2 ^ (- e)).
    { rewrite <- Z.pow_add_r by lia. f_equal. lia. }
    rewrite E1 in Hhi. rewrite E2 in Hlo. rewrite H in Hlo, Hhi.
    split; nia.
Qed.

Lemma log2_small (n : Z) : 0 < n < 2 ^ 53 -> 0 <= Z.log2 n <= 52.
Proof.
  intros [H0 Hn]. split; [apply Z.log2_nonneg|].
  enough (Z.log2 n < 53) by lia. apply Z.log2_lt_pow2; assumption.
Qed.

Lemma float_of_scaled (n : Z) :
  0 < n < 2 ^ 53 ->
  exists m : positive,
    float_of n = S754_finite false m (Z.log2 n - 52) /\
    scaled (Z.pos m) (Z.log2 n - 52) n.
Proof.
  intros Hn. pose proof (log2_small n Hn) as HL.
  destruct n as [|p|p]; try lia.
  exists (Z.to_pos (Z.pos p * 2 ^ (52 - Z.log2 (Z.pos p)))).
  split; [reflexivity|].
  pose proof (pow2_pos (52 - Z.log2 (Z.pos p)) ltac:(lia)) as Hp.
  rewrite Z2Pos.id by nia. unfold scaled.
  destruct (Z.eq_dec (Z.log2 (Z.pos p)) 52) as [E|E].
  - rewrite E. change (52 - 52) with 0. change (- 0) with 0.
    change (Z.max 0 0) with 0. rewrite Z.pow_0_r. lia.
  - replace (Z.max 0 (Z.log2 (Z.pos p) - 52)) with 0 by lia.
    replace (Z.max 0 (- (Z.log2 (Z.pos p) - 52)))
      with (52 - Z.log2 (Z.pos p)) by lia.
    rewrite Z.pow_0_r. lia.
Qed.

(** Rounding does nothing to a small int, however it is written. *)
Lemma binary_round_small (m : positive) (e n : Z) :
  0 < n < 2 ^ 53 -> scaled (Z.pos m) e n ->
  binary_round 53 1024 false m e = float_of n.
Proof.
  intros Hn H. pose proof (log2_small n Hn) as HL.
  unfold binary_round.
  rewrite fexp_64, (scaled_digits m e n (proj1 Hn) H).
  replace (fexp64 (Z.log2 n + 1)) with (Z.log2 n - 52) by (unfold fexp64; lia).
  pose proof (shl_align_spec m e (Z.log2 n - 52)) as Hs.
  destruct (shl_align m e (Z.log2 n - 52)) as [mz ez].
  destruct Hs as [Hez Hmz].
  assert (Hz : scaled (Z.pos mz) ez n).
  { rewrite Hmz. replace ez with (e - (e - ez)) at 2 by lia.
    apply scaled_shift; [lia|exact H]. }
  destruct (round_aux_spec false mz ez) as (m2 & _ & Hexact & _ & ->).
  rewrite (scaled_digits mz ez n (proj1 Hn) Hz) in Hexact |- *.
  replace (fexp64 (Z.log2 n + 1)) with (Z.log2 n - 52) in Hexact |- *
    by (unfold fexp64; lia).
  set (k := Z.max 0 (Z.log2 n - 52 - ez)) in *.
  assert (Hk : ez + k = Z.log2 n - 52) by lia.
  assert (Hk0 : 0 <= k) by lia.
  assert (Hm : Z.pos mz = n * 2 ^ (52 - Z.log2 n) * 2 ^ k).
  { unfold scaled in Hz.
    replace (Z.max 0 ez) with 0 in Hz by lia.
    replace (Z.max 0 (- ez)) with (52 - Z.log2 n + k) in Hz by lia.
    rewrite Z.pow_0_r, Z.mul_1_r, Z.pow_add_r in Hz by lia. lia. }
  pose proof (pow2_pos k Hk0) as Hpk.
  rewrite Hm, Z.mod_mul, Z.div_mul in Hexact by lia.
  rewrite (Hexact eq_refl), Hk.
  pose proof (pow2_pos (52 - Z.log2 n) ltac:(lia)) as Hp.
  assert (Hlt : n * 2 ^ (52 - Z.log2 n) < 2 ^ 53).
  { destruct (Z.log2_spec n (proj1 Hn)) as [_ Hhi].
    replace 53 with (Z.succ (Z.log2 n) + (52 - Z.log2 n)) by lia.
    rewrite Z.pow_add_r by lia. nia. }
  unfold encode, float_of.
  destruct n as [|p|p]; try lia.
  destruct (Z.pos p * 2 ^ (52 - Z.log2 (Z.pos p))) as [|q|q] eqn:Eq; try lia.
  destruct (Z.ltb_spec (Z.pos q) (2 ^ 53)) as [_|]; [|lia].
  destruct (Z.leb_spec (Z.log2 (Z.pos p) - 52) 971) as [_|]; [|lia].
  reflexivity.
Qed.

Lemma of_int_small (n : Z) : 0 <= n < 2 ^ 53 -> of_int n = Ok (float_of n).
Proof.
  intros Hn. unfold of_int, binary_normalize.
  destruct n as [|p|p]; try lia; [reflexivity|].
  change PyFloat.prec with 53. change PyFloat.emax with 1024.
  rewrite (binary_round_small p 0 (Z.pos p)); [|lia|].
  - destruct (float_of_scaled (Z.pos p) ltac:(lia)) as (m & -> & _).
    reflexivity.
  - unfold scaled. reflexivity.
Qed.

(** Adding two small ints as doubles adds them as ints. *)
Lemma fadd_small (a b : Z) :
  0 <= a -> 0 <= b -> a + b < 2 ^ 53 ->
  fadd (float_of a) (float_of b) = float_of (a + b).
Proof.
  intros Ha Hb Hab.
  destruct (Z.eq_dec a 0) as [->|Ha0].
  { destruct b as [|p|p]; try lia; reflexivity. }
  destruct (Z.eq_dec b 0) as [->|Hb0].
  { rewrite Z.add_0_r. destruct a as [|p|p]; try lia. reflexivity. }
  destruct (float_of_scaled a ltac:(lia)) as (ma & -> & Sa).
  destruct (float_of_scaled b ltac:(lia)) as (mb & -> & Sb).
  set (ea := Z.log2 a - 52) in *. set (eb := Z.log2 b - 52) in *.
  unfold fadd, SFadd.
  pose proof (shl_align_spec ma ea (Z.min ea eb)) as Ha'.
  pose proof (shl_align_spec mb eb (Z.min ea eb)) as Hb'.
  destruct (shl_align ma ea (Z.min ea eb)) as [ma' ea'].
  destruct (shl_align mb eb (Z.min ea eb)) as [mb' eb'].
  destruct Ha' as [Hea Hma]. destruct Hb' as [Heb Hmb].
  cbn [fst cond_Zopp]. simpl Z.add. unfold binary_normalize.
  apply binary_round_small; [lia|].
  rewrite Pos2Z.inj_add. apply scaled_add.
  - rewrite Hma. replace (Z.min ea eb) with (ea - (ea - ea')) by lia.
    apply scaled_shift; [lia|exact Sa].
  - rewrite Hmb. replace (Z.min ea eb) with (eb - (eb - eb')) by lia.
    apply scaled_shift; [lia|exact Sb].
Qed.

End SmallInts.

(** ** Dataset split counts *)

Section SplitCounts.
Import PyFloat Datasets.

Lemma scaled_product_counts (lit : float) (n : Z) (used_data : float) :
  0 <= n < 2 ^ 53 ->
  in_unit_interval lit = true ->
  in_unit_interval used_data = true ->
  exists (fn : float) (fl cl : Z),
    of_int n = Ok fn /\
    floor (fmul (fmul lit fn) used_data) = Ok fl /\
    ceil (fmul (fmul lit fn) used_data) = Ok cl /\
    0 <= fl <= n /\ 0 <= cl <= n.
Proof.
  intros Hn Hlit Hu.
  destruct (of_int_exact n Hn) as (fn & Hfn & Hs & Hle & _).
  destruct (fmul_unit_le fn lit n ltac:(lia) Hs Hle Hlit) as [_ [Hs1 Hle1]].
  destruct (fmul_unit_le (fmul lit fn) used_data n ltac:(lia) Hs1 Hle1 Hu)
    as [[Hs2 Hle2] _].
  destruct (floor_of_le_int _ _ Hs2 Hle2) as (fl & Hfl & Hflb).
  destruct (ceil_of_le_int _ _ Hs2 Hle2) as (cl & Hcl & Hclb).
  exists fn, fl, cl. auto.
Qed.

(** C1: for [used_data] in (0, 1] and sources of [n] and [n_test]
    examples, the counts are the floor and ceiling the code writes, they add
    up with the unused remainder to [n], the test count is at most
    [n_test], and no count is negative.  The sizes are lengths of datasets
    held in memory (60000 and 10000 for MNIST and FashionMNIST), which
    convert to a double exactly: they are below [2^53]. *)
Theorem split_counts_spec (n n_test : Z) (used_data : float) :
  0 <= n < 2 ^ 53 -> 0 <= n_test < 2 ^ 53 ->
  in_unit_interval used_data = true ->
  exists (fn ft : float) (train_count validation_count test_count : Z),
    of_int n = Ok fn /\ of_int n_test = Ok ft /\
    floor (fmul (fmul lit_0_9 fn) used_data) = Ok train_count /\
    ceil (fmul (fmul lit_0_1 fn) used_data) = Ok validation_count /\
    ceil (fmul ft used_data) = Ok test_count /\
    train_val_counts n used_data
    = Ok (train_count, validation_count, n - train_count - validation_count) /\
    train_count + validation_count + (n - train_count - validation_count) = n /\
    test_counts n_test used_data = Ok (test_count, n_test - test_count) /\
    test_count <= n_test /\
    0 <= train_count /\ 0 <= validation_count /\ 0 <= test_count.
Proof.
  intros Hn Ht Hu.
  destruct (scaled_product_counts lit_0_9 n used_data Hn in_unit_interval_0_9 Hu)
    as (fn & tr & _ & Hfn & Htr & _ & Htrb & _).
  destruct (scaled_product_counts lit_0_1 n used_data Hn in_unit_interval_0_1 Hu)
    as (fn' & _ & va & Hfn' & _ & Hva & _ & Hvab).
  rewrite Hfn in Hfn'. injection Hfn' as <-.
  destruct (of_int_exact n_test Ht) as (ft & Hft & Hs & Hle & _).
  destruct (fmul_unit_le ft used_data n_test ltac:(lia) Hs Hle Hu) as [[Hs1 Hle1] _].
  destruct (ceil_of_le_int _ _ Hs1 Hle1) as (te & Hte & Hteb).
  exists fn, ft, tr, va, te.
  unfold train_val_counts, test_counts.
  rewrite Hfn, Hft. cbn [rbind]. rewrite Htr, Hva, Hte. cbn [rbind].
  repeat split; try reflexivity; lia.
Qed.

Lemma split_counts_spec_witness :
  exists (fn ft : float) (train_count validation_count test_count : Z),
    of_int 10 = Ok fn /\ of_int 4 = Ok ft /\
    floor (fmul (fmul lit_0_9 fn) lit_1_0) = Ok train_count /\
    ceil (fmul (fmul lit_0_1 fn) lit_1_0) = Ok validation_count /\
    ceil (fmul ft lit_1_0) = Ok test_count /\
    train_val_counts 10 lit_1_0
    = Ok (train_count, validation_count, 10 - train_count - validation_count) /\
    train_count + validation_count + (10 - train_count - validation_count) = 10 /\
    test_counts 4 lit_1_0 = Ok (test_count, 4 - test_count) /\
    test_count <= 4 /\
    0 <= train_count /\ 0 <= validation_count /\ 0 <= test_count.
Proof.
  apply (split_counts_spec 10 4 lit_1_0); [split; [lia|reflexivity] | split; [lia|reflexivity] | reflexivity].
Defined.

End SplitCounts.

(** ** Unrecognized names *)

Section UnrecognizedNames.
Import PyFloat Datasets Networks.

Lemma eqb_neq_false (a b : string) : a <> b -> String.eqb a b = false.
Proof. intros H. apply String.eqb_neq. exact H. Qed.

(** C6: for every dataset name other than "mnist" and "fashionmnist",
    [get_dataset] raises the [ValueError] of its [else] branch, whatever the
    sources, the batch size and [used_data] are: no count is computed, no
    split is made and no loader is returned. *)
Theorem get_dataset_unrecognized
  (MNIST FashionMNIST : Source) (name : string) (batch_size : Z)
  (used_data : float) :
  name <> "mnist" -> name <> "fashionmnist" ->
  load_source MNIST FashionMNIST name
  = Raise (ValueError ("Dataset name " ++ name ++ " was not recognized")) /\
  get_dataset MNIST FashionMNIST name batch_size used_data
  = Raise (ValueError ("Dataset name " ++ name ++ " was not recognized")).
Proof.
  intros H1 H2. unfold get_dataset, load_source.
  rewrite (eqb_neq_false _ _ H1), (eqb_neq_false _ _ H2). split; reflexivity.
Qed.

Lemma get_dataset_unrecognized_witness :
  load_source {| source_train := {| len := 10 |}; source_test := {| len := 4 |} |}
              {| source_train := {| len := 10 |}; source_test := {| len := 4 |} |}
              "not_a_dataset"
  = Raise (ValueError ("Dataset name " ++ "not_a_dataset" ++ " was not recognized")) /\
  get_dataset {| source_train := {| len := 10 |}; source_test := {| len := 4 |} |}
              {| source_train := {| len := 10 |}; source_test := {| len := 4 |} |}
              "not_a_dataset" 60 lit_1_0
  = Raise (ValueError ("Dataset name " ++ "not_a_dataset" ++ " was not recognized")).
Proof.
  apply get_dataset_unrecognized; discriminate.
Defined.

(** C7, as amended: any architecture name other than "lenet" and "arch2"
    raises the [ValueError]; "arch2" without keyword options raises
    [NotImplementedError]; "arch2" with keyword options raises the
    [TypeError] of the call, naming the first option; and whenever
    [create_network] returns a network the name was "lenet", so no network
    is returned in any of these cases. *)
Theorem create_network_failures (arch : string) (kwargs : Kwargs) :
  (arch <> "lenet" -> arch <> "arch2" ->
   create_network arch kwargs
   = Raise (ValueError ("Architecture name " ++ arch ++ " was not recognized"))) /\
  create_network "arch2" [] = Raise NotImplementedError /\
  (forall (k : string) (v : Z) (rest : Kwargs),
     create_network "arch2" ((k, v) :: rest)
     = Raise (TypeError
         ("create_arch2() got an unexpected keyword argument '" ++ k ++ "'"))) /\
  (forall net : Network, create_network arch kwargs = Ok net -> arch = "lenet").
Proof.
  split; [|split; [|split]].
  - intros H1 H2. unfold create_network.
    rewrite (eqb_neq_false _ _ H1), (eqb_neq_false _ _ H2). reflexivity.
  - reflexivity.
  - intros k v rest. reflexivity.
  - intros net. unfold create_network.
    destruct (String.eqb_spec arch "lenet") as [->|_]; [reflexivity|].
    destruct (String.eqb arch "arch2").
    + unfold create_arch2. destruct kwargs as [|[k v] rest]; discriminate.
    + discriminate.
Qed.

Lemma create_network_failures_witness :
  create_network "resnet" [("num_classes", 10)]
  = Raise (ValueError ("Architecture name " ++ "resnet" ++ " was not recognized")) /\
  create_network "arch2" [] = Raise NotImplementedError /\
  create_network "arch2" [("num_classes", 10); ("depth", 3)]
  = Raise (TypeError
      "create_arch2() got an unexpected keyword argument 'num_classes'").
Proof.
  destruct (create_network_failures "resnet" [("num_classes", 10)])
    as (H1 & H2 & H3 & _).
  split; [apply H1; discriminate|]. split; [exact H2|].
  exact (H3 "num_classes" 10 [("depth", 3)]).
Defined.

(** C7 as stated fails when a keyword option is passed along with "arch2":
    the call is rejected with a [TypeError] before [create_arch2] runs. *)
Lemma create_network_arch2_keyword :
  create_network "arch2" [("num_classes", 10)]
  = Raise (TypeError "create_arch2() got an unexpected keyword argument 'num_classes'") /\
  create_network "arch2" [("num_classes", 10)] <> Raise NotImplementedError.
Proof.
  split; [reflexivity|discriminate].
Qed.

End UnrecognizedNames.

(** ** The metric accumulator *)

Section AccumulatorReads.
Import PyFloat Accumulators.
Local Open Scope result_scope.

(** A sequence of [add] calls, in the order made. *)
Fixpoint add_all (data : Accumulator) (rows : list (list Number))
  : result Accumulator :=
  match rows with
  | [] => Ok data
  | row :: rest => data' <-? add data row ;; add_all data' rest
  end.

(** The arguments [train] hands to [add] for one batch. *)
Definition batch_row (b : float * float * Z) : list Number :=
  let '(l, a, s) := b in [Num_float l; Num_float a; Num_int s].

(** [float(s)] for every batch size, stopping at the first that fails. *)
Fixpoint floats_of_sizes (sizes : list Z) : result (list float) :=
  match sizes with
  | [] => Ok []
  | s :: rest =>
      f <-? of_int s ;; fs <-? floats_of_sizes rest ;; Ok (f :: fs)
  end.

(** The running total: a left-to-right sum in double precision. *)
Definition running_total (start : float) (l : list float) : float :=
  fold_left fadd l start.

(** A count channel that is still zero, or has reached one. *)
Definition count_ok (c : float) : Prop := c = fzero \/ ge_int c 1.

Lemma floor_scaled_neg (m : positive) (e : Z) : floor_scaled (Z.neg m) e < 0.
Proof.
  unfold floor_scaled. destruct (Z.leb_spec 0 e) as [He|He].
  - pose proof (pow2_pos e He). nia.
  - pose proof (pow2_pos (- e) ltac:(lia)) as HP.
    apply Z.div_lt_upper_bound; [exact HP|]. lia.
Qed.

Lemma ge_int_one_inv (a : float) :
  ge_int a 1 ->
  a = S754_infinity false \/
  exists (m : positive) (e : Z),
    a = S754_finite false m e /\ 1 <= floor_scaled (Z.pos m) e.
Proof.
  intros [Hinf|(f & Hf & Hle)]; [left; exact Hinf|].
  destruct a as [s|s| |s m e]; simpl in Hf; try discriminate.
  - injection Hf as <-. lia.
  - injection Hf as <-. destruct s; simpl in Hle.
    + pose proof (floor_scaled_neg m e). lia.
    + right. exists m, e. split; [reflexivity|exact Hle].
Qed.

Lemma ge_int_one_nonzero (a : float) : ge_int a 1 -> is_zero a = false.
Proof.
  intros H. destruct (ge_int_one_inv a H) as [->|(m & e & -> & _)]; reflexivity.
Qed.

Lemma fadd_ge_one (a b : float) :
  count_ok a -> ge_int b 1 -> ge_int (fadd a b) 1.
Proof.
  intros Ha Hb.
  destruct (ge_int_one_inv b Hb) as [->|(mb & eb & -> & Hfb)].
  - destruct Ha as [->|Ha]; [left; reflexivity|].
    destruct (ge_int_one_inv a Ha) as [->|(ma & ea & -> & _)]; left; reflexivity.
  - destruct Ha as [->|Ha]; [exact Hb|].
    destruct (ge_int_one_inv a Ha) as [->|(ma & ea & -> & Hfa)];
      [left; reflexivity|].
    unfold fadd, SFadd.
    pose proof (shl_align_spec ma ea (Z.min ea eb)) as Sa.
    pose proof (shl_align_spec mb eb (Z.min ea eb)) as Sb.
    destruct (shl_align ma ea (Z.min ea eb)) as [ma' ea'].
    destruct (shl_align mb eb (Z.min ea eb)) as [mb' eb'].
    destruct Sa as [Hea Hma]. destruct Sb as [_ Hmb].
    cbn [fst cond_Zopp]. simpl Z.add. unfold binary_normalize.
    apply binary_round_ge_int; [reflexivity|].
    rewrite Pos2Z.inj_add.
    apply Z.le_trans with (floor_scaled (Z.pos ma') (Z.min ea eb)).
    + rewrite Hma. rewrite Hea.
      replace (Z.min ea (Z.min ea eb)) with (Z.min ea eb) by lia.
      replace (Z.min ea eb) with (ea - (ea - Z.min ea eb)) at 2 by lia.
      rewrite floor_scaled_shift by lia. exact Hfa.
    + apply floor_scaled_mono. lia.
Qed.

Lemma of_int_ge_one (s : Z) :
  1 <= s < 2 ^ 53 -> exists f : float, of_int s = Ok f /\ ge_int f 1.
Proof.
  intros Hs. destruct (of_int_exact s ltac:(lia)) as (f & Hf & _ & _ & Hge).
  exists f. split; [exact Hf|].
  destruct Hge as [Hinf|(k & Hk & Hle)]; [left; exact Hinf|].
  right. exists k. split; [exact Hk|lia].
Qed.

Lemma fdiv_ge_one (t c : float) :
  ge_int c 1 -> fdiv t c = Ok (SFdiv prec emax t c).
Proof.
  intros Hc. unfold fdiv. rewrite (ge_int_one_nonzero c Hc). reflexivity.
Qed.

Lemma add_row2 (t c v : float) (s : Z) :
  add [t; c] [Num_float v; Num_int s]
  = (f <-? of_int s ;; Ok [fadd t v; fadd c f]).
Proof. simpl. destruct (of_int s); reflexivity. Qed.

Lemma add_row3 (t u c l a : float) (s : Z) :
  add [t; u; c] (batch_row (l, a, s))
  = (f <-? of_int s ;; Ok [fadd t l; fadd u a; fadd c f]).
Proof. simpl. destruct (of_int s); reflexivity. Qed.

Lemma add_row2_ok (t c v : float) (s : Z) :
  1 <= s < 2 ^ 53 -> count_ok c ->
  exists c' : float,
    add [t; c] [Num_float v; Num_int s] = Ok [fadd t v; c'] /\ ge_int c' 1.
Proof.
  intros Hs Hc. destruct (of_int_ge_one s Hs) as (f & Hf & Hge).
  exists (fadd c f). rewrite add_row2, Hf. split; [reflexivity|].
  apply fadd_ge_one; assumption.
Qed.

Lemma add_row3_ok (t u c l a : float) (s : Z) :
  1 <= s < 2 ^ 53 -> count_ok c ->
  exists c' : float,
    add [t; u; c] [Num_float l; Num_float a; Num_int s]
    = Ok [fadd t l; fadd u a; c'] /\ ge_int c' 1.
Proof.
  intros Hs Hc. destruct (of_int_ge_one s Hs) as (f & Hf & Hge).
  exists (fadd c f). change [Num_float l; Num_float a; Num_int s]
    with (batch_row (l, a, s)). rewrite add_row3, Hf. split; [reflexivity|].
  apply fadd_ge_one; assumption.
Qed.

Lemma add_all_rows (rows : list (float * float * Z)) (t u c : float) :
  add_all [t; u; c] (map batch_row rows)
  = (fs <-? floats_of_sizes (map snd rows) ;;
     Ok [running_total t (map (fun b => fst (fst b)) rows);
         running_total u (map (fun b => snd (fst b)) rows);
         running_total c fs]).
Proof.
  revert t u c. induction rows as [|[[l a] s] rows IH]; intros t u c.
  - reflexivity.
  - cbn [map add_all]. rewrite add_row3. cbn [snd fst floats_of_sizes].
    destruct (of_int s) as [f|e]; [|reflexivity].
    cbn [rbind]. rewrite IH.
    destruct (floats_of_sizes (map snd rows)) as [fs|e]; reflexivity.
Qed.

(** The doubles nearest to [0.2] and [0.3]. *)
Definition lit_0_2 : float := S754_finite false 7205759403792794 (-55).
Definition lit_0_3 : float := S754_finite false 5404319552844595 (-54).

(** The weighted-mean read after a list of batch contributions. *)
Definition mean_after (rows : list (float * float * Z)) (i : nat)
  : result float :=
  acc <-? add_all (new 3) (map batch_row rows) ;; mean acc i 2.

(** What a sequence of batches adds to each channel. *)
Definition losses (rows : list (float * float * Z)) : list float :=
  map (fun b => fst (fst b)) rows.
Definition accuracies (rows : list (float * float * Z)) : list float :=
  map (fun b => snd (fst b)) rows.
Definition sizes (rows : list (float * float * Z)) : list Z := map snd rows.

(** The exact sum of a list of ints. *)
Definition sum_ints (ns : list Z) : Z := fold_right Z.add 0 ns.

(** A contribution that is a non-negative int: [f] is [float(n)]. *)
Definition integral (f : float) (n : Z) : Prop := 0 <= n /\ of_int n = Ok f.

Lemma sum_ints_nonneg (ns : list Z) :
  Forall (fun s => 0 <= s) ns -> 0 <= sum_ints ns.
Proof.
  induction 1 as [|s ns Hs _ IH]; cbn [sum_ints fold_right]; [lia|].
  fold (sum_ints ns). lia.
Qed.

Lemma sum_ints_perm (ns ns' : list Z) :
  Permutation ns ns' -> sum_ints ns = sum_ints ns'.
Proof.
  unfold sum_ints. induction 1; cbn [fold_right]; lia.
Qed.

Lemma floats_of_sizes_small (ns : list Z) :
  Forall (fun s => 0 <= s) ns -> sum_ints ns < 2 ^ 53 ->
  floats_of_sizes ns = Ok (map float_of ns).
Proof.
  induction 1 as [|s ns Hs HF IH]; intros Hsum; [reflexivity|].
  cbn [sum_ints fold_right] in Hsum. fold (sum_ints ns) in Hsum.
  pose proof (sum_ints_nonneg ns HF) as H0.
  cbn [floats_of_sizes map]. rewrite (of_int_small s) by lia.
  cbn [rbind]. rewrite IH by lia. reflexivity.
Qed.

Lemma running_total_small (ns : list Z) (t : Z) :
  0 <= t -> Forall (fun s => 0 <= s) ns -> t + sum_ints ns < 2 ^ 53 ->
  running_total (float_of t) (map float_of ns) = float_of (t + sum_ints ns).
Proof.
  intros Ht HF. revert t Ht.
  induction HF as [|s ns Hs HF IH]; intros t Ht Hsum.
  - cbn. rewrite Z.add_0_r. reflexivity.
  - cbn [sum_ints fold_right] in *. fold (sum_ints ns) in *.
    pose proof (sum_ints_nonneg ns HF) as H0.
    unfold running_total. cbn [map fold_left].
    rewrite fadd_small by lia. fold (running_total (float_of (t + s))
                                       (map float_of ns)).
    rewrite IH by lia. f_equal. lia.
Qed.

Lemma integral_floats (fs : list float) (ns : list Z) :
  Forall2 integral fs ns -> sum_ints ns < 2 ^ 53 ->
  Forall (fun s => 0 <= s) ns /\ fs = map float_of ns.
Proof.
  induction 1 as [|f n fs ns [Hn Hf] HF IH]; intros Hsum;
    [split; [constructor|reflexivity]|].
  cbn [sum_ints fold_right] in Hsum. fold (sum_ints ns) in Hsum.
  assert (H0 : 0 <= sum_ints ns).
  { clear -HF. induction HF as [|f n fs ns [Hn _] _ IH];
      cbn [sum_ints fold_right]; [lia|]. fold (sum_ints ns). lia. }
  destruct (IH ltac:(lia)) as [HF' ->].
  split; [constructor; assumption|].
  rewrite (of_int_small n) in Hf by lia. injection Hf as <-. reflexivity.
Qed.

(** The channels after the batches [rows], when the sizes are small. *)
Lemma add_all_small (rows : list (float * float * Z)) :
  Forall (fun s => 0 <= s) (sizes rows) -> sum_ints (sizes rows) < 2 ^ 53 ->
  add_all (new 3) (map batch_row rows)
  = Ok [running_total fzero (losses rows);
        running_total fzero (accuracies rows);
        float_of (sum_ints (sizes rows))].
Proof.
  intros HF Hsum. change (new 3) with [fzero; fzero; fzero].
  rewrite add_all_rows. fold (sizes rows).
  rewrite (floats_of_sizes_small _ HF Hsum). cbn [rbind].
  change fzero with (float_of 0) at 3.
  rewrite running_total_small by (try assumption; lia). reflexivity.
Qed.

Lemma integral_total (fs : list float) (ns : list Z) :
  Forall2 integral fs ns -> sum_ints ns < 2 ^ 53 ->
  running_total fzero fs = float_of (sum_ints ns).
Proof.
  intros HF Hsum. destruct (integral_floats fs ns HF Hsum) as [H0 ->].
  change fzero with (float_of 0).
  rewrite running_total_small by (try assumption; lia). reflexivity.
Qed.

(** C5, as amended: the accumulator starts at zero in every channel.  For
    batch sizes that are non-negative ints with a sum below [2^53], the
    count channel holds [float(sum(si))] exactly, in whatever order the
    batches are added, while the channels of the contributions hold their
    left-to-right sums in double precision; the weighted-mean read of a
    channel is the double-precision quotient of its running sum by
    [float(sum(si))], and raises [ZeroDivisionError] when [sum(si)] is
    zero.  When the contributions of a channel are themselves non-negative
    ints with a sum below [2^53], its read is
    [float(sum(li)) / float(sum(si))] in every order of addition. *)
Theorem accumulator_weighted_mean (rows : list (float * float * Z)) :
  Forall (fun s => 0 <= s) (sizes rows) ->
  sum_ints (sizes rows) < 2 ^ 53 ->
  exists count : float,
    of_int (sum_ints (sizes rows)) = Ok count /\
    new 3 = [fzero; fzero; fzero] /\
    (forall rows' : list (float * float * Z),
       Permutation rows rows' ->
       add_all (new 3) (map batch_row rows')
       = Ok [running_total fzero (losses rows');
             running_total fzero (accuracies rows'); count] /\
       mean_after rows' 0 = fdiv (running_total fzero (losses rows')) count /\
       mean_after rows' 1
       = fdiv (running_total fzero (accuracies rows')) count) /\
    (sum_ints (sizes rows) = 0 ->
     forall rows' : list (float * float * Z),
       Permutation rows rows' ->
       mean_after rows' 0 = Raise ZeroDivisionError /\
       mean_after rows' 1 = Raise ZeroDivisionError) /\
    (forall ns : list Z,
       Forall2 integral (losses rows) ns -> sum_ints ns < 2 ^ 53 ->
       exists total : float,
         of_int (sum_ints ns) = Ok total /\
         forall rows' : list (float * float * Z),
           Permutation rows rows' -> mean_after rows' 0 = fdiv total count) /\
    (forall ns : list Z,
       Forall2 integral (accuracies rows) ns -> sum_ints ns < 2 ^ 53 ->
       exists total : float,
         of_int (sum_ints ns) = Ok total /\
         forall rows' : list (float * float * Z),
           Permutation rows rows' -> mean_after rows' 1 = fdiv total count).
Proof.
  intros HF Hsum.
  pose proof (sum_ints_nonneg _ HF) as H0.
  exists (float_of (sum_ints (sizes rows))).
  split; [apply of_int_small; lia|]. split; [reflexivity|].
  assert (Hrows : forall rows', Permutation rows rows' ->
            add_all (new 3) (map batch_row rows')
            = Ok [running_total fzero (losses rows');
                  running_total fzero (accuracies rows');
                  float_of (sum_ints (sizes rows))]).
  { intros rows' HP.
    assert (HPs : Permutation (sizes rows) (sizes rows'))
      by (apply Permutation_map; exact HP).
    rewrite (sum_ints_perm _ _ HPs). apply add_all_small.
    - exact (Permutation_Forall HPs HF).
    - rewrite <- (sum_ints_perm _ _ HPs). exact Hsum. }
  assert (Hmean : forall rows', Permutation rows rows' ->
            mean_after rows' 0
            = fdiv (running_total fzero (losses rows'))
                (float_of (sum_ints (sizes rows))) /\
            mean_after rows' 1
            = fdiv (running_total fzero (accuracies rows'))
                (float_of (sum_ints (sizes rows)))).
  { intros rows' HP. unfold mean_after. rewrite (Hrows rows' HP).
    split; reflexivity. }
  split; [|split; [|split]].
  - intros rows' HP. split; [exact (Hrows rows' HP)|exact (Hmean rows' HP)].
  - intros Hz rows' HP. destruct (Hmean rows' HP) as [-> ->].
    rewrite Hz. split; reflexivity.
  - intros ns Hns Hn.
    assert (Hns0 : 0 <= sum_ints ns)
      by (apply sum_ints_nonneg, (integral_floats _ _ Hns Hn)).
    exists (float_of (sum_ints ns)).
    split; [apply of_int_small; lia|].
    intros rows' HP. destruct (Hmean rows' HP) as [-> _].
    assert (HPl : Permutation (losses rows) (losses rows'))
      by (apply Permutation_map; exact HP).
    destruct (Permutation_Forall2 HPl Hns) as (ns' & HPn & Hns').
    rewrite (integral_total _ ns' Hns'), <- (sum_ints_perm _ _ HPn);
      [reflexivity|].
    rewrite <- (sum_ints_perm _ _ HPn). exact Hn.
  - intros ns Hns Hn.
    assert (Hns0 : 0 <= sum_ints ns)
      by (apply sum_ints_nonneg, (integral_floats _ _ Hns Hn)).
    exists (float_of (sum_ints ns)).
    split; [apply of_int_small; lia|].
    intros rows' HP. destruct (Hmean rows' HP) as [_ ->].
    assert (HPl : Permutation (accuracies rows) (accuracies rows'))
      by (apply Permutation_map; exact HP).
    destruct (Permutation_Forall2 HPl Hns) as (ns' & HPn & Hns').
    rewrite (integral_total _ ns' Hns'), <- (sum_ints_perm _ _ HPn);
      [reflexivity|].
    rewrite <- (sum_ints_perm _ _ HPn). exact Hn.
Qed.

(** Three batches of one example each with losses 0.1, 0.2 and 0.3: added in
    this order the mean loss is one unit in the last place above what the
    reverse order gives, so the read is not a function of the sums alone. *)
Lemma accumulator_mean_depends_on_order :
  let rows := [(lit_0_1, fzero, 1); (lit_0_2, fzero, 1); (lit_0_3, fzero, 1)] in
  mean_after rows 0 = Ok (S754_finite false 7205759403792795 (-55)) /\
  mean_after (rev rows) 0 = Ok (S754_finite false 7205759403792793 (-55)) /\
  mean_after rows 0 <> mean_after (rev rows) 0.
Proof.
  cbv zeta. split; [vm_compute; reflexivity|].
  split; [vm_compute; reflexivity|].
  intros H. vm_compute in H. discriminate H.
Qed.

(** The doubles [1e16] and [-1e16]. *)
Definition lit_1e16 : float := S754_finite false 5000000000000000 1.
Definition lit_minus_1e16 : float := S754_finite true 5000000000000000 1.

(** Nor does the order change the last place only: a loss of [1.0] added
    between [1e16] and [-1e16] is absorbed, added after them it is not. *)
Lemma accumulator_mean_cancellation :
  mean_after [(lit_1e16, fzero, 1); (lit_1_0, fzero, 1);
              (lit_minus_1e16, fzero, 1)] 0
  = Ok fzero /\
  mean_after [(lit_1e16, fzero, 1); (lit_minus_1e16, fzero, 1);
              (lit_1_0, fzero, 1)] 0
  = Ok (S754_finite false 6004799503160661 (-54)).
Proof.
  split; vm_compute; reflexivity.
Qed.

(** Two batches whose loss contributions are the ints 3 and 5. *)
Definition int_rows : list (float * float * Z) :=
  [(float_of 3, lit_0_1, 2); (float_of 5, lit_0_2, 4)].

Lemma accumulator_weighted_mean_witness :
  exists count total : float,
    of_int 6 = Ok count /\ of_int 8 = Ok total /\
    mean_after int_rows 0 = fdiv total count /\
    mean_after (rev int_rows) 0 = fdiv total count /\
    mean_after int_rows 1
    = fdiv (running_total fzero (accuracies int_rows)) count.
Proof.
  assert (HF : Forall (fun s => 0 <= s) (sizes int_rows))
    by (unfold int_rows, sizes; cbn [map snd];
        constructor; [lia|constructor; [lia|constructor]]).
  assert (Hsum : sum_ints (sizes int_rows) < 2 ^ 53) by reflexivity.
  destruct (accumulator_weighted_mean int_rows HF Hsum)
    as (count & Hc & _ & Hin & _ & Hint & _).
  assert (Hns : Forall2 integral (losses int_rows) [3; 5]).
  { unfold int_rows, losses. cbn [map fst].
    constructor; [split; [lia|reflexivity]|].
    constructor; [split; [lia|reflexivity]|constructor]. }
  destruct (Hint [3; 5] Hns ltac:(reflexivity)) as (total & Ht & Hperm).
  exists count, total. split; [exact Hc|]. split; [exact Ht|].
  split; [exact (Hperm int_rows (Permutation_refl _))|].
  split; [exact (Hperm (rev int_rows) (perm_swap _ _ []))|].
  exact (proj2 (proj2 (Hin int_rows (Permutation_refl _)))).
Defined.

End AccumulatorReads.

(** ** Evaluation: what it touches and when it returns *)

Section EvaluateLemmas.
Import PyFloat Accumulators Training.
Context {T : Torch}.
Local Open Scope train_scope.

Lemma bind_done {A B : Type} (m : M A) (k : A -> M B) (s s' : State) (a : A) :
  m s = Done a s' -> bind m k s = k a s'.
Proof. intros H. unfold bind. rewrite H. reflexivity. Qed.

Lemma bind_fail {A B : Type} (m : M A) (k : A -> M B) (s s' : State) (e : exn) :
  m s = Fail e s' -> bind m k s = Fail e s'.
Proof. intros H. unfold bind. rewrite H. reflexivity. Qed.

Lemma bind_inv {A B : Type} (m : M A) (k : A -> M B) (s s2 : State) (b : B) :
  bind m k s = Done b s2 ->
  exists (a : A) (s1 : State), m s = Done a s1 /\ k a s1 = Done b s2.
Proof.
  unfold bind. destruct (m s) as [a s1|e s1]; [|discriminate].
  intros H. exists a, s1. split; [reflexivity|exact H].
Qed.

Lemma lift_inv {A : Type} (r : result A) (s s' : State) (a : A) :
  lift r s = Done a s' -> r = Ok a /\ s' = s.
Proof.
  unfold lift. destruct r; [|discriminate].
  intros H. injection H as -> ->. split; reflexivity.
Qed.

Lemma bind_lift_ok {A B : Type} (r : result A) (k : A -> M B) (s : State)
    (a : A) :
  r = Ok a -> bind (lift r) k s = k a s.
Proof. intros ->. reflexivity. Qed.

(** Two states that differ at most in the mode flag and the generator. *)
Definition same_but_mode_rng (s s' : State) : Prop :=
  params s' = params s /\ opt_state s' = opt_state s /\
  files s' = files s /\ curves s' = curves s /\
  laps_train s' = laps_train s /\ laps_val s' = laps_val s /\
  stdout s' = stdout s.

Lemma same_but_mode_rng_refl (s : State) : same_but_mode_rng s s.
Proof. repeat split. Qed.

Lemma same_but_mode_rng_trans (s1 s2 s3 : State) :
  same_but_mode_rng s1 s2 -> same_but_mode_rng s2 s3 ->
  same_but_mode_rng s1 s3.
Proof.
  unfold same_but_mode_rng.
  intros (A1 & A2 & A3 & A4 & A5 & A6 & A7) (B1 & B2 & B3 & B4 & B5 & B6 & B7).
  repeat split; congruence.
Qed.

Variable loss_fn : Pred -> Y -> Loss.

(** A batch whose sizes are those of a real batch: at least one example,
    and few enough to be counted exactly in a double. *)
Definition batch_sized (xy : X * Y) : Prop :=
  1 <= shape0 (fst xy) < 2 ^ 53 /\
  1 <= d2l_size (snd xy) < 2 ^ 53 /\
  forall (p : Params) (mode : bool),
    1 <= d2l_size_loss (loss_fn (net_call p mode (fst xy)) (snd xy)) < 2 ^ 53.

(** A loader every pass of which yields at least one batch. *)
Definition well_sized (l : Loader) : Prop :=
  forall g : Rng,
    fst (iter_loader l g) <> [] /\ Forall batch_sized (fst (iter_loader l g)).

Lemma evaluate_loss_loop_state (batches : list (X * Y)) (metric : Accumulator)
    (s : State) :
  state_of (evaluate_loss_loop loss_fn batches metric s) = s.
Proof.
  revert metric. induction batches as [|[x y] rest IH]; intros metric.
  - reflexivity.
  - cbn [evaluate_loss_loop]. unfold bind at 1. unfold forward.
    unfold bind at 1. unfold lift.
    destruct (add metric _) as [metric'|e]; [apply IH|reflexivity].
Qed.

Lemma evaluate_accuracy_loop_state (batches : list (X * Y))
    (metric : Accumulator) (s : State) :
  state_of (evaluate_accuracy_loop batches metric s) = s.
Proof.
  revert metric. induction batches as [|[x y] rest IH]; intros metric.
  - reflexivity.
  - cbn [evaluate_accuracy_loop]. unfold bind at 1. unfold forward.
    unfold bind at 1. unfold lift.
    destruct (add metric _) as [metric'|e]; [apply IH|reflexivity].
Qed.

Lemma evaluate_loss_loop_total (batches : list (X * Y)) (t c : float)
    (s : State) :
  Forall batch_sized batches -> count_ok c ->
  exists t' c' : float,
    evaluate_loss_loop loss_fn batches [t; c] s = Done [t'; c'] s /\
    count_ok c' /\ (batches <> [] -> ge_int c' 1).
Proof.
  intros HF. revert t c. induction HF as [|[x y] rest Hxy HF IH]; intros t c Hc.
  - exists t, c. repeat split; [exact Hc|congruence].
  - destruct Hxy as (_ & _ & Hl). cbn [fst snd] in Hl.
    specialize (Hl (params s) (training s)).
    destruct (add_row2_ok t c
                (d2l_reduce_sum (loss_fn (net_call (params s) (training s) x) y))
                _ Hl Hc) as (c1 & Hadd & Hge).
    destruct (IH (fadd t (d2l_reduce_sum
                            (loss_fn (net_call (params s) (training s) x) y)))
                c1 (or_intror Hge)) as (t' & c' & Hrun & Hok & Hne).
    exists t', c'. split; [|split].
    + cbn [evaluate_loss_loop]. unfold bind at 1. unfold forward.
      unfold bind at 1. rewrite Hadd. cbn [lift]. exact Hrun.
    + exact Hok.
    + intros _. destruct rest as [|b rest'].
      * cbn [evaluate_loss_loop] in Hrun. unfold ret in Hrun.
        injection Hrun as _ <-. exact Hge.
      * apply Hne. discriminate.
Qed.

Lemma evaluate_accuracy_loop_total (batches : list (X * Y)) (t c : float)
    (s : State) :
  Forall batch_sized batches -> count_ok c ->
  exists t' c' : float,
    evaluate_accuracy_loop batches [t; c] s = Done [t'; c'] s /\
    count_ok c' /\ (batches <> [] -> ge_int c' 1).
Proof.
  intros HF. revert t c. induction HF as [|[x y] rest Hxy HF IH]; intros t c Hc.
  - exists t, c. repeat split; [exact Hc|congruence].
  - destruct Hxy as (_ & Hy & _). cbn [fst snd] in Hy.
    destruct (add_row2_ok t c
                (d2l_accuracy (net_call (params s) (training s) x) y)
                _ Hy Hc) as (c1 & Hadd & Hge).
    destruct (IH (fadd t (d2l_accuracy (net_call (params s) (training s) x) y))
                c1 (or_intror Hge)) as (t' & c' & Hrun & Hok & Hne).
    exists t', c'. split; [|split].
    + cbn [evaluate_accuracy_loop]. unfold bind at 1. unfold forward.
      unfold bind at 1. rewrite Hadd. cbn [lift]. exact Hrun.
    + exact Hok.
    + intros _. destruct rest as [|b rest'].
      * cbn [evaluate_accuracy_loop] in Hrun. unfold ret in Hrun.
        injection Hrun as _ <-. exact Hge.
      * apply Hne. discriminate.
Qed.

Lemma iterate_eq (l : Loader) (s : State) :
  iterate l s = Done (fst (iter_loader l (rng s))) (state_of (iterate l s)).
Proof. unfold iterate. destruct (iter_loader l (rng s)). reflexivity. Qed.

Lemma evaluate_loss_total (l : Loader) (s : State) :
  well_sized l -> exists (v : float) (s' : State),
    evaluate_loss loss_fn l s = Done v s'.
Proof.
  intros Hw. destruct (Hw (rng s)) as [Hne HF].
  unfold evaluate_loss. rewrite (bind_done _ _ _ _ _ (iterate_eq l s)).
  destruct (evaluate_loss_loop_total _ fzero fzero (state_of (iterate l s)) HF
              (or_introl eq_refl)) as (t' & c' & Hrun & _ & Hge).
  change (new 2) with [fzero; fzero].
  rewrite (bind_done _ _ _ _ _ Hrun).
  unfold mean. cbn [get nth_error rbind]. rewrite (fdiv_ge_one t' c' (Hge Hne)).
  eexists _, _. reflexivity.
Qed.

Lemma evaluate_accuracy_gpu_total (l : Loader) (s : State) :
  well_sized l -> exists (v : float) (s' : State),
    evaluate_accuracy_gpu l s = Done v s'.
Proof.
  intros Hw. unfold evaluate_accuracy_gpu.
  unfold bind at 1. cbn [set_training].
  set (s0 := {| params := params s; training := false |}).
  destruct (Hw (rng s0)) as [Hne HF].
  rewrite (bind_done _ _ _ _ _ (iterate_eq l s0)).
  destruct (evaluate_accuracy_loop_total _ fzero fzero (state_of (iterate l s0))
              HF (or_introl eq_refl)) as (t' & c' & Hrun & _ & Hge).
  change (new 2) with [fzero; fzero].
  rewrite (bind_done _ _ _ _ _ Hrun).
  unfold mean. cbn [get nth_error rbind]. rewrite (fdiv_ge_one t' c' (Hge Hne)).
  eexists _, _. reflexivity.
Qed.

Lemma evaluate_total (l : Loader) (s : State) :
  well_sized l -> exists (r : float * float) (s' : State),
    evaluate loss_fn l s = Done r s'.
Proof.
  intros Hw. unfold evaluate.
  destruct (evaluate_loss_total l s Hw) as (v & s1 & H1).
  rewrite (bind_done _ _ _ _ _ H1).
  destruct (evaluate_accuracy_gpu_total l s1 Hw) as (a & s2 & H2).
  rewrite (bind_done _ _ _ _ _ H2). eexists _, _. reflexivity.
Qed.

(** With no batch the count stays at zero and the read raises. *)
Lemma evaluate_loss_empty (l : Loader) (s : State) :
  fst (iter_loader l (rng s)) = [] ->
  evaluate_loss loss_fn l s = Fail ZeroDivisionError (state_of (iterate l s)).
Proof.
  intros He. unfold evaluate_loss.
  rewrite (bind_done _ _ _ _ _ (iterate_eq l s)). rewrite He. reflexivity.
Qed.

End EvaluateLemmas.

(** ** Frame rules for the loops *)

Section Frame.
Import PyFloat Accumulators Training.
Context {T : Torch}.
Local Open Scope train_scope.

(** [preserves R m]: whatever [m] does, and whether or not it raises, the
    state it leaves is related by [R] to the state it started in. *)
Definition preserves {A : Type} (R : State -> State -> Prop) (m : M A) : Prop :=
  forall s : State, R s (state_of (m s)).

Section Rules.
Variable R : State -> State -> Prop.
Hypothesis R_refl : forall s, R s s.
Hypothesis R_trans : forall s1 s2 s3, R s1 s2 -> R s2 s3 -> R s1 s3.

Lemma preserves_ret {A : Type} (a : A) : preserves R (ret a).
Proof. intros s. apply R_refl. Qed.

Lemma preserves_lift {A : Type} (r : result A) : preserves R (lift r).
Proof. intros s. unfold lift. destruct r; apply R_refl. Qed.

Lemma preserves_forward (x : X) : preserves R (forward x).
Proof. intros s. apply R_refl. Qed.

Lemma preserves_bind {A B : Type} (m : M A) (k : A -> M B) :
  preserves R m -> (forall a, preserves R (k a)) -> preserves R (bind m k).
Proof.
  intros Hm Hk s. unfold bind. specialize (Hm s).
  destruct (m s) as [a s1|e s1]; cbn [state_of] in Hm.
  - apply R_trans with s1; [exact Hm|apply Hk].
  - exact Hm.
Qed.

Lemma preserves_if {A : Type} (b : bool) (m1 m2 : M A) :
  preserves R m1 -> preserves R m2 -> preserves R (if b then m1 else m2).
Proof. destruct b; auto. Qed.

Variable loss_fn : Pred -> Y -> Loss.
Hypothesis R_mode : forall mode, preserves R (set_training mode).
Hypothesis R_iterate : forall l, preserves R (iterate l).

Lemma preserves_evaluate_loss_loop (batches : list (X * Y))
    (metric : Accumulator) :
  preserves R (evaluate_loss_loop loss_fn batches metric).
Proof.
  intros s. rewrite evaluate_loss_loop_state. apply R_refl.
Qed.

Lemma preserves_evaluate_accuracy_loop (batches : list (X * Y))
    (metric : Accumulator) :
  preserves R (evaluate_accuracy_loop batches metric).
Proof.
  intros s. rewrite evaluate_accuracy_loop_state. apply R_refl.
Qed.

Lemma preserves_evaluate_loss (l : Loader) :
  preserves R (evaluate_loss loss_fn l).
Proof.
  unfold evaluate_loss.
  apply preserves_bind; [apply R_iterate|intros batches].
  apply preserves_bind; [apply preserves_evaluate_loss_loop|intros metric].
  apply preserves_lift.
Qed.

Lemma preserves_evaluate_accuracy_gpu (l : Loader) :
  preserves R (evaluate_accuracy_gpu l).
Proof.
  unfold evaluate_accuracy_gpu.
  apply preserves_bind; [apply R_mode|intros _].
  apply preserves_bind; [apply R_iterate|intros batches].
  apply preserves_bind; [apply preserves_evaluate_accuracy_loop|intros metric].
  apply preserves_lift.
Qed.

Lemma preserves_evaluate (l : Loader) : preserves R (evaluate loss_fn l).
Proof.
  unfold evaluate.
  apply preserves_bind; [apply preserves_evaluate_loss|intros loss].
  apply preserves_bind; [apply preserves_evaluate_accuracy_gpu|intros acc].
  apply preserves_ret.
Qed.

Variable data_loaders : DataLoaders.
Variable optimizer : Optimizer.
Variable model_file_name : string.
Variable eval_every_n_epochs : Z.
(** The optimizer only matters to a batch of the train phase, and a batch
    only stops the timer of its own phase. *)
Lemma preserves_train_batch_of (phase : Phase) (metrics : Metrics)
    (xy : X * Y) :
  (is_train phase = true ->
   forall loss, preserves R (optimizer_step optimizer loss)) ->
  preserves R (timer_stop phase) ->
  preserves R (train_batch data_loaders optimizer loss_fn phase metrics xy).
Proof.
  intros R_step R_stop. unfold train_batch. destruct xy as [x y].
  apply preserves_bind; [apply preserves_ret|intros _].
  apply preserves_bind; [apply preserves_forward|intros y_hat].
  apply preserves_bind;
    [destruct (is_train phase); [apply R_step; reflexivity|apply preserves_ret]
    |intros _].
  apply preserves_bind; [apply preserves_evaluate|intros [loss accuracy]].
  apply preserves_bind; [apply preserves_lift|intros wl].
  apply preserves_bind; [apply preserves_lift|intros wa].
  apply preserves_bind; [apply preserves_lift|intros acc].
  apply preserves_bind; [apply R_stop|intros _].
  apply preserves_ret.
Qed.

Lemma preserves_train_batches_of (phase : Phase) (batches : list (X * Y))
    (metrics : Metrics) :
  (is_train phase = true ->
   forall loss, preserves R (optimizer_step optimizer loss)) ->
  preserves R (timer_stop phase) ->
  preserves R (train_batches data_loaders optimizer loss_fn phase batches metrics).
Proof.
  intros R_step R_stop. revert metrics.
  induction batches as [|xy rest IH]; intros metrics.
  - apply preserves_ret.
  - cbn [train_batches].
    apply preserves_bind;
      [apply preserves_train_batch_of; assumption|intros m; apply IH].
Qed.

Lemma preserves_run_phase_of (epoch : Z) (metrics : Metrics) (phase : Phase) :
  (is_train phase = true ->
   forall loss, preserves R (optimizer_step optimizer loss)) ->
  preserves R (timer_stop phase) ->
  preserves R (run_phase data_loaders optimizer loss_fn eval_every_n_epochs
                 epoch metrics phase).
Proof.
  intros R_step R_stop. unfold run_phase.
  apply preserves_bind.
  - unfold skip_phase. apply preserves_if; [apply preserves_ret|].
    apply preserves_bind; [apply preserves_lift|intros r; apply preserves_ret].
  - intros skip. apply preserves_if; [apply preserves_ret|].
    apply preserves_bind; [apply R_mode|intros _].
    apply preserves_bind; [apply R_iterate|intros batches].
    apply preserves_train_batches_of; assumption.
Qed.

Hypothesis R_stop : forall phase, preserves R (timer_stop phase).
Hypothesis R_step : forall loss, preserves R (optimizer_step optimizer loss).

Lemma preserves_run_phase (epoch : Z) (metrics : Metrics) (phase : Phase) :
  preserves R (run_phase data_loaders optimizer loss_fn eval_every_n_epochs
                 epoch metrics phase).
Proof. apply preserves_run_phase_of; [intros _; exact R_step|apply R_stop]. Qed.

Lemma preserves_run_phases (epoch : Z) (ps : list Phase) (metrics : Metrics) :
  preserves R (run_phases data_loaders optimizer loss_fn eval_every_n_epochs
                 epoch ps metrics).
Proof.
  revert metrics. induction ps as [|phase rest IH]; intros metrics.
  - apply preserves_ret.
  - cbn [run_phases].
    apply preserves_bind; [apply preserves_run_phase|intros m; apply IH].
Qed.

Hypothesis R_save : forall path, preserves R (save path).
Hypothesis R_animator : forall x ys, preserves R (animator_add x ys).

Lemma preserves_report_epoch (epoch : Z) (metrics : Metrics) :
  preserves R (report_epoch model_file_name eval_every_n_epochs epoch metrics).
Proof.
  unfold report_epoch.
  apply preserves_bind; [apply preserves_lift|intros r].
  apply preserves_if.
  - apply preserves_bind; [apply R_save|intros _].
    apply preserves_bind; [apply preserves_lift|intros a].
    apply preserves_bind; [apply preserves_lift|intros b].
    apply preserves_bind; [apply preserves_lift|intros c].
    apply preserves_bind; [apply preserves_lift|intros d].
    apply R_animator.
  - apply preserves_bind; [apply preserves_lift|intros a].
    apply preserves_bind; [apply preserves_lift|intros b].
    apply R_animator.
Qed.

Lemma preserves_run_epoch (epoch : Z) :
  preserves R (run_epoch data_loaders optimizer loss_fn model_file_name
                 eval_every_n_epochs epoch).
Proof.
  unfold run_epoch.
  apply preserves_bind; [apply preserves_run_phases|intros m].
  apply preserves_bind; [apply preserves_report_epoch|intros _].
  apply preserves_ret.
Qed.

Lemma preserves_run_epochs (epochs : list Z) (metrics : option Metrics) :
  preserves R (run_epochs data_loaders optimizer loss_fn model_file_name
                 eval_every_n_epochs epochs metrics).
Proof.
  revert metrics. induction epochs as [|epoch rest IH]; intros metrics.
  - apply preserves_ret.
  - cbn [run_epochs].
    apply preserves_bind; [apply preserves_run_epoch|intros m; apply IH].
Qed.

Lemma preserves_read_metrics (metrics : option Metrics) :
  preserves R (read_metrics metrics).
Proof.
  destruct metrics; [apply preserves_ret|apply preserves_lift].
Qed.

Hypothesis R_print : forall line, preserves R (print line).

Lemma preserves_finish (metrics : option Metrics) :
  preserves R (finish data_loaders loss_fn model_file_name metrics).
Proof.
  unfold finish.
  apply preserves_bind; [apply preserves_evaluate|intros [test_loss test_acc]].
  apply preserves_bind; [apply preserves_evaluate|intros [val_loss val_acc]].
  apply preserves_bind; [apply preserves_read_metrics|intros m].
  apply preserves_bind; [apply preserves_lift|intros a].
  apply preserves_bind; [apply preserves_read_metrics|intros m'].
  apply preserves_bind; [apply preserves_lift|intros b].
  apply preserves_bind; [apply R_save|intros _].
  apply R_print.
Qed.

Hypothesis R_optimizer_new :
  forall lr, preserves R (optimizer_new optimizer lr).
Hypothesis R_new_animator : preserves R new_animator_and_timers.

Lemma preserves_train (learning_rate : float) (epochs : Z) :
  preserves R (train data_loaders optimizer loss_fn model_file_name
                 eval_every_n_epochs learning_rate epochs).
Proof.
  unfold train.
  apply preserves_bind; [apply R_optimizer_new|intros _].
  apply preserves_bind; [apply R_new_animator|intros _].
  apply preserves_bind; [apply preserves_run_epochs|intros m].
  apply preserves_finish.
Qed.

End Rules.

End Frame.

(** ** One batch of the training loop *)

Section BatchStep.
Import PyFloat Accumulators Training.
Context {T : Torch}.
Local Open Scope train_scope.

Variable data_loaders : DataLoaders.
Variable optimizer : Optimizer.
Variable loss_fn : Pred -> Y -> Loss.

(** The optional parameter update of a batch: one optimizer step on the
    gradients of the batch loss in the train phase, nothing in the val
    phase. *)
Definition update (phase : Phase) (x : X) (y : Y) : M unit :=
  fun s =>
    if is_train phase
    then optimizer_step optimizer
           (loss_fn (net_call (params s) (training s) x) y) s
    else Done tt s.

(** The spec's description of one batch: after the optional update, loss
    and accuracy are evaluated over the whole loader of the phase, and the
    result, multiplied by the size of the batch, is added to the accumulator
    of the phase; the timer of the phase records one lap. *)
Definition batch_step_spec (phase : Phase) (metrics : Metrics) (xy : X * Y)
    (s : State) (metrics' : Metrics) (s' : State) : Prop :=
  exists (s1 s2 : State) (loss accuracy weighted_loss weighted_accuracy : float)
         (acc : Accumulator),
    update phase (fst xy) (snd xy) s = Done tt s1 /\
    evaluate loss_fn (loader_of data_loaders phase) s1
    = Done (loss, accuracy) s2 /\
    fmul_int loss (shape0 (fst xy)) = Ok weighted_loss /\
    fmul_int accuracy (shape0 (fst xy)) = Ok weighted_accuracy /\
    add (metrics_of metrics phase)
      [Num_float weighted_loss; Num_float weighted_accuracy;
       Num_int (shape0 (fst xy))] = Ok acc /\
    metrics' = set_metrics metrics phase acc /\
    timer_stop phase s2 = Done tt s'.

(** The same for all the batches of a pass, in order. *)
Inductive batch_steps_spec (phase : Phase)
  : list (X * Y) -> Metrics -> State -> Metrics -> State -> Prop :=
| steps_nil (metrics : Metrics) (s : State) :
    batch_steps_spec phase [] metrics s metrics s
| steps_cons (xy : X * Y) (rest : list (X * Y)) (m m1 m2 : Metrics)
    (s s1 s2 : State) :
    batch_step_spec phase m xy s m1 s1 ->
    batch_steps_spec phase rest m1 s1 m2 s2 ->
    batch_steps_spec phase (xy :: rest) m s m2 s2.

Lemma update_done (phase : Phase) (x : X) (y : Y) (s : State) :
  exists s1 : State, update phase x y s = Done tt s1.
Proof.
  unfold update, optimizer_step. destruct (is_train phase).
  - destruct (opt_step optimizer _ _ _). eexists. reflexivity.
  - eexists. reflexivity.
Qed.

(** What a batch does after its update. *)
Definition evaluate_and_add (phase : Phase) (metrics : Metrics) (x : X)
  : M Metrics :=
  ' (loss, accuracy) <- evaluate loss_fn (loader_of data_loaders phase) ;;
  weighted_loss <- lift (fmul_int loss (shape0 x)) ;;
  weighted_accuracy <- lift (fmul_int accuracy (shape0 x)) ;;
  acc <- lift (add (metrics_of metrics phase)
                 [Num_float weighted_loss; Num_float weighted_accuracy;
                  Num_int (shape0 x)]) ;;
  timer_stop phase ;;
  ret (set_metrics metrics phase acc).

Lemma train_batch_unfold (phase : Phase) (metrics : Metrics) (x : X) (y : Y)
    (s : State) :
  train_batch data_loaders optimizer loss_fn phase metrics (x, y) s
  = bind (update phase x y) (fun _ => evaluate_and_add phase metrics x) s.
Proof.
  unfold train_batch, evaluate_and_add, update, bind, timer_start, ret, forward.
  destruct (is_train phase); reflexivity.
Qed.

Lemma train_batch_spec (phase : Phase) (metrics : Metrics) (xy : X * Y)
    (s : State) (metrics' : Metrics) (s' : State) :
  train_batch data_loaders optimizer loss_fn phase metrics xy s
  = Done metrics' s' <->
  batch_step_spec phase metrics xy s metrics' s'.
Proof.
  destruct xy as [x y]. rewrite train_batch_unfold.
  unfold evaluate_and_add. split.
  - intros H.
    apply bind_inv in H as ([] & s1 & Hu & H).
    apply bind_inv in H as ([loss accuracy] & s2 & He & H).
    apply bind_inv in H as (wl & s3 & H1 & H).
    apply lift_inv in H1 as [H1 ->].
    apply bind_inv in H as (wa & s4 & H2 & H).
    apply lift_inv in H2 as [H2 ->].
    apply bind_inv in H as (acc & s5 & H3 & H).
    apply lift_inv in H3 as [H3 ->].
    apply bind_inv in H as ([] & s6 & H4 & H).
    unfold ret in H. injection H as <- <-.
    exists s1, s2, loss, accuracy, wl, wa, acc. cbn [fst snd].
    repeat split; assumption.
  - intros (s1 & s2 & loss & accuracy & wl & wa & acc
            & Hu & He & H1 & H2 & H3 & -> & H4).
    cbn [fst snd] in *.
    rewrite (bind_done _ _ _ _ _ Hu). rewrite (bind_done _ _ _ _ _ He).
    rewrite (bind_lift_ok _ _ _ _ H1). rewrite (bind_lift_ok _ _ _ _ H2).
    rewrite (bind_lift_ok _ _ _ _ H3).
    rewrite (bind_done _ _ _ _ _ H4). reflexivity.
Qed.

Lemma train_batches_spec (phase : Phase) (batches : list (X * Y))
    (metrics : Metrics) (s : State) (metrics' : Metrics) (s' : State) :
  train_batches data_loaders optimizer loss_fn phase batches metrics s
  = Done metrics' s' <->
  batch_steps_spec phase batches metrics s metrics' s'.
Proof.
  revert metrics s. induction batches as [|xy rest IH]; intros metrics s.
  - cbn [train_batches]. unfold ret. split.
    + intros H. injection H as <- <-. constructor.
    + intros H. inversion H; subst. reflexivity.
  - cbn [train_batches]. split.
    + intros H. apply bind_inv in H as (m1 & s1 & H1 & H).
      apply train_batch_spec in H1. apply IH in H.
      econstructor; eassumption.
    + intros H. inversion H; subst.
      match goal with
      | H1 : batch_step_spec _ _ _ _ _ _ |- _ => apply train_batch_spec in H1;
          rewrite (bind_done _ _ _ _ _ H1)
      end.
      apply IH. assumption.
Qed.

End BatchStep.

(** ** Phases and epochs *)

Section Phases.
Import PyFloat Accumulators Training.
Context {T : Torch}.
Local Open Scope train_scope.

(** [keeps f]: the component [f] of the state is left as it was. *)
Definition keeps {B : Type} (f : State -> B) : State -> State -> Prop :=
  fun s s' => f s' = f s.

Lemma keeps_refl {B : Type} (f : State -> B) (s : State) : keeps f s s.
Proof. reflexivity. Qed.

Lemma keeps_trans {B : Type} (f : State -> B) (s1 s2 s3 : State) :
  keeps f s1 s2 -> keeps f s2 s3 -> keeps f s1 s3.
Proof. unfold keeps. congruence. Qed.

(** The number of laps of the timer of a phase: the batches it has seen. *)
Definition laps_of (phase : Phase) (s : State) : nat :=
  if is_train phase then laps_train s else laps_val s.

Definition other (phase : Phase) : Phase :=
  match phase with train_phase => val_phase | val_phase => train_phase end.

Variable data_loaders : DataLoaders.
Variable optimizer : Optimizer.
Variable loss_fn : Pred -> Y -> Loss.
Variable model_file_name : string.
Variable eval_every_n_epochs : Z.

(** The state in which the batches of a phase start: mode set, pass begun. *)
Definition phase_start (phase : Phase) (s : State) : State :=
  state_of (iterate (loader_of data_loaders phase)
              (state_of (set_training (is_train phase) s))).

(** The batches the pass of a phase yields when begun in state [s]. *)
Definition phase_batches (phase : Phase) (s : State) : list (X * Y) :=
  fst (iter_loader (loader_of data_loaders phase) (rng s)).

Lemma run_phase_active (epoch : Z) (metrics : Metrics) (phase : Phase)
    (s : State) :
  phase = train_phase \/
  (eval_every_n_epochs <> 0 /\ epoch mod eval_every_n_epochs = 0) ->
  run_phase data_loaders optimizer loss_fn eval_every_n_epochs epoch metrics
    phase s
  = train_batches data_loaders optimizer loss_fn phase (phase_batches phase s)
      metrics (phase_start phase s).
Proof.
  intros H. unfold run_phase, skip_phase, phase_batches, phase_start.
  assert (Hskip : (if is_train phase then ret false
                   else r <- lift (pymod epoch eval_every_n_epochs) ;;
                        ret (negb (r =? 0))) s = Done false s).
  { destruct H as [->|[Hn Hr]]; [reflexivity|].
    destruct phase; [reflexivity|]. cbn [is_train]. unfold pymod.
    destruct (Z.eqb_spec eval_every_n_epochs 0) as [|_]; [contradiction|].
    unfold lift, bind, ret. rewrite Hr. reflexivity. }
  rewrite (bind_done _ _ _ _ _ Hskip).
  unfold bind at 1. cbn [set_training state_of].
  rewrite (bind_done _ _ _ _ _ (iterate_eq _ _)). reflexivity.
Qed.

Lemma run_phase_skipped (epoch : Z) (metrics : Metrics) (s : State) :
  eval_every_n_epochs <> 0 -> epoch mod eval_every_n_epochs <> 0 ->
  run_phase data_loaders optimizer loss_fn eval_every_n_epochs epoch metrics
    val_phase s
  = Done metrics s.
Proof.
  intros Hn Hr. unfold run_phase, skip_phase, pymod. cbn [is_train].
  destruct (Z.eqb_spec eval_every_n_epochs 0) as [|_]; [contradiction|].
  unfold lift, bind, ret.
  destruct (Z.eqb_spec (epoch mod eval_every_n_epochs) 0) as [|_];
    [contradiction|reflexivity].
Qed.

Lemma run_phase_zero_cadence (epoch : Z) (metrics : Metrics) (s : State) :
  eval_every_n_epochs = 0 ->
  run_phase data_loaders optimizer loss_fn eval_every_n_epochs epoch metrics
    val_phase s
  = Fail ZeroDivisionError s.
Proof.
  intros ->. reflexivity.
Qed.

Lemma keeps_set_training {B : Type} (f : State -> B) :
  (forall s mode g, f {| params := params s; training := mode;
                         opt_state := opt_state s; rng := g; files := files s;
                         curves := curves s; laps_train := laps_train s;
                         laps_val := laps_val s; stdout := stdout s |} = f s) ->
  forall mode, preserves (keeps f) (set_training mode).
Proof. intros Hf mode s. apply Hf. Qed.

Lemma keeps_iterate {B : Type} (f : State -> B) :
  (forall s mode g, f {| params := params s; training := mode;
                         opt_state := opt_state s; rng := g; files := files s;
                         curves := curves s; laps_train := laps_train s;
                         laps_val := laps_val s; stdout := stdout s |} = f s) ->
  forall l, preserves (keeps f) (iterate l).
Proof.
  intros Hf l s. unfold iterate, keeps.
  destruct (iter_loader l (rng s)) as [batches g]. apply Hf.
Qed.

(** Evaluation leaves every component that ignores the mode flag and the
    generator as it was. *)
Lemma keeps_evaluate {B : Type} (f : State -> B) (l : Loader) :
  (forall s mode g, f {| params := params s; training := mode;
                         opt_state := opt_state s; rng := g; files := files s;
                         curves := curves s; laps_train := laps_train s;
                         laps_val := laps_val s; stdout := stdout s |} = f s) ->
  preserves (keeps f) (evaluate loss_fn l).
Proof.
  intros Hf.
  apply preserves_evaluate;
    [apply keeps_refl|apply keeps_trans
    |apply keeps_set_training, Hf|apply keeps_iterate, Hf].
Qed.

Lemma keeps_phase_start {B : Type} (f : State -> B) (phase : Phase)
    (s : State) :
  (forall s mode g, f {| params := params s; training := mode;
                         opt_state := opt_state s; rng := g; files := files s;
                         curves := curves s; laps_train := laps_train s;
                         laps_val := laps_val s; stdout := stdout s |} = f s) ->
  f (phase_start phase s) = f s.
Proof.
  intros Hf. unfold phase_start.
  rewrite (keeps_iterate f Hf). apply (keeps_set_training f Hf).
Qed.

Lemma update_laps (phase p : Phase) (x : X) (y : Y) (s s1 : State) :
  update optimizer loss_fn phase x y s = Done tt s1 ->
  laps_of p s1 = laps_of p s.
Proof.
  unfold update, optimizer_step. destruct (is_train phase).
  - destruct (opt_step optimizer _ _ _). intros H. injection H as <-.
    reflexivity.
  - intros H. injection H as <-. reflexivity.
Qed.

Lemma batch_step_laps (phase : Phase) (m m' : Metrics) (xy : X * Y)
    (s s' : State) :
  batch_step_spec data_loaders optimizer loss_fn phase m xy s m' s' ->
  laps_of phase s' = S (laps_of phase s) /\
  laps_of (other phase) s' = laps_of (other phase) s /\
  metrics_of m' (other phase) = metrics_of m (other phase).
Proof.
  intros (s1 & s2 & loss & accuracy & wl & wa & acc
          & Hu & He & _ & _ & _ & -> & Hstop).
  assert (H2 : forall p, laps_of p s2 = laps_of p s).
  { intros p. rewrite <- (update_laps _ p _ _ _ _ Hu).
    pose proof (keeps_evaluate (laps_of p) (loader_of data_loaders phase)
                  ltac:(reflexivity) s1) as K.
    rewrite He in K. exact K. }
  unfold timer_stop in Hstop. injection Hstop as <-.
  rewrite <- !H2. destruct phase; repeat split.
Qed.

Lemma batch_steps_laps (phase : Phase) (batches : list (X * Y))
    (m m' : Metrics) (s s' : State) :
  batch_steps_spec data_loaders optimizer loss_fn phase batches m s m' s' ->
  laps_of phase s' = (laps_of phase s + List.length batches)%nat /\
  laps_of (other phase) s' = laps_of (other phase) s /\
  metrics_of m' (other phase) = metrics_of m (other phase).
Proof.
  induction 1 as [m s|xy rest m m1 m2 s s1 s2 Hstep Hrest IH].
  - cbn [List.length]. rewrite Nat.add_0_r. repeat split.
  - destruct (batch_step_laps _ _ _ _ _ _ Hstep) as (A1 & A2 & A3).
    destruct IH as (B1 & B2 & B3).
    cbn [List.length]. rewrite B1, A1, B2, A2, B3, A3.
    repeat split. apply Nat.add_succ_comm.
Qed.

Lemma report_epoch_laps (p : Phase) (epoch : Z) (metrics : Metrics)
    (s s' : State) :
  report_epoch model_file_name eval_every_n_epochs epoch metrics s
  = Done tt s' ->
  laps_of p s' = laps_of p s.
Proof.
  intros H.
  pose proof (preserves_report_epoch (keeps (laps_of p)) (keeps_refl _)
                (keeps_trans _) model_file_name eval_every_n_epochs
                ltac:(intros path s0; reflexivity)
                ltac:(intros x ys s0; reflexivity) epoch metrics s) as K.
  rewrite H in K. exact K.
Qed.

(** C4: an epoch that completes has first run the train phase over all the
    batches of a pass of the train loader, whatever the epoch number; it has
    then run the val phase, over all the batches of a pass of the val
    loader, exactly when [epoch % eval_every_n_epochs == 0]; otherwise the
    val phase is skipped with no effect at all, so that no val batch is
    timed and the val accumulator is still the zero it was created as. *)
Theorem val_phase_cadence (epoch : Z) (s : State) (metrics : Metrics)
    (s' : State) :
  run_epoch data_loaders optimizer loss_fn model_file_name eval_every_n_epochs
    epoch s = Done metrics s' ->
  exists (m1 : Metrics) (s1 s2 : State),
    batch_steps_spec data_loaders optimizer loss_fn train_phase
      (phase_batches train_phase s) {| m_train := new 3; m_val := new 3 |}
      (phase_start train_phase s) m1 s1 /\
    laps_train s' = (laps_train s + List.length (phase_batches train_phase s))%nat /\
    (epoch mod eval_every_n_epochs = 0 ->
     batch_steps_spec data_loaders optimizer loss_fn val_phase
       (phase_batches val_phase s1) m1 (phase_start val_phase s1) metrics s2 /\
     laps_val s' = (laps_val s + List.length (phase_batches val_phase s1))%nat) /\
    (epoch mod eval_every_n_epochs <> 0 ->
     metrics = m1 /\ s2 = s1 /\ m_val metrics = new 3 /\
     laps_val s' = laps_val s) /\
    report_epoch model_file_name eval_every_n_epochs epoch metrics s2
    = Done tt s'.
Proof.
  intros H. unfold run_epoch in H.
  apply bind_inv in H as (m & s2 & Hph & H).
  apply bind_inv in H as ([] & s3 & Hrep & H).
  unfold ret in H. injection H as -> ->.
  cbn [run_phases phases] in Hph.
  apply bind_inv in Hph as (m1 & s1 & Htr & Hph).
  apply bind_inv in Hph as (m2 & s2' & Hval & Hph).
  unfold ret in Hph. injection Hph as -> ->.
  rewrite (run_phase_active _ _ _ _ (or_introl eq_refl)) in Htr.
  apply train_batches_spec in Htr.
  destruct (batch_steps_laps _ _ _ _ _ _ Htr) as (T1 & T2 & T3).
  cbn [laps_of is_train other metrics_of m_val] in T1, T2, T3.
  rewrite (keeps_phase_start laps_train train_phase s ltac:(reflexivity)) in T1.
  rewrite (keeps_phase_start laps_val train_phase s ltac:(reflexivity)) in T2.
  pose proof (report_epoch_laps train_phase _ _ _ _ Hrep) as R1.
  pose proof (report_epoch_laps val_phase _ _ _ _ Hrep) as R2.
  cbn [laps_of is_train] in R1, R2.
  assert (Hn : eval_every_n_epochs <> 0).
  { intros Hn. rewrite (run_phase_zero_cadence _ _ _ Hn) in Hval.
    discriminate. }
  exists m1, s1, s2.
  destruct (Z.eq_dec (epoch mod eval_every_n_epochs) 0) as [Hr|Hr].
  - rewrite (run_phase_active _ _ _ _ (or_intror (conj Hn Hr))) in Hval.
    apply train_batches_spec in Hval.
    destruct (batch_steps_laps _ _ _ _ _ _ Hval) as (V1 & V2 & V3).
    cbn [laps_of is_train other metrics_of] in V1, V2, V3.
    rewrite (keeps_phase_start laps_val val_phase s1 ltac:(reflexivity)) in V1.
    rewrite (keeps_phase_start laps_train val_phase s1 ltac:(reflexivity)) in V2.
    split; [exact Htr|]. split; [congruence|].
    split; [intros _; split; [exact Hval|congruence]|].
    split; [intros Hc; contradiction|exact Hrep].
  - rewrite (run_phase_skipped _ _ _ Hn Hr) in Hval.
    injection Hval as <- <-.
    split; [exact Htr|]. split; [congruence|].
    split; [intros Hc; contradiction|].
    split; [intros _; repeat split; congruence|exact Hrep].
Qed.

End Phases.

(** ** Runs that complete *)

Section Completion.
Import PyFloat Accumulators Training.
Context {T : Torch}.
Local Open Scope train_scope.

Variable data_loaders : DataLoaders.
Variable optimizer : Optimizer.
Variable loss_fn : Pred -> Y -> Loss.
Variable model_file_name : string.
Variable eval_every_n_epochs : Z.

(** A three-channel accumulator whose count is zero or at least one, and
    one whose count is at least one. *)
Definition acc3_ok (a : Accumulator) : Prop :=
  exists t u c : float, a = [t; u; c] /\ count_ok c.

Definition acc3_pos (a : Accumulator) : Prop :=
  exists t u c : float, a = [t; u; c] /\ ge_int c 1.

Lemma acc3_pos_ok (a : Accumulator) : acc3_pos a -> acc3_ok a.
Proof.
  intros (t & u & c & -> & Hc). exists t, u, c. split; [reflexivity|].
  right. exact Hc.
Qed.

Lemma acc3_new : acc3_ok (new 3).
Proof. exists fzero, fzero, fzero. split; [reflexivity|left; reflexivity]. Qed.

Lemma mean_acc3_pos (a : Accumulator) :
  acc3_pos a ->
  (exists v, mean a 0 2 = Ok v) /\ (exists v, mean a 1 2 = Ok v).
Proof.
  intros (t & u & c & -> & Hc). unfold mean. cbn [get nth_error rbind].
  rewrite !(fdiv_ge_one _ c Hc). split; eexists; reflexivity.
Qed.

Lemma fmul_int_total (a : float) (n : Z) :
  1 <= n < 2 ^ 53 -> exists v : float, fmul_int a n = Ok v.
Proof.
  intros Hn. destruct (of_int_ge_one n Hn) as (f & Hf & _).
  unfold fmul_int. rewrite Hf. eexists. reflexivity.
Qed.

Lemma metrics_of_set_same (m : Metrics) (phase : Phase) (a : Accumulator) :
  metrics_of (set_metrics m phase a) phase = a.
Proof. destruct phase; reflexivity. Qed.

Lemma metrics_of_set_other (m : Metrics) (phase : Phase) (a : Accumulator) :
  metrics_of (set_metrics m phase a) (other phase) = metrics_of m (other phase).
Proof. destruct phase; reflexivity. Qed.

Lemma train_batch_total (phase : Phase) (m : Metrics) (xy : X * Y)
    (s : State) :
  well_sized loss_fn (loader_of data_loaders phase) ->
  batch_sized loss_fn xy ->
  acc3_ok (metrics_of m phase) ->
  exists (m' : Metrics) (s' : State),
    train_batch data_loaders optimizer loss_fn phase m xy s = Done m' s' /\
    acc3_pos (metrics_of m' phase) /\
    metrics_of m' (other phase) = metrics_of m (other phase).
Proof.
  intros Hw (Hx & _ & _) (t & u & c & Hm & Hc).
  destruct (update_done optimizer loss_fn phase (fst xy) (snd xy) s)
    as (s1 & Hu).
  destruct (evaluate_total loss_fn (loader_of data_loaders phase) s1 Hw)
    as ([loss accuracy] & s2 & He).
  destruct (fmul_int_total loss _ Hx) as (wl & Hwl).
  destruct (fmul_int_total accuracy _ Hx) as (wa & Hwa).
  destruct (add_row3_ok t u c wl wa _ Hx Hc) as (c' & Hadd & Hge).
  exists (set_metrics m phase [fadd t wl; fadd u wa; c']).
  eexists. split; [|split].
  - apply train_batch_spec.
    exists s1, s2, loss, accuracy, wl, wa, [fadd t wl; fadd u wa; c'].
    rewrite Hm. repeat split; first [eassumption|reflexivity].
  - rewrite metrics_of_set_same. eexists _, _, _. split; [reflexivity|exact Hge].
  - apply metrics_of_set_other.
Qed.

Lemma train_batches_total (phase : Phase) (batches : list (X * Y))
    (m : Metrics) (s : State) :
  well_sized loss_fn (loader_of data_loaders phase) ->
  Forall (batch_sized loss_fn) batches ->
  acc3_ok (metrics_of m phase) ->
  exists (m' : Metrics) (s' : State),
    train_batches data_loaders optimizer loss_fn phase batches m s
    = Done m' s' /\
    acc3_ok (metrics_of m' phase) /\
    (batches <> [] -> acc3_pos (metrics_of m' phase)) /\
    metrics_of m' (other phase) = metrics_of m (other phase).
Proof.
  intros Hw HF. revert m s.
  induction HF as [|xy rest Hxy HF IH]; intros m s Hm.
  - exists m, s. repeat split; [exact Hm|congruence].
  - destruct (train_batch_total phase m xy s Hw Hxy Hm)
      as (m1 & s1 & H1 & Hp1 & Ho1).
    destruct (IH m1 s1 (acc3_pos_ok _ Hp1)) as (m2 & s2 & H2 & Hok2 & Hp2 & Ho2).
    exists m2, s2. cbn [train_batches]. rewrite (bind_done _ _ _ _ _ H1).
    split; [exact H2|]. split; [exact Hok2|]. split; [|congruence].
    intros _. destruct rest as [|xy' rest'].
    + cbn [train_batches] in H2. unfold ret in H2. injection H2 as <- _.
      exact Hp1.
    + apply Hp2. discriminate.
Qed.

Lemma phase_batches_sized (phase : Phase) (s : State) :
  well_sized loss_fn (loader_of data_loaders phase) ->
  phase_batches data_loaders phase s <> [] /\
  Forall (batch_sized loss_fn) (phase_batches data_loaders phase s).
Proof. intros Hw. apply Hw. Qed.

Lemma run_phase_train_total (epoch : Z) (m : Metrics) (s : State) :
  well_sized loss_fn (dl_train data_loaders) ->
  acc3_ok (m_train m) ->
  exists (m' : Metrics) (s' : State),
    run_phase data_loaders optimizer loss_fn eval_every_n_epochs epoch m
      train_phase s = Done m' s' /\
    acc3_pos (m_train m') /\ m_val m' = m_val m.
Proof.
  intros Hw Hm.
  rewrite (run_phase_active _ _ _ _ _ _ _ _ (or_introl eq_refl)).
  destruct (phase_batches_sized train_phase s Hw) as [Hne HF].
  destruct (train_batches_total train_phase _ m
              (phase_start data_loaders train_phase s) Hw HF Hm)
    as (m' & s' & H & _ & Hp & Ho).
  exists m', s'. split; [exact H|]. split; [exact (Hp Hne)|exact Ho].
Qed.

Lemma run_phase_val_total (epoch : Z) (m : Metrics) (s : State) :
  eval_every_n_epochs <> 0 ->
  well_sized loss_fn (dl_val data_loaders) ->
  acc3_ok (m_val m) ->
  exists (m' : Metrics) (s' : State),
    run_phase data_loaders optimizer loss_fn eval_every_n_epochs epoch m
      val_phase s = Done m' s' /\
    m_train m' = m_train m /\
    (epoch mod eval_every_n_epochs = 0 -> acc3_pos (m_val m')).
Proof.
  intros Hn Hw Hm.
  destruct (Z.eq_dec (epoch mod eval_every_n_epochs) 0) as [Hr|Hr].
  - rewrite (run_phase_active _ _ _ _ _ _ _ _ (or_intror (conj Hn Hr))).
    destruct (phase_batches_sized val_phase s Hw) as [Hne HF].
    destruct (train_batches_total val_phase _ m
                (phase_start data_loaders val_phase s) Hw HF Hm)
      as (m' & s' & H & _ & Hp & Ho).
    exists m', s'. split; [exact H|]. split; [exact Ho|].
    intros _. exact (Hp Hne).
  - rewrite (run_phase_skipped _ _ _ _ _ _ _ Hn Hr).
    exists m, s. split; [reflexivity|]. split; [reflexivity|].
    intros Hc. contradiction.
Qed.

Lemma report_epoch_total (epoch : Z) (m : Metrics) (s : State) :
  eval_every_n_epochs <> 0 ->
  acc3_pos (m_train m) ->
  (epoch mod eval_every_n_epochs = 0 -> acc3_pos (m_val m)) ->
  exists s' : State,
    report_epoch model_file_name eval_every_n_epochs epoch m s = Done tt s'.
Proof.
  intros Hn Ht Hv. unfold report_epoch, pymod.
  destruct (Z.eqb_spec eval_every_n_epochs 0) as [|_]; [contradiction|].
  destruct (mean_acc3_pos _ Ht) as [(a & Ha) (b & Hb)].
  unfold lift at 1, bind at 1.
  destruct (Z.eqb_spec (epoch mod eval_every_n_epochs) 0) as [Hr|Hr].
  - destruct (mean_acc3_pos _ (Hv Hr)) as [(c & Hc) (d & Hd)].
    unfold bind at 1. cbn [save].
    rewrite (bind_lift_ok _ _ _ _ Ha). rewrite (bind_lift_ok _ _ _ _ Hb).
    rewrite (bind_lift_ok _ _ _ _ Hc). rewrite (bind_lift_ok _ _ _ _ Hd).
    eexists. reflexivity.
  - rewrite (bind_lift_ok _ _ _ _ Ha). rewrite (bind_lift_ok _ _ _ _ Hb).
    eexists. reflexivity.
Qed.

Lemma run_epoch_total (epoch : Z) (s : State) :
  eval_every_n_epochs <> 0 ->
  well_sized loss_fn (dl_train data_loaders) ->
  well_sized loss_fn (dl_val data_loaders) ->
  exists (m : Metrics) (s' : State),
    run_epoch data_loaders optimizer loss_fn model_file_name
      eval_every_n_epochs epoch s = Done m s' /\
    acc3_pos (m_train m).
Proof.
  intros Hn Hwt Hwv. unfold run_epoch. cbn [run_phases phases].
  destruct (run_phase_train_total epoch {| m_train := new 3; m_val := new 3 |}
              s Hwt acc3_new) as (m1 & s1 & H1 & Hp1 & Hv1).
  cbn [m_val] in Hv1.
  assert (Hok : acc3_ok (m_val m1)) by (rewrite Hv1; apply acc3_new).
  destruct (run_phase_val_total epoch m1 s1 Hn Hwv Hok)
    as (m2 & s2 & H2 & Ht2 & Hp2).
  assert (Hpt : acc3_pos (m_train m2)) by (rewrite Ht2; exact Hp1).
  destruct (report_epoch_total epoch m2 s2 Hn Hpt Hp2) as (s3 & H3).
  exists m2, s3. split; [|exact Hpt].
  unfold bind at 1. unfold bind at 1. rewrite H1.
  unfold bind at 1. rewrite H2. unfold ret at 1.
  rewrite (bind_done _ _ _ _ _ H3). reflexivity.
Qed.

Lemma run_epochs_total (epochs : list Z) (metrics : option Metrics)
    (s : State) :
  eval_every_n_epochs <> 0 ->
  well_sized loss_fn (dl_train data_loaders) ->
  well_sized loss_fn (dl_val data_loaders) ->
  exists (metrics' : option Metrics) (s' : State),
    run_epochs data_loaders optimizer loss_fn model_file_name
      eval_every_n_epochs epochs metrics s = Done metrics' s' /\
    (epochs <> [] -> exists m, metrics' = Some m /\ acc3_pos (m_train m)) /\
    (epochs = [] -> metrics' = metrics).
Proof.
  intros Hn Hwt Hwv. revert metrics s.
  induction epochs as [|epoch rest IH]; intros metrics s.
  - exists metrics, s. repeat split; congruence.
  - destruct (run_epoch_total epoch s Hn Hwt Hwv) as (m & s1 & H1 & Hp).
    destruct (IH (Some m) s1) as (om & s2 & H2 & Hne & He).
    exists om, s2. cbn [run_epochs]. rewrite (bind_done _ _ _ _ _ H1).
    split; [exact H2|]. split; [|discriminate].
    intros _. destruct rest as [|e' rest'].
    + exists m. split; [apply He; reflexivity|exact Hp].
    + apply Hne. discriminate.
Qed.

Lemma finish_total (m : Metrics) (s : State) :
  well_sized loss_fn (dl_test data_loaders) ->
  well_sized loss_fn (dl_val data_loaders) ->
  acc3_pos (m_train m) ->
  exists s' : State,
    finish data_loaders loss_fn model_file_name (Some m) s = Done tt s'.
Proof.
  intros Hwt Hwv Hp. unfold finish.
  destruct (evaluate_total loss_fn _ s Hwt) as ([tl ta] & s1 & H1).
  rewrite (bind_done _ _ _ _ _ H1).
  destruct (evaluate_total loss_fn _ s1 Hwv) as ([vl va] & s2 & H2).
  rewrite (bind_done _ _ _ _ _ H2).
  destruct (mean_acc3_pos _ Hp) as [(a & Ha) (b & Hb)].
  cbn [read_metrics]. unfold ret at 1, bind at 1.
  rewrite (bind_lift_ok _ _ _ _ Ha).
  unfold ret at 1, bind at 1.
  rewrite (bind_lift_ok _ _ _ _ Hb).
  eexists. reflexivity.
Qed.

Lemma range_nonempty (epochs : Z) : 1 <= epochs -> range epochs <> [].
Proof.
  intros H. unfold range.
  destruct (Z.to_nat epochs) as [|k] eqn:Hk; [lia|]. discriminate.
Qed.

(** On data loaders that always yield a batch, with at least one epoch and a
    cadence that is not zero, [train] runs to completion. *)
Lemma train_total (learning_rate : float) (epochs : Z) (s : State) :
  1 <= epochs -> eval_every_n_epochs <> 0 ->
  well_sized loss_fn (dl_train data_loaders) ->
  well_sized loss_fn (dl_val data_loaders) ->
  well_sized loss_fn (dl_test data_loaders) ->
  exists s' : State,
    train data_loaders optimizer loss_fn model_file_name eval_every_n_epochs
      learning_rate epochs s = Done tt s'.
Proof.
  intros He Hn Hwt Hwv Hwe. unfold train.
  unfold bind at 1. cbn [optimizer_new]. unfold bind at 1.
  cbn [new_animator_and_timers].
  match goal with
  | |- context [bind (run_epochs _ _ _ _ _ ?es ?om) _ ?s0] =>
      destruct (run_epochs_total es om s0 Hn Hwt Hwv)
        as (om' & s1 & H1 & Hne & _)
  end.
  rewrite (bind_done _ _ _ _ _ H1).
  destruct (Hne (range_nonempty epochs He)) as (m & -> & Hp).
  apply finish_total; assumption.
Qed.

End Completion.

(** ** What a completed run has written *)

Section RunEffects.
Import PyFloat PyFormat Accumulators Training.
Context {T : Torch}.
Local Open Scope list_scope.
Local Open Scope train_scope.

Variable data_loaders : DataLoaders.
Variable optimizer : Optimizer.
Variable loss_fn : Pred -> Y -> Loss.
Variable model_file_name : string.
Variable eval_every_n_epochs : Z.

(** The epochs at which a periodic checkpoint is due. *)
Definition due (epoch : Z) : bool := epoch mod eval_every_n_epochs =? 0.

(** The state in which the epoch loop starts. *)
Definition train_start (learning_rate : float) (s : State) : State :=
  state_of (bind (optimizer_new optimizer learning_rate)
              (fun _ => new_animator_and_timers) s).

Lemma keeps_optimizer_step {B : Type} (f : State -> B) :
  (forall s p o, f {| params := p; training := training s; opt_state := o;
                      rng := rng s; files := files s; curves := curves s;
                      laps_train := laps_train s; laps_val := laps_val s;
                      stdout := stdout s |} = f s) ->
  forall loss, preserves (keeps f) (optimizer_step optimizer loss).
Proof.
  intros Hf loss s. unfold optimizer_step, keeps.
  destruct (opt_step optimizer _ _ _) as [o p]. apply Hf.
Qed.

(** The phases of an epoch write no file and print nothing. *)
Lemma run_phases_keeps {B : Type} (f : State -> B) (epoch : Z)
    (ps : list Phase) (metrics : Metrics) :
  (forall s p o mode g lt lv,
      f {| params := p; training := mode; opt_state := o; rng := g;
           files := files s; curves := curves s; laps_train := lt;
           laps_val := lv; stdout := stdout s |} = f s) ->
  preserves (keeps f)
    (run_phases data_loaders optimizer loss_fn eval_every_n_epochs epoch ps
       metrics).
Proof.
  intros Hf.
  apply preserves_run_phases;
    [apply keeps_refl|apply keeps_trans| | | | ].
  - intros mode s. apply Hf.
  - intros l s. unfold iterate, keeps. destruct (iter_loader l (rng s)).
    apply Hf.
  - intros phase s. apply Hf.
  - intros loss s. unfold optimizer_step, keeps.
    destruct (opt_step optimizer _ _ _). apply Hf.
Qed.

Lemma report_epoch_inv (epoch : Z) (metrics : Metrics) (s s' : State) :
  report_epoch model_file_name eval_every_n_epochs epoch metrics s
  = Done tt s' ->
  eval_every_n_epochs <> 0 /\
  files s' = files s ++ (if due epoch
                         then [(checkpoint_path model_file_name epoch, params s)]
                         else []) /\
  params s' = params s /\ stdout s' = stdout s.
Proof.
  unfold report_epoch, pymod, due.
  destruct (Z.eqb_spec eval_every_n_epochs 0) as [|Hn]; [discriminate|].
  unfold lift at 1, bind at 1.
  destruct (epoch mod eval_every_n_epochs =? 0).
  - unfold bind at 1. cbn [save]. intros H.
    apply bind_inv in H as (a & s1 & H1 & H). apply lift_inv in H1 as [_ ->].
    apply bind_inv in H as (b & s2 & H2 & H). apply lift_inv in H2 as [_ ->].
    apply bind_inv in H as (c & s3 & H3 & H). apply lift_inv in H3 as [_ ->].
    apply bind_inv in H as (d & s4 & H4 & H). apply lift_inv in H4 as [_ ->].
    unfold animator_add in H. injection H as <-.
    repeat split. exact Hn.
  - intros H.
    apply bind_inv in H as (a & s1 & H1 & H). apply lift_inv in H1 as [_ ->].
    apply bind_inv in H as (b & s2 & H2 & H). apply lift_inv in H2 as [_ ->].
    unfold animator_add in H. injection H as <-.
    repeat split; [exact Hn|]. cbn [files]. rewrite app_nil_r. reflexivity.
Qed.

Lemma run_epoch_inv (epoch : Z) (s : State) (metrics : Metrics) (s' : State) :
  run_epoch data_loaders optimizer loss_fn model_file_name eval_every_n_epochs
    epoch s = Done metrics s' ->
  eval_every_n_epochs <> 0 /\
  map fst (files s')
  = map fst (files s)
    ++ (if due epoch then [checkpoint_path model_file_name epoch] else []) /\
  stdout s' = stdout s.
Proof.
  intros H. unfold run_epoch in H.
  apply bind_inv in H as (m & s1 & Hph & H).
  apply bind_inv in H as ([] & s2 & Hrep & H).
  unfold ret in H. injection H as -> ->.
  apply report_epoch_inv in Hrep as (Hn & Hf & _ & Ho).
  pose proof (run_phases_keeps files epoch phases
                {| m_train := new 3; m_val := new 3 |}
                ltac:(reflexivity) s) as Kf.
  pose proof (run_phases_keeps stdout epoch phases
                {| m_train := new 3; m_val := new 3 |}
                ltac:(reflexivity) s) as Ko.
  rewrite Hph in Kf, Ko. unfold keeps in Kf, Ko. cbn [state_of] in Kf, Ko.
  split; [exact Hn|]. split; [|congruence].
  rewrite Hf, Kf, map_app. destruct (due epoch); reflexivity.
Qed.

Lemma run_epochs_inv (epochs : list Z) (metrics metrics' : option Metrics)
    (s s' : State) :
  run_epochs data_loaders optimizer loss_fn model_file_name
    eval_every_n_epochs epochs metrics s = Done metrics' s' ->
  map fst (files s')
  = map fst (files s)
    ++ map (checkpoint_path model_file_name) (filter due epochs) /\
  stdout s' = stdout s /\
  (epochs <> [] -> eval_every_n_epochs <> 0) /\
  (epochs = [] -> metrics' = metrics) /\
  (epochs <> [] -> metrics' <> None).
Proof.
  revert metrics s. induction epochs as [|epoch rest IH]; intros metrics s H.
  - cbn [run_epochs] in H. unfold ret in H. injection H as -> ->.
    cbn [filter map]. rewrite app_nil_r. repeat split; congruence.
  - cbn [run_epochs] in H. apply bind_inv in H as (m & s1 & H1 & H).
    apply run_epoch_inv in H1 as (Hn & Hf & Ho).
    apply IH in H as (Hf' & Ho' & _ & He & Hne).
    split; [|split; [congruence|split; [intros _; exact Hn|split]]].
    + rewrite Hf', Hf. cbn [filter]. rewrite <- app_assoc.
      destruct (due epoch); reflexivity.
    + discriminate.
    + intros _. destruct rest as [|e' rest'].
      * rewrite (He eq_refl). discriminate.
      * apply Hne. discriminate.
Qed.

Lemma evaluate_inv (l : Loader) (s s' : State) (r : float * float) :
  evaluate loss_fn l s = Done r s' ->
  params s' = params s /\ files s' = files s /\ stdout s' = stdout s.
Proof.
  intros H.
  pose proof (keeps_evaluate loss_fn params l ltac:(reflexivity) s) as Kp.
  pose proof (keeps_evaluate loss_fn files l ltac:(reflexivity) s) as Kf.
  pose proof (keeps_evaluate loss_fn stdout l ltac:(reflexivity) s) as Ko.
  rewrite H in Kp, Kf, Ko. repeat split; assumption.
Qed.

Lemma finish_inv (metrics : option Metrics) (s s' : State) :
  finish data_loaders loss_fn model_file_name metrics s = Done tt s' ->
  exists (m : Metrics) (s1 s2 : State)
         (train_loss train_acc val_loss val_acc test_loss test_acc : float),
    metrics = Some m /\
    evaluate loss_fn (dl_test data_loaders) s = Done (test_loss, test_acc) s1 /\
    evaluate loss_fn (dl_val data_loaders) s1 = Done (val_loss, val_acc) s2 /\
    mean (m_train m) 0 2 = Ok train_loss /\
    mean (m_train m) 1 2 = Ok train_acc /\
    files s' = files s ++ [(final_path model_file_name, params s')] /\
    params s' = params s /\
    stdout s' = stdout s ++ [summary_line train_loss train_acc val_loss val_acc
                               test_loss test_acc].
Proof.
  intros H. unfold finish in H.
  apply bind_inv in H as ([tel tea] & s1 & H1 & H).
  apply bind_inv in H as ([vl va] & s2 & H2 & H).
  apply bind_inv in H as (m & s3 & H3 & H).
  destruct metrics as [m0|]; [|discriminate].
  cbn [read_metrics] in H3. unfold ret in H3. injection H3 as -> <-.
  apply bind_inv in H as (tl & s3 & H4 & H). apply lift_inv in H4 as [H4 ->].
  apply bind_inv in H as (m' & s3 & H5 & H).
  cbn [read_metrics] in H5. unfold ret in H5. injection H5 as <- <-.
  apply bind_inv in H as (ta & s3 & H6 & H). apply lift_inv in H6 as [H6 ->].
  unfold bind, save, print in H. injection H as <-.
  destruct (evaluate_inv _ _ _ _ H1) as (P1 & F1 & O1).
  destruct (evaluate_inv _ _ _ _ H2) as (P2 & F2 & O2).
  exists m, s1, s2, tl, ta, vl, va, tel, tea. cbn [files params stdout].
  repeat split; try assumption; congruence.
Qed.

Lemma train_inv (learning_rate : float) (epochs : Z) (s s' : State) :
  train data_loaders optimizer loss_fn model_file_name eval_every_n_epochs
    learning_rate epochs s = Done tt s' ->
  exists (metrics : option Metrics) (s1 : State),
    run_epochs data_loaders optimizer loss_fn model_file_name
      eval_every_n_epochs (range epochs) None (train_start learning_rate s)
    = Done metrics s1 /\
    finish data_loaders loss_fn model_file_name metrics s1 = Done tt s'.
Proof.
  intros H. unfold train in H.
  unfold bind at 1 in H. cbn [optimizer_new] in H.
  unfold bind at 1 in H. cbn [new_animator_and_timers] in H.
  apply bind_inv in H as (om & s1 & H1 & H).
  exists om, s1. split; [exact H1|exact H].
Qed.

Lemma train_start_keeps (learning_rate : float) (s : State) :
  files (train_start learning_rate s) = files s /\
  stdout (train_start learning_rate s) = stdout s /\
  params (train_start learning_rate s) = params s.
Proof. repeat split. Qed.

End RunEffects.

(** ** Checkpoints and the summary line *)

Section Formatting.
Import PyFloat PyFormat.








End Formatting.

Section TerminalStep.
Import PyFloat PyFormat Accumulators Training.
Context {T : Torch}.
Local Open Scope list_scope.

Variable data_loaders : DataLoaders.
Variable optimizer : Optimizer.
Variable loss_fn : Pred -> Y -> Loss.
Variable model_file_name : string.
Variable eval_every_n_epochs : Z.

Lemma range_head (epochs : Z) :
  range epochs <> [] -> exists rest, range epochs = 0 :: rest.
Proof.
  unfold range. destruct (Z.to_nat epochs) as [|k]; intros H.
  - exfalso. apply H. reflexivity.
  - cbn [seq map]. eexists. reflexivity.
Qed.



End TerminalStep.

(** ** Who writes the parameters *)

Section ParameterFrame.
Import PyFloat Accumulators Training.
Context {T : Torch}.
Local Open Scope train_scope.

Variable data_loaders : DataLoaders.
Variable optimizer : Optimizer.
Variable loss_fn : Pred -> Y -> Loss.
Variable model_file_name : string.
Variable eval_every_n_epochs : Z.

Lemma keeps_evaluate_and_add {B : Type} (f : State -> B) (phase : Phase)
    (metrics : Metrics) (x : X) :
  (forall s mode g lt lv,
      f {| params := params s; training := mode; opt_state := opt_state s;
           rng := g; files := files s; curves := curves s; laps_train := lt;
           laps_val := lv; stdout := stdout s |} = f s) ->
  preserves (keeps f) (evaluate_and_add data_loaders loss_fn phase metrics x).
Proof.
  intros Hf. unfold evaluate_and_add.
  apply preserves_bind; [apply keeps_trans| |].
  - apply keeps_evaluate. intros s mode g. apply Hf.
  - intros [loss accuracy].
    apply preserves_bind;
      [apply keeps_trans|apply preserves_lift; intros ?; apply keeps_refl|].
    intros wl.
    apply preserves_bind;
      [apply keeps_trans|apply preserves_lift; intros ?; apply keeps_refl|].
    intros wa.
    apply preserves_bind;
      [apply keeps_trans|apply preserves_lift; intros ?; apply keeps_refl|].
    intros acc.
    apply preserves_bind; [apply keeps_trans| |].
    + intros s. apply Hf.
    + intros _. apply preserves_ret; intros ?; apply keeps_refl.
Qed.

(** The optimizer step of a batch of the train phase. *)
Definition stepped (x : X) (y : Y) (s : State) : OptState * Params :=
  opt_step optimizer (opt_state s) (params s)
    (backward (loss_fn (net_call (params s) (training s) x) y)).

Lemma train_batch_params (phase : Phase) (metrics : Metrics) (x : X) (y : Y)
    (s : State) :
  params (state_of (train_batch data_loaders optimizer loss_fn phase metrics
                      (x, y) s))
  = if is_train phase then snd (stepped x y s) else params s.
Proof.
  rewrite train_batch_unfold. unfold bind, update, stepped, optimizer_step.
  destruct (is_train phase).
  - destruct (opt_step optimizer _ _ _) as [o p]. cbn [snd].
    rewrite (keeps_evaluate_and_add params phase metrics x ltac:(reflexivity)).
    reflexivity.
  - rewrite (keeps_evaluate_and_add params phase metrics x ltac:(reflexivity)).
    reflexivity.
Qed.

Lemma train_batch_opt_state (phase : Phase) (metrics : Metrics) (x : X)
    (y : Y) (s : State) :
  opt_state (state_of (train_batch data_loaders optimizer loss_fn phase
                         metrics (x, y) s))
  = if is_train phase then fst (stepped x y s) else opt_state s.
Proof.
  rewrite train_batch_unfold. unfold bind, update, stepped, optimizer_step.
  destruct (is_train phase).
  - destruct (opt_step optimizer _ _ _) as [o p]. cbn [fst].
    rewrite (keeps_evaluate_and_add opt_state phase metrics x
               ltac:(reflexivity)).
    reflexivity.
  - rewrite (keeps_evaluate_and_add opt_state phase metrics x
               ltac:(reflexivity)).
    reflexivity.
Qed.

Lemma iterate_mode (l : Loader) (s : State) :
  training (state_of (iterate l s)) = training s.
Proof. unfold iterate. destruct (iter_loader l (rng s)). reflexivity. Qed.

(** An evaluation that returns leaves the network in evaluation mode. *)
Lemma evaluate_done_mode (l : Loader) (s s' : State) (r : float * float) :
  evaluate loss_fn l s = Done r s' -> training s' = false.
Proof.
  intros H. unfold evaluate in H.
  apply bind_inv in H as (loss & s1 & _ & H).
  apply bind_inv in H as (acc & s2 & H2 & H).
  unfold ret in H. injection H as _ <-.
  unfold evaluate_accuracy_gpu in H2.
  unfold bind at 1 in H2. cbn [set_training] in H2.
  rewrite (bind_done _ _ _ _ _ (iterate_eq _ _)) in H2.
  apply bind_inv in H2 as (metric & s3 & H3 & H2).
  apply lift_inv in H2 as [_ ->].
  match type of H3 with
  | evaluate_accuracy_loop ?bs ?m ?st = _ =>
      pose proof (evaluate_accuracy_loop_state bs m st) as K
  end.
  rewrite H3 in K. cbn [state_of] in K. rewrite K, iterate_mode. reflexivity.
Qed.

(** A property of the parameters that holds after a step if it held
    before. *)
Definition params_inv (P : Params -> Prop) (s s' : State) : Prop :=
  P (params s) -> P (params s').

Lemma train_params_invariant (P : Params -> Prop) (learning_rate : float)
    (epochs : Z) (s : State) :
  (forall o p g, P p -> P (snd (opt_step optimizer o p g))) ->
  P (params s) ->
  P (params (state_of (train data_loaders optimizer loss_fn model_file_name
                         eval_every_n_epochs learning_rate epochs s))).
Proof.
  intros Hstep. revert s. change (preserves (params_inv P)
    (train data_loaders optimizer loss_fn model_file_name eval_every_n_epochs
       learning_rate epochs)).
  apply preserves_train.
  - intros s H. exact H.
  - intros s1 s2 s3 H12 H23 H. exact (H23 (H12 H)).
  - intros mode s H. exact H.
  - intros l s H. unfold iterate. destruct (iter_loader l (rng s)). exact H.
  - intros phase s H. exact H.
  - intros loss s H. unfold optimizer_step.
    pose proof (Hstep (opt_state s) (params s) (backward loss) H) as H'.
    destruct (opt_step optimizer _ _ _). exact H'.
  - intros path s H. exact H.
  - intros x ys s H. exact H.
  - intros line s H. exact H.
  - intros lr s H. exact H.
  - intros s H. exact H.
Qed.

Lemma finish_params (metrics : option Metrics) (s : State) :
  params (state_of (finish data_loaders loss_fn model_file_name metrics s))
  = params s.
Proof.
  change (keeps params s
            (state_of (finish data_loaders loss_fn model_file_name metrics s))).
  revert s. apply preserves_finish.
  - apply keeps_refl.
  - apply keeps_trans.
  - intros mode s. reflexivity.
  - intros l s. unfold iterate, keeps. destruct (iter_loader l (rng s)).
    reflexivity.
  - intros path s. reflexivity.
  - intros line s. reflexivity.
Qed.

(** C9, as amended: the parameters are written by the optimizer step of the
    batches of the train phase and by nothing else, so that whatever the
    optimizer step maintains holds when [train] stops; a batch of the train
    phase makes exactly one step, a batch of the val phase, an evaluation
    and the statements after the epoch loop leave the parameters as they
    were.  The parameters are not all that is carried from batch to batch:
    a batch that completes has added a row to the accumulator of its phase,
    has stopped the timer of its phase once more and leaves the network in
    evaluation mode, and a batch of the train phase also moves the state of
    the optimizer. *)
Theorem parameters_written_by_optimizer_step
    (learning_rate : float) (epochs : Z) (s : State) :
  (forall P : Params -> Prop,
      (forall o p g, P p -> P (snd (opt_step optimizer o p g))) ->
      P (params s) ->
      P (params (state_of (train data_loaders optimizer loss_fn
                             model_file_name eval_every_n_epochs
                             learning_rate epochs s)))) /\
  (forall (phase : Phase) (metrics : Metrics) (x : X) (y : Y) (s0 : State),
      params (state_of (train_batch data_loaders optimizer loss_fn phase
                          metrics (x, y) s0))
      = (if is_train phase then snd (stepped x y s0) else params s0) /\
      opt_state (state_of (train_batch data_loaders optimizer loss_fn phase
                             metrics (x, y) s0))
      = (if is_train phase then fst (stepped x y s0) else opt_state s0)) /\
  (forall (l : Loader) (s0 : State),
      params (state_of (evaluate loss_fn l s0)) = params s0) /\
  (forall (metrics : option Metrics) (s0 : State),
      params (state_of (finish data_loaders loss_fn model_file_name metrics s0))
      = params s0) /\
  (forall (phase : Phase) (metrics metrics' : Metrics) (xy : X * Y)
          (s0 s' : State),
      train_batch data_loaders optimizer loss_fn phase metrics xy s0
      = Done metrics' s' ->
      laps_of phase s' = S (laps_of phase s0) /\
      training s' = false /\
      exists (loss accuracy : float) (acc : Accumulator),
        add (metrics_of metrics phase)
          [Num_float loss; Num_float accuracy; Num_int (shape0 (fst xy))]
        = Ok acc /\
        metrics' = set_metrics metrics phase acc).
Proof.
  split; [intros P; apply train_params_invariant|].
  split; [intros phase metrics x y s0; split;
          [apply train_batch_params|apply train_batch_opt_state]|].
  split; [intros l s0;
          apply (keeps_evaluate loss_fn params l ltac:(reflexivity))|].
  split; [apply finish_params|].
  intros phase metrics metrics' xy s0 s' H.
  apply train_batch_spec in H.
  destruct (batch_step_laps _ _ _ _ _ _ _ _ _ H) as (L & _ & _).
  destruct H as (s1 & s2 & loss & accuracy & wl & wa & acc
                 & _ & He & _ & _ & Hadd & Hm & Hstop).
  split; [exact L|]. split.
  - apply evaluate_done_mode in He. unfold timer_stop in Hstop.
    injection Hstop as <-. exact He.
  - exists wl, wa, acc. split; assumption.
Qed.

End ParameterFrame.

(** ** The weighted-mean reads *)

Section MeanReads.
Import PyFloat Accumulators Training.
Context {T : Torch}.
Local Open Scope train_scope.

Variable data_loaders : DataLoaders.
Variable optimizer : Optimizer.
Variable loss_fn : Pred -> Y -> Loss.
Variable model_file_name : string.
Variable eval_every_n_epochs : Z.

Lemma mean_new_3 :
  mean (new 3) 0 2 = Raise ZeroDivisionError /\
  mean (new 3) 1 2 = Raise ZeroDivisionError.
Proof. split; reflexivity. Qed.

Lemma run_epoch_empty_train (s : State) :
  (forall g, fst (iter_loader (dl_train data_loaders) g) = []) ->
  well_sized loss_fn (dl_val data_loaders) ->
  exists s' : State,
    run_epoch data_loaders optimizer loss_fn model_file_name
      eval_every_n_epochs 0 s = Fail ZeroDivisionError s'.
Proof.
  intros Hempty Hwv. unfold run_epoch. cbn [run_phases phases].
  unfold bind at 1. unfold bind at 1.
  rewrite (run_phase_active _ _ _ _ _ _ _ _ (or_introl eq_refl)).
  unfold phase_batches. cbn [loader_of]. rewrite Hempty.
  cbn [train_batches]. unfold ret at 1.
  destruct (Z.eq_dec eval_every_n_epochs 0) as [Hn|Hn].
  - rewrite (bind_fail _ _ _ _ _ (run_phase_zero_cadence _ _ _ _ _ _ _ Hn)).
    eexists. reflexivity.
  - match goal with
    | |- context [bind (run_phase _ _ _ _ _ ?m _) _ ?s1] =>
        destruct (run_phase_val_total data_loaders optimizer loss_fn
                    eval_every_n_epochs 0 m s1 Hn Hwv (acc3_new))
          as (m2 & s2 & H2 & Ht & _)
    end.
    rewrite (bind_done _ _ _ _ _ H2). unfold ret at 1.
    unfold report_epoch, pymod.
    destruct (Z.eqb_spec eval_every_n_epochs 0) as [|_]; [contradiction|].
    unfold lift at 1. unfold bind at 2. rewrite Zmod_0_l.
    change (0 =? 0) with true. cbv iota.
    unfold bind at 2. cbn [save]. rewrite Ht. cbn [m_train].
    unfold bind at 2. rewrite (proj1 mean_new_3). unfold lift at 1.
    unfold bind. eexists. reflexivity.
Qed.

(** C10: the reads divide without a guard.  [evaluate_loss] on a pass with
    no batch raises [ZeroDivisionError], and returns on a loader that always
    yields a batch; an accumulator of [train] to which nothing was added, as
    the val accumulator of an epoch whose val phase was skipped, raises on
    both reads, while after the batches of a pass that yields at least one
    both reads return; and [train] on an empty train partition raises
    [ZeroDivisionError] in its first epoch. *)
Theorem mean_reads_need_a_batch :
  (forall (l : Loader) (s : State),
      fst (iter_loader l (rng s)) = [] ->
      evaluate_loss loss_fn l s
      = Fail ZeroDivisionError (state_of (iterate l s))) /\
  (forall (l : Loader) (s : State),
      well_sized loss_fn l ->
      exists (v : float) (s' : State), evaluate_loss loss_fn l s = Done v s') /\
  (mean (new 3) 0 2 = Raise ZeroDivisionError /\
   mean (new 3) 1 2 = Raise ZeroDivisionError) /\
  (forall (phase : Phase) (batches : list (X * Y)) (s : State),
      well_sized loss_fn (loader_of data_loaders phase) ->
      Forall (batch_sized loss_fn) batches -> batches <> [] ->
      exists (m' : Metrics) (s' : State) (v w : float),
        train_batches data_loaders optimizer loss_fn phase batches
          {| m_train := new 3; m_val := new 3 |} s = Done m' s' /\
        mean (metrics_of m' phase) 0 2 = Ok v /\
        mean (metrics_of m' phase) 1 2 = Ok w) /\
  (forall (learning_rate : float) (epochs : Z) (s : State),
      1 <= epochs ->
      (forall g, fst (iter_loader (dl_train data_loaders) g) = []) ->
      well_sized loss_fn (dl_val data_loaders) ->
      exists s' : State,
        train data_loaders optimizer loss_fn model_file_name
          eval_every_n_epochs learning_rate epochs s
        = Fail ZeroDivisionError s').
Proof.
  split; [apply evaluate_loss_empty|].
  split; [intros l s Hw; apply evaluate_loss_total, Hw|].
  split; [exact mean_new_3|]. split.
  - intros phase batches s Hw HF Hne.
    destruct (train_batches_total data_loaders optimizer loss_fn phase batches
                {| m_train := new 3; m_val := new 3 |} s Hw HF)
      as (m' & s' & H & _ & Hp & _).
    { destruct phase; apply acc3_new. }
    destruct (mean_acc3_pos _ (Hp Hne)) as [(v & Hv) (w & Hw')].
    exists m', s', v, w. repeat split; assumption.
  - intros lr epochs s He Hempty Hwv. unfold train.
    unfold bind at 1. cbn [optimizer_new]. unfold bind at 1.
    cbn [new_animator_and_timers].
    destruct (range_head epochs (range_nonempty epochs He)) as (rest & ->).
    cbn [run_epochs].
    match goal with
    | |- context [bind (bind (run_epoch _ _ _ _ _ _) _) _ ?s0] =>
        destruct (run_epoch_empty_train s0 Hempty Hwv) as (s' & H)
    end.
    exists s'. apply bind_fail. apply bind_fail. exact H.
Qed.

End MeanReads.

(** ** The loops on the concrete instance *)

Section ExampleRuns.
Import PyFloat PyFormat Accumulators Training Example.

Lemma example_batch_sized (x y : list Z) :
  1 <= Z.of_nat (List.length x) < 2 ^ 53 ->
  1 <= Z.of_nat (List.length y) < 2 ^ 53 ->
  List.length x = List.length y ->
  batch_sized squared_error (x, y).
Proof.
  intros Hx Hy Hxy. split; [exact Hx|]. split; [exact Hy|].
  intros p mode. cbn [fst snd net_call d2l_size_loss linear_model].
  unfold squared_error.
  assert (Hlen : forall (w : Z) (a b : list Z),
             List.length a = List.length b ->
             List.length (squared_errors (map (fun xi => (xi, w * xi)) a) b)
             = List.length a).
  { intros w a. induction a as [|ai a IH]; intros [|bi b] Hab;
      try discriminate; [reflexivity|].
    cbn [map squared_errors List.length]. f_equal. apply IH.
    injection Hab as Hab. exact Hab. }
  rewrite Hlen by exact Hxy. exact Hx.
Qed.

Lemma loaders_well_sized :
  well_sized squared_error (dl_train loaders) /\
  well_sized squared_error (dl_val loaders) /\
  well_sized squared_error (dl_test loaders).
Proof.
  assert (H2 : 1 <= Z.of_nat 2 < 2 ^ 53) by (cbn; lia).
  unfold well_sized.
  split; [|split]; intros g;
    cbn [iter_loader linear_model fst snd loaders dl_train dl_val dl_test andb];
    try destruct (Nat.odd g); cbn [rev app]; (split; [discriminate|]);
    repeat constructor; apply example_batch_sized; try exact H2; reflexivity.
Qed.

Lemma val_phase_cadence_witness :
  exists (m : Metrics) (s' : State),
    run_epoch loaders sign_descent squared_error "lenet" 100 1 initial
    = Done m s' /\
    laps_train s' = 3%nat /\ laps_val s' = 0%nat /\ m_val m = new 3.
Proof.
  destruct (run_epoch_total loaders sign_descent squared_error "lenet" 100 1
              initial ltac:(discriminate) (proj1 loaders_well_sized)
              (proj1 (proj2 loaders_well_sized))) as (m & s' & E & _).
  exists m, s'. split; [exact E|].
  destruct (val_phase_cadence loaders sign_descent squared_error "lenet" 100 1
              initial m s' E) as (m1 & s1 & s2 & _ & Ht & _ & Hskip & _).
  destruct (Hskip ltac:(discriminate)) as (_ & _ & Hv & Hl).
  split; [exact Ht|]. split; [exact Hl|exact Hv].
Defined.



(** One batch of the val phase, taken with the network in training mode:
    parameters and files are as before, and yet the val accumulator, the val
    timer and the mode flag are not. *)
Lemma batch_carries_more_than_parameters :
  exists (m1 : Metrics) (s1 : State),
    train_batch loaders sign_descent squared_error val_phase
      {| m_train := new 3; m_val := new 3 |} ([7; 8], [14; 16])
      (state_of (set_training true initial)) = Done m1 s1 /\
    params s1 = params (state_of (set_training true initial)) /\
    files s1 = files (state_of (set_training true initial)) /\
    m_val m1
    = [S754_finite false 7951668092076032 (-44); S754_zero false;
       S754_finite false 4503599627370496 (-51)] /\
    m_val m1 <> new 3 /\
    laps_val (state_of (set_training true initial)) = 0%nat /\
    laps_val s1 = 1%nat /\
    training (state_of (set_training true initial)) = true /\
    training s1 = false.
Proof.
  exists {| m_train := new 3;
            m_val := [S754_finite false 7951668092076032 (-44); S754_zero false;
                      S754_finite false 4503599627370496 (-51)] |}.
  exists (@Build_State linear_model 0 false 0%nat 2%nat [] [] 0%nat 1%nat []).
  split; [vm_compute; reflexivity|].
  cbn [params files m_val laps_val training set_training state_of initial].
  repeat split. intros H. discriminate H.
Qed.

Lemma mean_reads_need_a_batch_witness :
  evaluate_loss squared_error (dl_train loaders_no_train) initial
  = Fail ZeroDivisionError
      (state_of (iterate (dl_train loaders_no_train) initial)) /\
  exists s' : State,
    train loaders_no_train sign_descent squared_error "lenet" 100
      learning_rate 1 initial = Fail ZeroDivisionError s'.
Proof.
  destruct (mean_reads_need_a_batch loaders_no_train sign_descent
              squared_error "lenet" 100) as (H1 & _ & _ & _ & H5).
  split; [apply H1; reflexivity|].
  apply H5; [lia|intros g; cbn; destruct (Nat.odd g); reflexivity|].
  exact (proj1 (proj2 loaders_well_sized)).
Defined.

End ExampleRuns.

(** ** The state an evaluation leaves *)

Section EvaluateState.
Import PyFloat Accumulators Training.
Context {T : Torch}.

Variable loss_fn : Pred -> Y -> Loss.

(** The state [s] with the mode flag [mode] and the generator [g]. *)
Definition with_mode_rng (s : State) (mode : bool) (g : Rng) : State :=
  {| params := params s; training := mode; opt_state := opt_state s;
     rng := g; files := files s; curves := curves s;
     laps_train := laps_train s; laps_val := laps_val s;
     stdout := stdout s |}.

Lemma iterate_state (l : Loader) (s : State) :
  state_of (iterate l s)
  = with_mode_rng s (training s) (snd (iter_loader l (rng s))).
Proof. unfold iterate. destruct (iter_loader l (rng s)). reflexivity. Qed.

Lemma evaluate_loss_pass_state (l : Loader) (s : State) :
  state_of (evaluate_loss loss_fn l s) = state_of (iterate l s).
Proof.
  unfold evaluate_loss. rewrite (bind_done _ _ _ _ _ (iterate_eq l s)).
  unfold bind.
  pose proof (evaluate_loss_loop_state loss_fn (fst (iter_loader l (rng s)))
                (new 2) (state_of (iterate l s))) as K.
  destruct (evaluate_loss_loop _ _ _ _) as [metric s1|e s1];
    cbn [state_of] in K; subst s1; [|reflexivity].
  unfold lift. destruct (mean metric 0 1); reflexivity.
Qed.

Lemma evaluate_accuracy_gpu_state (l : Loader) (s : State) :
  state_of (evaluate_accuracy_gpu l s)
  = with_mode_rng s false (snd (iter_loader l (rng s))).
Proof.
  unfold evaluate_accuracy_gpu. unfold bind at 1. cbn [set_training].
  set (s0 := {| params := params s; training := false |}).
  rewrite (bind_done _ _ _ _ _ (iterate_eq l s0)). unfold bind.
  pose proof (evaluate_accuracy_loop_state (fst (iter_loader l (rng s0)))
                (new 2) (state_of (iterate l s0))) as K.
  destruct (evaluate_accuracy_loop _ _ _) as [metric s1|e s1];
    cbn [state_of] in K; subst s1; [|apply iterate_state].
  unfold lift. destruct (mean metric 0 1); apply iterate_state.
Qed.

(** An evaluation that returns has begun two passes over the loader and
    left the network in evaluation mode; it has changed nothing else. *)
Lemma evaluate_done_state (l : Loader) (s s' : State) (r : float * float) :
  evaluate loss_fn l s = Done r s' ->
  s' = with_mode_rng s false
         (snd (iter_loader l (snd (iter_loader l (rng s))))).
Proof.
  intros H. unfold evaluate in H.
  apply bind_inv in H as (loss & s1 & H1 & H).
  apply bind_inv in H as (acc & s2 & H2 & H).
  injection H as _ <-.
  pose proof (evaluate_loss_pass_state l s) as K1. rewrite H1 in K1.
  pose proof (evaluate_accuracy_gpu_state l s1) as K2. rewrite H2 in K2.
  cbn [state_of] in K1, K2. rewrite K2, K1, iterate_state. reflexivity.
Qed.

End EvaluateState.

(** ** Runs of [train] that stop early *)

Section TrainEdges.
Import PyFloat Accumulators Training.
Context {T : Torch}.
Local Open Scope list_scope.

Variable data_loaders : DataLoaders.
Variable optimizer : Optimizer.
Variable loss_fn : Pred -> Y -> Loss.
Variable model_file_name : string.
Variable eval_every_n_epochs : Z.

Lemma range_nonpositive (epochs : Z) : epochs <= 0 -> range epochs = [].
Proof.
  intros H. unfold range. replace (Z.to_nat epochs) with 0%nat by lia.
  reflexivity.
Qed.

Lemma train_unfold (learning_rate : float) (epochs : Z) (s : State) :
  train data_loaders optimizer loss_fn model_file_name eval_every_n_epochs
    learning_rate epochs s
  = bind (run_epochs data_loaders optimizer loss_fn model_file_name
            eval_every_n_epochs (range epochs) None)
      (finish data_loaders loss_fn model_file_name)
      (train_start optimizer learning_rate s).
Proof. reflexivity. Qed.

(** X1: with [epochs <= 0] the epoch loop has no turn; [train] still
    evaluates the network on the test loader and then on the val loader,
    two passes over each, and only then stops at the read of [metrics],
    which no epoch has bound: it raises [UnboundLocalError] in the state
    the two evaluations leave, the network in evaluation mode, having
    written no checkpoint and printed nothing. *)
Theorem train_without_epochs (learning_rate : float) (epochs : Z) (s : State) :
  epochs <= 0 ->
  well_sized loss_fn (dl_test data_loaders) ->
  well_sized loss_fn (dl_val data_loaders) ->
  exists (test_result val_result : float * float) (s1 s' : State),
    train data_loaders optimizer loss_fn model_file_name eval_every_n_epochs
      learning_rate epochs s = Fail (UnboundLocalError "metrics") s' /\
    evaluate loss_fn (dl_test data_loaders) (train_start optimizer learning_rate s)
    = Done test_result s1 /\
    evaluate loss_fn (dl_val data_loaders) s1 = Done val_result s' /\
    (let test := dl_test data_loaders in
     let val := dl_val data_loaders in
     rng s' = snd (iter_loader val (snd (iter_loader val
                (snd (iter_loader test (snd (iter_loader test (rng s))))))))) /\
    training s' = false /\
    files s' = files s /\ stdout s' = stdout s /\ params s' = params s.
Proof.
  intros He Hwt Hwv. rewrite train_unfold.
  rewrite (range_nonpositive epochs He).
  cbn [run_epochs]. unfold ret at 1, bind at 1. unfold finish.
  set (s0 := train_start optimizer learning_rate s).
  destruct (evaluate_total loss_fn (dl_test data_loaders) s0 Hwt)
    as ([tl ta] & s1 & H1).
  rewrite (bind_done _ _ _ _ _ H1).
  destruct (evaluate_total loss_fn (dl_val data_loaders) s1 Hwv)
    as ([vl va] & s2 & H2).
  rewrite (bind_done _ _ _ _ _ H2).
  exists (tl, ta), (vl, va), s1, s2.
  split; [reflexivity|]. split; [exact H1|]. split; [exact H2|].
  pose proof (evaluate_done_state loss_fn _ _ _ _ H1) as E1.
  pose proof (evaluate_done_state loss_fn _ _ _ _ H2) as E2.
  rewrite E2, E1. cbv zeta. repeat split.
Qed.

(** X2: with [eval_every_n_epochs = 0] and at least one epoch, [train] runs
    the whole train phase of epoch 0, one timed batch after the other, and
    then raises [ZeroDivisionError] at [epoch % eval_every_n_epochs], before
    any checkpoint is written or anything is printed. *)
Theorem train_with_zero_cadence (learning_rate : float) (epochs : Z)
    (s : State) :
  1 <= epochs -> eval_every_n_epochs = 0 ->
  well_sized loss_fn (dl_train data_loaders) ->
  exists s' : State,
    train data_loaders optimizer loss_fn model_file_name eval_every_n_epochs
      learning_rate epochs s = Fail ZeroDivisionError s' /\
    files s' = files s /\ stdout s' = stdout s /\
    laps_train s'
    = List.length (phase_batches data_loaders train_phase
                     (train_start optimizer learning_rate s)) /\
    laps_val s' = 0%nat.
Proof.
  intros He Hn Hw. rewrite train_unfold.
  set (s0 := train_start optimizer learning_rate s).
  set (fresh := {| m_train := new 3; m_val := new 3 |}).
  destruct (run_phase_train_total data_loaders optimizer loss_fn
              eval_every_n_epochs 0 fresh s0 Hw acc3_new)
    as (m1 & s1 & H1 & _).
  assert (Hph : run_phases data_loaders optimizer loss_fn eval_every_n_epochs
                  0 phases fresh s0 = Fail ZeroDivisionError s1).
  { cbn [run_phases phases]. rewrite (bind_done _ _ _ _ _ H1).
    apply bind_fail. apply run_phase_zero_cadence. exact Hn. }
  exists s1. split.
  - destruct (range_head epochs (range_nonempty epochs He)) as (rest & ->).
    apply bind_fail. cbn [run_epochs]. apply bind_fail.
    unfold run_epoch. apply bind_fail. exact Hph.
  - pose proof (run_phases_keeps data_loaders optimizer loss_fn
                  eval_every_n_epochs files 0 phases fresh
                  ltac:(reflexivity) s0) as Kf.
    pose proof (run_phases_keeps data_loaders optimizer loss_fn
                  eval_every_n_epochs stdout 0 phases fresh
                  ltac:(reflexivity) s0) as Ko.
    rewrite Hph in Kf, Ko. unfold keeps in Kf, Ko. cbn [state_of] in Kf, Ko.
    rewrite (run_phase_active _ _ _ _ _ _ _ _ (or_introl eq_refl)) in H1.
    apply train_batches_spec in H1.
    destruct (batch_steps_laps _ _ _ _ _ _ _ _ _ H1) as (L1 & L2 & _).
    cbn [laps_of is_train other] in L1, L2.
    rewrite (keeps_phase_start data_loaders laps_train train_phase _
               ltac:(reflexivity)) in L1.
    rewrite (keeps_phase_start data_loaders laps_val train_phase _
               ltac:(reflexivity)) in L2.
    repeat split; assumption.
Qed.

(** X3: on an empty test partition [train] runs every epoch and writes
    every periodic checkpoint, and only then, at the evaluation on the test
    loader, raises [ZeroDivisionError]: the final checkpoint is not written
    and the summary is not printed. *)
Theorem train_with_empty_test_partition (learning_rate : float) (epochs : Z)
    (s : State) :
  1 <= epochs -> eval_every_n_epochs <> 0 ->
  well_sized loss_fn (dl_train data_loaders) ->
  well_sized loss_fn (dl_val data_loaders) ->
  (forall g, fst (iter_loader (dl_test data_loaders) g) = []) ->
  exists s' : State,
    train data_loaders optimizer loss_fn model_file_name eval_every_n_epochs
      learning_rate epochs s = Fail ZeroDivisionError s' /\
    map fst (files s')
    = map fst (files s)
      ++ map (checkpoint_path model_file_name)
           (filter (due eval_every_n_epochs) (range epochs)) /\
    stdout s' = stdout s.
Proof.
  intros He Hn Hwt Hwv Hempty. rewrite train_unfold.
  set (s0 := train_start optimizer learning_rate s).
  destruct (run_epochs_total data_loaders optimizer loss_fn model_file_name
              eval_every_n_epochs (range epochs) None s0 Hn Hwt Hwv)
    as (om & s1 & H1 & _).
  rewrite (bind_done _ _ _ _ _ H1).
  apply run_epochs_inv in H1 as (Hf & Ho & _).
  exists (state_of (iterate (dl_test data_loaders) s1)). split.
  - unfold finish, evaluate. apply bind_fail. apply bind_fail.
    apply evaluate_loss_empty. apply Hempty.
  - rewrite (keeps_iterate files ltac:(reflexivity)).
    rewrite (keeps_iterate stdout ltac:(reflexivity)).
    split; [exact Hf|exact Ho].
Qed.

Lemma report_epoch_curves (epoch : Z) (metrics : Metrics) (s s' : State) :
  report_epoch model_file_name eval_every_n_epochs epoch metrics s
  = Done tt s' ->
  exists ys : list float,
    curves s' = curves s ++ [(epoch + 1, ys)] /\
    List.length ys = (if due eval_every_n_epochs epoch then 4 else 2)%nat.
Proof.
  unfold report_epoch, pymod, due.
  destruct (Z.eqb_spec eval_every_n_epochs 0) as [|Hn]; [discriminate|].
  unfold lift at 1, bind at 1.
  destruct (epoch mod eval_every_n_epochs =? 0).
  - unfold bind at 1. cbn [save]. intros H.
    apply bind_inv in H as (a & s1 & H1 & H). apply lift_inv in H1 as [_ ->].
    apply bind_inv in H as (b & s2 & H2 & H). apply lift_inv in H2 as [_ ->].
    apply bind_inv in H as (c & s3 & H3 & H). apply lift_inv in H3 as [_ ->].
    apply bind_inv in H as (d & s4 & H4 & H). apply lift_inv in H4 as [_ ->].
    unfold animator_add in H. injection H as <-.
    exists [a; b; c; d]. split; reflexivity.
  - intros H.
    apply bind_inv in H as (a & s1 & H1 & H). apply lift_inv in H1 as [_ ->].
    apply bind_inv in H as (b & s2 & H2 & H). apply lift_inv in H2 as [_ ->].
    unfold animator_add in H. injection H as <-.
    exists [a; b]. split; reflexivity.
Qed.

(** The abscissa of a point of the animator and the number of its values. *)
Definition point_shape (p : Z * list float) : Z * nat :=
  (fst p, List.length (snd p)).

Lemma run_epochs_curves (epochs : list Z) (metrics metrics' : option Metrics)
    (s s' : State) :
  run_epochs data_loaders optimizer loss_fn model_file_name
    eval_every_n_epochs epochs metrics s = Done metrics' s' ->
  map point_shape (curves s')
  = map point_shape (curves s)
    ++ map (fun e => (e + 1, (if due eval_every_n_epochs e then 4 else 2)%nat))
         epochs.
Proof.
  revert metrics s. induction epochs as [|epoch rest IH]; intros metrics s H.
  - cbn [run_epochs] in H. unfold ret in H. injection H as _ <-.
    cbn [map]. rewrite app_nil_r. reflexivity.
  - cbn [run_epochs] in H. apply bind_inv in H as (m & s1 & H1 & H).
    apply IH in H. rewrite H. clear H IH.
    unfold run_epoch in H1.
    apply bind_inv in H1 as (m1 & s2 & Hph & H1).
    apply bind_inv in H1 as ([] & s3 & Hrep & H1).
    unfold ret in H1. injection H1 as _ ->.
    apply report_epoch_curves in Hrep as (ys & Hc & Hl).
    pose proof (run_phases_keeps data_loaders optimizer loss_fn
                  eval_every_n_epochs curves epoch phases
                  {| m_train := new 3; m_val := new 3 |}
                  ltac:(reflexivity) s) as K.
    rewrite Hph in K. unfold keeps in K. cbn [state_of] in K.
    rewrite Hc, K, map_app. cbn [map]. rewrite <- app_assoc.
    unfold point_shape at 2. cbn [fst snd app]. rewrite Hl. reflexivity.
Qed.

(** The point the animator is given at the end of an epoch whose
    accumulators are [metrics]: the abscissa is [epoch + 1], the values are
    the weighted-mean reads of the train accumulator, followed by those of
    the val accumulator when the epoch is one with
    [epoch % eval_every_n_epochs == 0]. *)
Definition epoch_point (epoch : Z) (metrics : Metrics) (p : Z * list float)
  : Prop :=
  fst p = epoch + 1 /\
  exists train_loss train_acc : float,
    mean (m_train metrics) 0 2 = Ok train_loss /\
    mean (m_train metrics) 1 2 = Ok train_acc /\
    if due eval_every_n_epochs epoch
    then exists val_loss val_acc : float,
           mean (m_val metrics) 0 2 = Ok val_loss /\
           mean (m_val metrics) 1 2 = Ok val_acc /\
           snd p = [train_loss; train_acc; val_loss; val_acc]
    else snd p = [train_loss; train_acc].

(** The epochs of a run, one after the other, each with its point. *)
Inductive epochs_points
  : list Z -> State -> list (Z * list float) -> State -> Prop :=
| points_nil (s : State) : epochs_points [] s [] s
| points_cons (epoch : Z) (rest : list Z) (s s1 s2 : State)
    (metrics : Metrics) (p : Z * list float) (ps : list (Z * list float)) :
    run_epoch data_loaders optimizer loss_fn model_file_name
      eval_every_n_epochs epoch s = Done metrics s1 ->
    epoch_point epoch metrics p ->
    epochs_points rest s1 ps s2 ->
    epochs_points (epoch :: rest) s (p :: ps) s2.

Lemma report_epoch_point (epoch : Z) (metrics : Metrics) (s s' : State) :
  report_epoch model_file_name eval_every_n_epochs epoch metrics s
  = Done tt s' ->
  exists p : Z * list float,
    curves s' = curves s ++ [p] /\ epoch_point epoch metrics p.
Proof.
  unfold report_epoch, pymod, epoch_point, due.
  destruct (Z.eqb_spec eval_every_n_epochs 0) as [|Hn]; [discriminate|].
  unfold lift at 1, bind at 1.
  destruct (epoch mod eval_every_n_epochs =? 0).
  - unfold bind at 1. cbn [save]. intros H.
    apply bind_inv in H as (a & s1 & H1 & H). apply lift_inv in H1 as [H1 ->].
    apply bind_inv in H as (b & s2 & H2 & H). apply lift_inv in H2 as [H2 ->].
    apply bind_inv in H as (c & s3 & H3 & H). apply lift_inv in H3 as [H3 ->].
    apply bind_inv in H as (d & s4 & H4 & H). apply lift_inv in H4 as [H4 ->].
    unfold animator_add in H. injection H as <-.
    exists (epoch + 1, [a; b; c; d]). split; [reflexivity|].
    split; [reflexivity|]. exists a, b. split; [exact H1|].
    split; [exact H2|]. exists c, d. repeat split; assumption.
  - intros H.
    apply bind_inv in H as (a & s1 & H1 & H). apply lift_inv in H1 as [H1 ->].
    apply bind_inv in H as (b & s2 & H2 & H). apply lift_inv in H2 as [H2 ->].
    unfold animator_add in H. injection H as <-.
    exists (epoch + 1, [a; b]). split; [reflexivity|].
    split; [reflexivity|]. exists a, b. repeat split; assumption.
Qed.

Lemma run_epochs_points (epochs : list Z) (metrics metrics' : option Metrics)
    (s s' : State) :
  run_epochs data_loaders optimizer loss_fn model_file_name
    eval_every_n_epochs epochs metrics s = Done metrics' s' ->
  exists ps : list (Z * list float),
    epochs_points epochs s ps s' /\ curves s' = curves s ++ ps.
Proof.
  revert metrics s. induction epochs as [|epoch rest IH]; intros metrics s H.
  - cbn [run_epochs] in H. unfold ret in H. injection H as _ <-.
    exists []. split; [constructor|]. rewrite app_nil_r. reflexivity.
  - cbn [run_epochs] in H. apply bind_inv in H as (m & s1 & H1 & H).
    apply IH in H as (ps & Hps & Hc).
    pose proof H1 as Hrun. unfold run_epoch in H1.
    apply bind_inv in H1 as (m1 & s2 & Hph & H1).
    apply bind_inv in H1 as ([] & s3 & Hrep & H1).
    unfold ret in H1. injection H1 as -> ->.
    apply report_epoch_point in Hrep as (p & Hp & Hpoint).
    pose proof (run_phases_keeps data_loaders optimizer loss_fn
                  eval_every_n_epochs curves epoch phases
                  {| m_train := new 3; m_val := new 3 |}
                  ltac:(reflexivity) s) as K.
    rewrite Hph in K. unfold keeps in K. cbn [state_of] in K.
    exists (p :: ps). split.
    + econstructor; eassumption.
    + rewrite Hc, Hp, K, <- app_assoc. reflexivity.
Qed.

(** X4: a run of [train] that completes has given the animator one point
    per epoch, in order, at abscissa [epoch + 1]; its values are the
    weighted-mean reads of the accumulators that epoch has filled: train
    loss, train accuracy, val loss and val accuracy in the epochs with
    [epoch % eval_every_n_epochs == 0], train loss and train accuracy in
    the others. *)
Theorem one_curve_point_per_epoch (learning_rate : float) (epochs : Z)
    (s s' : State) :
  train data_loaders optimizer loss_fn model_file_name eval_every_n_epochs
    learning_rate epochs s = Done tt s' ->
  (exists s1 : State,
     epochs_points (range epochs) (train_start optimizer learning_rate s)
       (curves s') s1) /\
  map point_shape (curves s')
  = map (fun e => (e + 1, (if due eval_every_n_epochs e then 4 else 2)%nat))
      (range epochs).
Proof.
  intros H. apply train_inv in H as (om & s1 & Hloop & Hfin).
  pose proof (preserves_finish (keeps curves) (keeps_refl _) (keeps_trans _)
                loss_fn ltac:(intros mode s0; reflexivity)
                (keeps_iterate curves ltac:(reflexivity))
                data_loaders model_file_name
                ltac:(intros path s0; reflexivity)
                ltac:(intros line s0; reflexivity) om s1) as K.
  rewrite Hfin in K. unfold keeps in K. cbn [state_of] in K.
  rewrite K. split.
  - destruct (run_epochs_points _ _ _ _ _ Hloop) as (ps & Hps & Hc).
    exists s1. rewrite Hc. exact Hps.
  - apply run_epochs_curves in Hloop. cbn [map app] in Hloop. exact Hloop.
Qed.

Lemma run_epoch_checkpoint (epoch : Z) (s : State) (metrics : Metrics)
    (s' : State) :
  run_epoch data_loaders optimizer loss_fn model_file_name eval_every_n_epochs
    epoch s = Done metrics s' ->
  due eval_every_n_epochs epoch = true ->
  files s' = files s ++ [(checkpoint_path model_file_name epoch, params s')].
Proof.
  intros H Hdue. unfold run_epoch in H.
  apply bind_inv in H as (m & s1 & Hph & H).
  apply bind_inv in H as ([] & s2 & Hrep & H).
  unfold ret in H. injection H as _ ->.
  apply report_epoch_inv in Hrep as (_ & Hf & Hp & _).
  rewrite Hdue in Hf.
  pose proof (run_phases_keeps data_loaders optimizer loss_fn
                eval_every_n_epochs files epoch phases
                {| m_train := new 3; m_val := new 3 |}
                ltac:(reflexivity) s) as K.
  rewrite Hph in K. unfold keeps in K. cbn [state_of] in K.
  rewrite Hf, K, Hp. reflexivity.
Qed.

Lemma run_epochs_last_checkpoint (epochs : list Z)
    (metrics metrics' : option Metrics) (s s' : State) :
  run_epochs data_loaders optimizer loss_fn model_file_name
    eval_every_n_epochs epochs metrics s = Done metrics' s' ->
  epochs <> [] ->
  due eval_every_n_epochs (last epochs 0) = true ->
  exists earlier,
    files s'
    = earlier ++ [(checkpoint_path model_file_name (last epochs 0), params s')].
Proof.
  revert metrics s. induction epochs as [|epoch rest IH]; intros metrics s H Hne Hdue.
  - contradiction.
  - cbn [run_epochs] in H. apply bind_inv in H as (m & s1 & H1 & H).
    destruct rest as [|e2 rest'].
    + cbn [run_epochs] in H. unfold ret in H. injection H as _ <-.
      cbn [last] in *. exists (files s).
      apply (run_epoch_checkpoint _ _ _ _ H1 Hdue).
    + apply (IH _ _ H); [discriminate|exact Hdue].
Qed.

Lemma range_last (epochs : Z) : 1 <= epochs -> last (range epochs) 0 = epochs - 1.
Proof.
  intros H. unfold range.
  destruct (Z.to_nat epochs) as [|k] eqn:Hk; [lia|].
  rewrite seq_S, map_app. cbn [map]. rewrite last_last. lia.
Qed.

(** X5: when the last epoch of a run that completes is one with
    [epoch % eval_every_n_epochs == 0], the last two files written are the
    checkpoint of that epoch and the final checkpoint, and both hold the
    parameters the run ends with: nothing trains between the two. *)
Theorem final_checkpoint_repeats_last_epoch (learning_rate : float)
    (epochs : Z) (s s' : State) :
  train data_loaders optimizer loss_fn model_file_name eval_every_n_epochs
    learning_rate epochs s = Done tt s' ->
  (epochs - 1) mod eval_every_n_epochs = 0 ->
  exists earlier,
    files s'
    = earlier
      ++ [(checkpoint_path model_file_name (epochs - 1), params s');
          (final_path model_file_name, params s')].
Proof.
  intros H Hdue. apply train_inv in H as (om & s1 & Hloop & Hfin).
  apply finish_inv in Hfin
    as (m & s2 & s3 & tl & ta & vl & va & tel & tea
        & -> & _ & _ & _ & _ & Hf & Hp & _).
  assert (Hne : range epochs <> []).
  { intros Hr. rewrite Hr in Hloop. cbn [run_epochs] in Hloop.
    unfold ret in Hloop. discriminate Hloop. }
  assert (He : 1 <= epochs).
  { destruct (Z_le_gt_dec 1 epochs) as [Hle|Hgt]; [exact Hle|].
    exfalso. apply Hne. apply range_nonpositive. lia. }
  destruct (run_epochs_last_checkpoint _ _ _ _ _ Hloop Hne) as (earlier & Hl).
  { rewrite (range_last epochs He). unfold due. rewrite Hdue. reflexivity. }
  rewrite (range_last epochs He) in Hl.
  exists earlier. rewrite Hf, Hl, Hp, <- app_assoc. reflexivity.
Qed.

End TrainEdges.

(** ** What the evaluations compute and leave behind *)

Section EvaluateValue.
Import PyFloat Accumulators Training.
Context {T : Torch}.

Variable loss_fn : Pred -> Y -> Loss.

(** The loss of a batch for the network as it is in state [s]. *)
Definition batch_loss (s : State) (xy : X * Y) : Loss :=
  loss_fn (net_call (params s) (training s) (fst xy)) (snd xy).

(** X6: [evaluate_loss] leaves the network as it finds it, train/eval mode
    included, whether it returns or raises: all it does to the state is
    begin one pass over the data loader. *)
Theorem evaluate_loss_only_takes_a_pass (l : Loader) (s : State) :
  state_of (evaluate_loss loss_fn l s) = state_of (iterate l s) /\
  params (state_of (evaluate_loss loss_fn l s)) = params s /\
  training (state_of (evaluate_loss loss_fn l s)) = training s.
Proof.
  pose proof (evaluate_loss_pass_state loss_fn l s) as H.
  split; [exact H|]. rewrite H. split.
  - apply (keeps_iterate params ltac:(reflexivity)).
  - apply iterate_mode.
Qed.

Lemma evaluate_loss_loop_value (batches : list (X * Y)) (t c : float)
    (s : State) :
  evaluate_loss_loop loss_fn batches [t; c] s
  = match floats_of_sizes
            (map (fun xy => d2l_size_loss (batch_loss s xy)) batches) with
    | Ok fs =>
        Done [running_total t
                (map (fun xy => d2l_reduce_sum (batch_loss s xy)) batches);
              running_total c fs] s
    | Raise e => Fail e s
    end.
Proof.
  revert t c. induction batches as [|[x y] rest IH]; intros t c.
  - reflexivity.
  - cbn [evaluate_loss_loop map floats_of_sizes]. unfold bind at 1, forward.
    unfold bind at 1. rewrite add_row2.
    unfold batch_loss at 1. cbn [fst snd].
    destruct (of_int (d2l_size_loss
                        (loss_fn (net_call (params s) (training s) x) y)))
      as [f|e]; cbn [rbind lift]; [|reflexivity].
    rewrite IH.
    destruct (floats_of_sizes _) as [fs|e]; reflexivity.
Qed.

(** X7: [evaluate_loss] returns the quotient, in double precision, of two
    running sums taken over the batches of one pass in the order the loader
    yields them: the sums [d2l.reduce_sum(loss)] and the sizes
    [d2l.size(loss)], each loss computed by the network as it is when
    [evaluate_loss] is called; a size too large for a float raises
    [OverflowError], and a zero count [ZeroDivisionError]. *)
Theorem evaluate_loss_value (l : Loader) (s : State) :
  let batches := fst (iter_loader l (rng s)) in
  evaluate_loss loss_fn l s
  = match floats_of_sizes
            (map (fun xy => d2l_size_loss (batch_loss s xy)) batches) with
    | Ok fs =>
        lift (fdiv (running_total fzero
                      (map (fun xy => d2l_reduce_sum (batch_loss s xy)) batches))
                (running_total fzero fs))
          (state_of (iterate l s))
    | Raise e => Fail e (state_of (iterate l s))
    end.
Proof.
  cbv zeta. unfold evaluate_loss.
  rewrite (bind_done _ _ _ _ _ (iterate_eq l s)).
  unfold bind. change (new 2) with [fzero; fzero].
  rewrite evaluate_loss_loop_value.
  assert (Hb : forall xy, batch_loss (state_of (iterate l s)) xy = batch_loss s xy).
  { intros xy. unfold batch_loss.
    rewrite (keeps_iterate params ltac:(reflexivity) l s), iterate_mode.
    reflexivity. }
  rewrite (map_ext _ _ (fun xy => f_equal d2l_size_loss (Hb xy))).
  rewrite (map_ext _ _ (fun xy => f_equal d2l_reduce_sum (Hb xy))).
  destruct (floats_of_sizes _) as [fs|e]; reflexivity.
Qed.

(** X8: an [evaluate] that returns has made two passes over the data
    loader, the first for the loss in the mode the network was in, the second
    for the accuracy after the library has put it in evaluation mode, and it
    leaves the network in that mode. *)
Theorem evaluate_takes_two_passes (l : Loader) (s s' : State)
    (r : float * float) :
  evaluate loss_fn l s = Done r s' ->
  s' = state_of (iterate l (state_of (set_training false
                                        (state_of (iterate l s))))) /\
  training s' = false /\
  exists s1 : State,
    evaluate_loss loss_fn l s = Done (fst r) s1 /\
    evaluate_accuracy_gpu l s1 = Done (snd r) s'.
Proof.
  intros H. pose proof (evaluate_done_mode loss_fn l s s' r H) as Hmode.
  unfold evaluate in H.
  apply bind_inv in H as (loss & s1 & H1 & H).
  apply bind_inv in H as (acc & s2 & H2 & H).
  unfold ret in H. injection H as <- <-. cbn [fst snd].
  split; [|split; [exact Hmode|exists s1; split; assumption]].
  pose proof (evaluate_loss_pass_state loss_fn l s) as E1.
  rewrite H1 in E1. cbn [state_of] in E1. subst s1.
  unfold evaluate_accuracy_gpu in H2.
  unfold bind at 1 in H2.
  change (set_training false (state_of (iterate l s)))
    with (Done tt (state_of (set_training false (state_of (iterate l s)))))
    in H2.
  cbv iota beta in H2.
  rewrite (bind_done _ _ _ _ _ (iterate_eq _ _)) in H2.
  apply bind_inv in H2 as (metric & s3 & H3 & H2).
  apply lift_inv in H2 as [_ ->].
  match type of H3 with
  | evaluate_accuracy_loop ?bs ?m ?st = _ =>
      pose proof (evaluate_accuracy_loop_state bs m st) as K
  end.
  rewrite H3 in K. exact K.
Qed.

End EvaluateValue.

(** ** The mode the batches of a phase run in *)

Section BatchModes.
Import PyFloat Accumulators Training.
Context {T : Torch}.

Variable data_loaders : DataLoaders.
Variable optimizer : Optimizer.
Variable loss_fn : Pred -> Y -> Loss.

Lemma train_batch_done_mode (phase : Phase) (m m' : Metrics) (xy : X * Y)
    (s s' : State) :
  train_batch data_loaders optimizer loss_fn phase m xy s = Done m' s' ->
  training s' = false.
Proof.
  intros H. apply train_batch_spec in H.
  destruct H as (s1 & s2 & loss & accuracy & wl & wa & acc
                 & _ & He & _ & _ & _ & _ & Hstop).
  apply evaluate_done_mode in He. unfold timer_stop in Hstop.
  injection Hstop as <-. exact He.
Qed.

(** X9: [net.train(phase == 'train')] is called once per phase, and the
    evaluation at the end of every batch leaves the network in evaluation
    mode: in a phase that completes, every batch but the first starts in
    evaluation mode, so that in the train phase the optimizer step of
    such a batch follows the gradients of the loss of the network in
    evaluation mode. *)
Theorem later_batches_start_in_eval_mode (phase : Phase) (xy : X * Y)
    (x2 : X) (y2 : Y) (rest : list (X * Y)) (m m' : Metrics) (s s' : State) :
  train_batches data_loaders optimizer loss_fn phase (xy :: (x2, y2) :: rest)
    m s = Done m' s' ->
  exists (m1 m2 : Metrics) (s1 s2 : State),
    train_batch data_loaders optimizer loss_fn phase m xy s = Done m1 s1 /\
    training s1 = false /\
    train_batch data_loaders optimizer loss_fn phase m1 (x2, y2) s1
    = Done m2 s2 /\
    params s2
    = (if is_train phase
       then snd (opt_step optimizer (opt_state s1) (params s1)
                   (backward (loss_fn (net_call (params s1) false x2) y2)))
       else params s1) /\
    train_batches data_loaders optimizer loss_fn phase rest m2 s2
    = Done m' s'.
Proof.
  intros H. cbn [train_batches] in H.
  apply bind_inv in H as (m1 & s1 & H1 & H).
  apply bind_inv in H as (m2 & s2 & H2 & H).
  pose proof (train_batch_done_mode _ _ _ _ _ _ H1) as Hmode.
  exists m1, m2, s1, s2. repeat split; try assumption.
  pose proof (train_batch_params data_loaders optimizer loss_fn phase m1 x2 y2
                s1) as Hp.
  rewrite H2 in Hp. cbn [state_of] in Hp. unfold stepped in Hp.
  rewrite Hmode in Hp. exact Hp.
Qed.

End BatchModes.

(** ** The data loaders [get_dataset] returns *)

Section GetDatasetLoaders.
Import PyFloat Datasets.
Local Open Scope result_scope.

Variables MNIST FashionMNIST : Source.

Lemma random_split_three (d : Dataset) (tr va : Z) :
  0 <= tr <= len d -> 0 <= va ->
  random_split d [tr; va; len d - tr - va]
  = Ok [tr; Z.min va (len d - tr);
        slice_len (len d) (tr + va) (tr + va + (len d - tr - va))].
Proof.
  intros Ht Hv. unfold random_split. cbn [sum_list fold_right].
  replace (tr + (va + (len d - tr - va + 0)) =? len d) with true
    by (symmetry; apply Z.eqb_eq; lia).
  cbn [split_sizes]. f_equal. f_equal; [|f_equal].
  - unfold slice_len, clamp_index.
    replace (0 + tr - tr) with 0 by lia.
    destruct (Z.ltb_spec (0 + tr) 0); destruct (Z.ltb_spec 0 0); lia.
  - unfold slice_len, clamp_index.
    replace (0 + tr + va - va) with (0 + tr) by lia.
    destruct (Z.ltb_spec (0 + tr + va) 0); destruct (Z.ltb_spec (0 + tr) 0);
      lia.
  - f_equal. f_equal; lia.
Qed.

Lemma random_split_two (d : Dataset) (te : Z) :
  0 <= te <= len d ->
  random_split d [te; len d - te]
  = Ok [te; slice_len (len d) te (te + (len d - te))].
Proof.
  intros Ht. unfold random_split. cbn [sum_list fold_right].
  replace (te + (len d - te + 0) =? len d) with true
    by (symmetry; apply Z.eqb_eq; lia).
  cbn [split_sizes]. f_equal. f_equal; [|f_equal].
  - unfold slice_len, clamp_index.
    replace (0 + te - te) with 0 by lia.
    destruct (Z.ltb_spec (0 + te) 0); destruct (Z.ltb_spec 0 0); lia.
  - f_equal; lia.
Qed.

(** X10: for a recognised name, sources of fewer than [2^53] examples and
    [used_data] in (0, 1], the conversions and [random_split] raise
    nothing, and what [get_dataset] does is decided where it builds the
    train loader: a [ValueError] of the [RandomSampler] when
    [train_count] is zero, else a [ValueError] of the [BatchSampler] when
    [batch_size] is below one, else three loaders of the given batch size:
    a shuffled one over [train_count] examples, an unshuffled one over the
    [validation_count] examples that follow them (as many of them as the
    source has left), and an unshuffled one over [test_count] examples of
    the test source. *)
Theorem get_dataset_loaders (name : string) (batch_size : Z)
    (used_data : float) (src : Source) :
  load_source MNIST FashionMNIST name = Ok src ->
  0 <= len (source_train src) < 2 ^ 53 ->
  0 <= len (source_test src) < 2 ^ 53 ->
  in_unit_interval used_data = true ->
  exists (fn ft : float) (train_count validation_count test_count : Z),
    of_int (len (source_train src)) = Ok fn /\
    of_int (len (source_test src)) = Ok ft /\
    floor (fmul (fmul lit_0_9 fn) used_data) = Ok train_count /\
    ceil (fmul (fmul lit_0_1 fn) used_data) = Ok validation_count /\
    ceil (fmul ft used_data) = Ok test_count /\
    get_dataset MNIST FashionMNIST name batch_size used_data
    = (if train_count <=? 0
       then Raise (ValueError
              ("num_samples should be a positive integer value, but got num_samples="
               ++ PyFormat.str train_count))
       else if batch_size <=? 0
       then Raise (ValueError
              ("batch_size should be a positive integer value, but got batch_size="
               ++ PyFormat.str batch_size))
       else Ok {| ld_train := {| dl_len := train_count;
                                 dl_batch_size := batch_size;
                                 dl_shuffle := true |};
                  ld_val := {| dl_len := Z.min validation_count
                                           (len (source_train src) - train_count);
                               dl_batch_size := batch_size;
                               dl_shuffle := false |};
                  ld_test := {| dl_len := test_count;
                                dl_batch_size := batch_size;
                                dl_shuffle := false |} |}) /\
    0 <= train_count <= len (source_train src) /\
    0 <= validation_count /\
    0 <= test_count <= len (source_test src).
Proof.
  intros Hsrc Hn Ht Hu.
  destruct (scaled_product_counts lit_0_9 _ used_data Hn in_unit_interval_0_9 Hu)
    as (fn & tr & _ & Hfn & Htr & _ & Htrb & _).
  destruct (scaled_product_counts lit_0_1 _ used_data Hn in_unit_interval_0_1 Hu)
    as (fn' & _ & va & Hfn' & _ & Hva & _ & Hvab).
  rewrite Hfn in Hfn'. injection Hfn' as <-.
  destruct (of_int_exact _ Ht) as (ft & Hft & Hs & Hle & _).
  destruct (fmul_unit_le ft used_data (len (source_test src)) (proj2 Ht) Hs Hle
              Hu) as [[Hs1 Hle1] _].
  destruct (ceil_of_le_int _ _ Hs1 Hle1) as (te & Hte & Hteb).
  exists fn, ft, tr, va, te.
  repeat (split; [assumption|]).
  split; [|repeat split; lia].
  unfold get_dataset. rewrite Hsrc. cbn [rbind].
  unfold train_val_counts, test_counts.
  rewrite Hfn, Hft. cbn [rbind]. rewrite Htr, Hva. cbn [rbind].
  rewrite (random_split_three (source_train src) tr va) by lia.
  cbn [rbind]. rewrite Hte. cbn [rbind].
  rewrite (random_split_two (source_test src) te) by lia.
  cbn [rbind nth_size nth]. unfold new_DataLoader. cbn [andb].
  destruct (tr <=? 0); [reflexivity|].
  destruct (batch_size <=? 0); reflexivity.
Qed.

Lemma fmul_zero_r (a : float) (n : Z) :
  sign_clear a = true -> le_int a n -> fmul a fzero = fzero.
Proof.
  intros Hs (c & Hc & _).
  destruct a as [sa|sa| |sa ma ea]; try discriminate; destruct sa;
    try discriminate; reflexivity.
Qed.

(** X11: with [used_data = 0.0] and a recognised name, the three counts
    are zero and [get_dataset] returns no loaders: building the shuffled
    train loader over no example raises the [RandomSampler]'s
    [ValueError], whatever the batch size. *)
Theorem get_dataset_uses_nothing (name : string) (batch_size : Z)
    (src : Source) :
  load_source MNIST FashionMNIST name = Ok src ->
  0 <= len (source_train src) < 2 ^ 53 ->
  0 <= len (source_test src) < 2 ^ 53 ->
  train_val_counts (len (source_train src)) fzero
  = Ok (0, 0, len (source_train src)) /\
  test_counts (len (source_test src)) fzero
  = Ok (0, len (source_test src)) /\
  get_dataset MNIST FashionMNIST name batch_size fzero
  = Raise (ValueError
      "num_samples should be a positive integer value, but got num_samples=0").
Proof.
  intros Hsrc Hn Ht.
  destruct (of_int_exact _ Hn) as (fn & Hfn & Hsn & Hlen & _).
  destruct (of_int_exact _ Ht) as (ft & Hft & Hst & Hlet & _).
  destruct (fmul_unit_le fn lit_0_9 _ (proj2 Hn) Hsn Hlen in_unit_interval_0_9)
    as [_ [Hs9 Hle9]].
  destruct (fmul_unit_le fn lit_0_1 _ (proj2 Hn) Hsn Hlen in_unit_interval_0_1)
    as [_ [Hs1 Hle1]].
  assert (Hc : train_val_counts (len (source_train src)) fzero
               = Ok (0, 0, len (source_train src))).
  { unfold train_val_counts. rewrite Hfn. cbn [rbind].
    rewrite (fmul_zero_r _ _ Hs9 Hle9), (fmul_zero_r _ _ Hs1 Hle1).
    cbn [floor ceil fzero rbind]. do 2 f_equal. lia. }
  assert (Hc' : test_counts (len (source_test src)) fzero
                = Ok (0, len (source_test src))).
  { unfold test_counts. rewrite Hft. cbn [rbind].
    rewrite (fmul_zero_r _ _ Hst Hlet).
    cbn [floor ceil fzero rbind]. do 2 f_equal. lia. }
  split; [exact Hc|]. split; [exact Hc'|].
  unfold get_dataset. rewrite Hsrc. cbn [rbind]. rewrite Hc. cbn [rbind].
  pose proof (random_split_three (source_train src) 0 0) as R3.
  replace (len (source_train src) - 0 - 0) with (len (source_train src)) in R3
    by lia.
  rewrite R3 by lia. cbn [rbind]. rewrite Hc'. cbn [rbind].
  pose proof (random_split_two (source_test src) 0) as R2.
  replace (len (source_test src) - 0) with (len (source_test src)) in R2
    by lia.
  rewrite R2 by lia. reflexivity.
Qed.

End GetDatasetLoaders.

(** ** The networks [create_network] returns *)

Section LenetShape.
Import Networks.
Local Open Scope result_scope.

(** Every [Linear] layer takes as many features as the linear layer before
    it gives; [width] is what the layers so far give, if known. *)
Fixpoint widths_chain (width : option Z) (net : Network) : bool :=
  match net with
  | [] => true
  | LazyLinear o :: rest => widths_chain (Some o) rest
  | Linear i o :: rest =>
      (match width with Some w => w =? i | None => true end)
      && widths_chain (Some o) rest
  | Sigmoid :: rest => widths_chain width rest
  end.

(** The number of features the last linear layer gives. *)
Fixpoint out_width (width : option Z) (net : Network) : option Z :=
  match net with
  | [] => width
  | LazyLinear o :: rest => out_width (Some o) rest
  | Linear _ o :: rest => out_width (Some o) rest
  | Sigmoid :: rest => out_width width rest
  end.

Lemma last_nonempty (z : Z) (l : list Z) (d d' : Z) :
  last (z :: l) d = last (z :: l) d'.
Proof.
  revert z. induction l as [|a l IH]; intros z; [reflexivity|].
  change (last (z :: a :: l) d) with (last (a :: l) d).
  change (last (z :: a :: l) d') with (last (a :: l) d'). apply IH.
Qed.

Lemma bind_num_classes_ok (kwargs : Kwargs) (default k : Z) :
  bind_num_classes kwargs default = Ok k ->
  Forall (fun kv => fst kv = "num_classes") kwargs /\
  k = last (map snd kwargs) default.
Proof.
  revert default. induction kwargs as [|[key v] rest IH]; intros default H.
  - cbn in H. injection H as <-. split; [constructor|reflexivity].
  - cbn [bind_num_classes] in H.
    destruct (String.eqb_spec key "num_classes") as [->|Hk]; [|discriminate].
    destruct (IH v H) as [HF Hl]. split; [constructor; [reflexivity|exact HF]|].
    rewrite Hl. cbn [map snd].
    destruct (map snd rest) as [|z l]; [reflexivity|].
    change (last (v :: z :: l) default) with (last (z :: l) default).
    apply last_nonempty.
Qed.

Lemma bind_num_classes_unexpected (before rest : Kwargs) (key : string)
    (v default : Z) :
  Forall (fun kv => fst kv = "num_classes") before ->
  key <> "num_classes" ->
  bind_num_classes (before ++ (key, v) :: rest)%list default
  = Raise (TypeError ("create_lenet() got an unexpected keyword argument '"
                        ++ key ++ "'")).
Proof.
  intros HF Hk. revert default.
  induction HF as [|[k0 v0] before Hk0 HF IH]; intros default.
  - cbn [app bind_num_classes].
    destruct (String.eqb_spec key "num_classes") as [|_]; [contradiction|].
    reflexivity.
  - cbn [app bind_num_classes]. cbn [fst] in Hk0. subst k0.
    rewrite String.eqb_refl. apply IH.
Qed.

(** X12: whatever the name and the options, a network [create_network]
    returns is the one of [create_lenet]: the name was ["lenet"], every
    option was [num_classes], and the network is the 300-100 stack of linear
    layers and sigmoids whose widths chain and whose output width is the
    [num_classes] given, 10 when none was, and never a negative number. *)
Theorem create_network_returns_lenet (arch : string) (kwargs : Kwargs)
    (net : Network) :
  create_network arch kwargs = Ok net ->
  arch = "lenet" /\
  Forall (fun kv => fst kv = "num_classes") kwargs /\
  net = [LazyLinear 300; Sigmoid; Linear 300 100; Sigmoid;
         Linear 100 (last (map snd kwargs) 10)] /\
  widths_chain None net = true /\
  out_width None net = Some (last (map snd kwargs) 10) /\
  0 <= last (map snd kwargs) 10.
Proof.
  unfold create_network.
  destruct (String.eqb_spec arch "lenet") as [->|_].
  - unfold create_lenet.
    destruct (bind_num_classes kwargs 10) as [k|e] eqn:Hk; [|discriminate].
    cbn [rbind]. unfold new_Linear.
    destruct (Z.ltb_spec k 0) as [|Hpos]; [discriminate|].
    cbn [rbind]. intros H. injection H as <-.
    destruct (bind_num_classes_ok kwargs 10 k Hk) as [HF ->].
    repeat split; try assumption.
  - destruct (String.eqb arch "arch2").
    + unfold create_arch2. destruct kwargs as [|[k v] rest]; discriminate.
    + discriminate.
Qed.

(** X13: an option of [create_network('lenet', ...)] other than
    [num_classes] makes the call raise [TypeError], naming the first such
    option, and no network is returned. *)
Theorem create_lenet_unexpected_keyword (before rest : Kwargs) (key : string)
    (v : Z) :
  Forall (fun kv => fst kv = "num_classes") before ->
  key <> "num_classes" ->
  create_network "lenet" (before ++ (key, v) :: rest)%list
  = Raise (TypeError ("create_lenet() got an unexpected keyword argument '"
                        ++ key ++ "'")).
Proof.
  intros HF Hk. unfold create_network, create_lenet. cbn [String.eqb].
  rewrite (bind_num_classes_unexpected before rest key v 10 HF Hk).
  reflexivity.
Qed.

End LenetShape.

(** ** The names of the checkpoint files *)

From Stdlib Require DecimalZ.

Section CheckpointPaths.
Import PyFloat PyFormat Accumulators Training.

(** Reading back the decimal text of an int. *)
Definition int_of_text (text : string) : option Z :=
  option_map Z.of_int (NilZero.int_of_string text).

Lemma int_of_text_str (n : Z) : int_of_text (str n) = Some n.
Proof.
  unfold int_of_text, str.
  assert (H : forall d : Decimal.int,
             option_map Z.of_int
               (NilZero.int_of_string (NilZero.string_of_int d))
             = Some (Z.of_int d)).
  { intros d.
    destruct d as [u|u]; destruct u;
      try reflexivity; rewrite NilZero.isi; try reflexivity; discriminate. }
  rewrite H, DecimalZ.of_to. reflexivity.
Qed.

Lemma str_inj (a b : Z) : str a = str b -> a = b.
Proof.
  intros H. pose proof (int_of_text_str a) as Ha.
  rewrite H, int_of_text_str in Ha. injection Ha as ->. reflexivity.
Qed.

Lemma append_inj_l (p a b : string) : p ++ a = p ++ b -> a = b.
Proof.
  induction p as [|c p IH]; [trivial|].
  cbn [append]. intros H. injection H as H. exact (IH H).
Qed.

Lemma length_append (a b : string) :
  String.length (a ++ b) = (String.length a + String.length b)%nat.
Proof.
  induction a as [|c a IH]; [reflexivity|]. cbn [append String.length].
  rewrite IH. reflexivity.
Qed.

Lemma append_inj_r (a b s : string) : a ++ s = b ++ s -> a = b.
Proof.
  revert b. induction a as [|c a IH]; intros [|d b] H.
  - reflexivity.
  - apply (f_equal String.length) in H. cbn [append] in H.
    cbn [String.length] in H. rewrite length_append in H. lia.
  - apply (f_equal String.length) in H. cbn [append] in H.
    cbn [String.length] in H. rewrite length_append in H. lia.
  - cbn [append] in H. injection H as -> H. f_equal. exact (IH b H).
Qed.

Lemma checkpoint_path_inj (model_file_name : string) (a b : Z) :
  checkpoint_path model_file_name a = checkpoint_path model_file_name b ->
  a = b.
Proof.
  unfold checkpoint_path. intros H.
  apply append_inj_l, append_inj_l, append_inj_l in H.
  apply append_inj_r in H. exact (str_inj a b H).
Qed.

Lemma checkpoint_path_not_final (model_file_name : string) (a : Z) :
  checkpoint_path model_file_name a <> final_path model_file_name.
Proof.
  unfold checkpoint_path, final_path. intros H.
  apply append_inj_l, append_inj_l in H.
  change "-final.pth" with ("-" ++ "final" ++ ".pth") in H.
  apply append_inj_l in H. apply append_inj_r in H.
  pose proof (int_of_text_str a) as Ha. rewrite H in Ha. discriminate Ha.
Qed.

Lemma NoDup_map_inj {A B : Type} (f : A -> B) (l : list A) :
  (forall a b, f a = f b -> a = b) -> NoDup l -> NoDup (map f l).
Proof.
  intros Hinj H. induction H as [|a l Hin H IH]; cbn [map]; constructor.
  - intros Hm. apply in_map_iff in Hm as (b & Hb & Hbl).
    apply Hinj in Hb. subst b. exact (Hin Hbl).
  - exact IH.
Qed.

Lemma range_NoDup (epochs : Z) : NoDup (range epochs).
Proof.
  unfold range. apply NoDup_map_inj; [apply Nat2Z.inj|apply seq_NoDup].
Qed.

Section WrittenPaths.
Context {T : Torch}.
Local Open Scope list_scope.

Variable data_loaders : DataLoaders.
Variable optimizer : Optimizer.
Variable loss_fn : Pred -> Y -> Loss.
Variable model_file_name : string.
Variable eval_every_n_epochs : Z.

(** X14: the files a run of [train] that completes has written have
    pairwise distinct names: two epochs never share a checkpoint, and no
    epoch number spells [final], so within a run no checkpoint overwrites
    another. *)
Theorem checkpoints_never_overwrite (learning_rate : float) (epochs : Z)
    (s s' : State) :
  train data_loaders optimizer loss_fn model_file_name eval_every_n_epochs
    learning_rate epochs s = Done tt s' ->
  exists written : list string,
    map fst (files s') = map fst (files s) ++ written /\
    NoDup written /\
    written
    = map (checkpoint_path model_file_name)
        (filter (due eval_every_n_epochs) (range epochs))
      ++ [final_path model_file_name].
Proof.
  intros H. apply train_inv in H as (om & s1 & Hloop & Hfin).
  apply run_epochs_inv in Hloop as (Hf & _).
  apply finish_inv in Hfin
    as (m & s2 & s3 & tl & ta & vl & va & tel & tea
        & _ & _ & _ & _ & _ & Hf' & _ & _).
  eexists. split; [|split; [|reflexivity]].
  - rewrite Hf', map_app, Hf. cbn [map fst]. rewrite <- app_assoc.
    reflexivity.
  - apply NoDup_app.
    + apply NoDup_map_inj; [apply checkpoint_path_inj|].
      apply NoDup_filter, range_NoDup.
    + constructor; [intros []|constructor].
    + intros p Hp [Hq|[]]. apply in_map_iff in Hp as (e & He & _).
      rewrite <- Hq in He. exact (checkpoint_path_not_final _ _ He).
Qed.

End WrittenPaths.

End CheckpointPaths.

(** ** The further properties on the concrete instance *)

Section ExtraRuns.
Import PyFloat PyFormat Accumulators Datasets Networks Training Example.

(** The loaders of the example with an empty test partition. *)
Definition loaders_no_test : DataLoaders :=
  {| dl_train := dl_train loaders;
     dl_val := dl_val loaders;
     dl_test := (false, []) |}.

(** MNIST and FashionMNIST as torchvision ships them: 60000 training and
    10000 test images each. *)
Definition mnist : Source :=
  {| source_train := {| len := 60000 |}; source_test := {| len := 10000 |} |}.

Lemma train_without_epochs_witness :
  exists s' : State,
    train loaders sign_descent squared_error "lenet" 100 learning_rate 0
      initial = Fail (UnboundLocalError "metrics") s' /\
    rng s' = 4%nat /\ training s' = false /\
    files s' = [] /\ stdout s' = [].
Proof.
  destruct (train_without_epochs loaders sign_descent squared_error "lenet"
              100 learning_rate 0 initial ltac:(lia)
              (proj2 (proj2 loaders_well_sized))
              (proj1 (proj2 loaders_well_sized)))
    as (rt & rv & s1 & s' & H & _ & _ & Hg & Hm & Hf & Ho & _).
  exists s'. split; [exact H|]. split; [exact Hg|]. split; [exact Hm|].
  split; [exact Hf|exact Ho].
Defined.

Lemma train_with_zero_cadence_witness :
  exists s' : State,
    train loaders sign_descent squared_error "lenet" 0 learning_rate 1
      initial = Fail ZeroDivisionError s' /\
    files s' = [] /\ laps_train s' = 3%nat /\ laps_val s' = 0%nat.
Proof.
  destruct (train_with_zero_cadence loaders sign_descent squared_error "lenet"
              0 learning_rate 1 initial ltac:(lia) eq_refl
              (proj1 loaders_well_sized))
    as (s' & H & Hf & _ & Ht & Hv).
  exists s'. split; [exact H|]. split; [exact Hf|]. split; [exact Ht|exact Hv].
Defined.

Lemma train_with_empty_test_partition_witness :
  exists s' : State,
    train loaders_no_test sign_descent squared_error "lenet" 100
      learning_rate 1 initial = Fail ZeroDivisionError s' /\
    map fst (files s') = ["checkpoints/model-lenet-0.pth"] /\
    stdout s' = [].
Proof.
  destruct (train_with_empty_test_partition loaders_no_test sign_descent
              squared_error "lenet" 100 learning_rate 1 initial
              ltac:(lia) ltac:(discriminate)
              (proj1 loaders_well_sized) (proj1 (proj2 loaders_well_sized))
              ltac:(intros g; reflexivity))
    as (s' & H & Hf & Ho).
  exists s'. split; [exact H|]. split; [exact Hf|exact Ho].
Defined.

Lemma one_curve_point_per_epoch_witness :
  exists s1 s' : State,
    train loaders sign_descent squared_error "lenet" 2 learning_rate 3
      initial = Done tt s' /\
    epochs_points loaders sign_descent squared_error "lenet" 2 [0; 1; 2]
      (train_start sign_descent learning_rate initial) (curves s') s1 /\
    map point_shape (curves s') = [(1, 4%nat); (2, 2%nat); (3, 4%nat)].
Proof.
  destruct (train_total loaders sign_descent squared_error "lenet" 2
              learning_rate 3 initial ltac:(lia) ltac:(discriminate)
              (proj1 loaders_well_sized) (proj1 (proj2 loaders_well_sized))
              (proj2 (proj2 loaders_well_sized))) as (s' & E).
  destruct (one_curve_point_per_epoch loaders sign_descent squared_error
              "lenet" 2 learning_rate 3 initial s' E) as [[s1 Hp] Hs].
  exists s1, s'. split; [exact E|]. split; [exact Hp|exact Hs].
Defined.

Lemma final_checkpoint_repeats_last_epoch_witness :
  exists (s' : State) (earlier : list (string * Params)),
    train loaders sign_descent squared_error "lenet" 2 learning_rate 3
      initial = Done tt s' /\
    files s'
    = (earlier ++ [("checkpoints/model-lenet-2.pth", params s');
                   ("checkpoints/model-lenet-final.pth", params s')])%list.
Proof.
  destruct (train_total loaders sign_descent squared_error "lenet" 2
              learning_rate 3 initial ltac:(lia) ltac:(discriminate)
              (proj1 loaders_well_sized) (proj1 (proj2 loaders_well_sized))
              (proj2 (proj2 loaders_well_sized))) as (s' & E).
  destruct (final_checkpoint_repeats_last_epoch loaders sign_descent
              squared_error "lenet" 2 learning_rate 3 initial s' E eq_refl)
    as (earlier & Hf).
  exists s', earlier. split; [exact E|exact Hf].
Defined.

Lemma checkpoints_never_overwrite_witness :
  exists (s' : State) (written : list string),
    train loaders sign_descent squared_error "lenet" 2 learning_rate 3
      initial = Done tt s' /\
    map fst (files s') = written /\ NoDup written.
Proof.
  destruct (train_total loaders sign_descent squared_error "lenet" 2
              learning_rate 3 initial ltac:(lia) ltac:(discriminate)
              (proj1 loaders_well_sized) (proj1 (proj2 loaders_well_sized))
              (proj2 (proj2 loaders_well_sized))) as (s' & E).
  destruct (checkpoints_never_overwrite loaders sign_descent squared_error
              "lenet" 2 learning_rate 3 initial s' E)
    as (written & Hf & Hnd & _).
  exists s', written. split; [exact E|]. split; [exact Hf|exact Hnd].
Defined.

Lemma evaluate_takes_two_passes_witness :
  exists (r : float * float) (s' : State),
    evaluate squared_error (dl_val loaders) (state_of (set_training true initial))
    = Done r s' /\
    training s' = false /\ rng s' = 2%nat.
Proof.
  destruct (evaluate_total squared_error (dl_val loaders)
              (state_of (set_training true initial))
              (proj1 (proj2 loaders_well_sized))) as (r & s' & E).
  destruct (evaluate_takes_two_passes squared_error (dl_val loaders) _ s' r E)
    as (Hs & Hm & _).
  exists r, s'. split; [exact E|]. split; [exact Hm|].
  rewrite Hs. reflexivity.
Defined.

Lemma later_batches_start_in_eval_mode_witness :
  exists (m1 m' : Metrics) (s1 s' : State),
    train_batches loaders sign_descent squared_error train_phase
      [([1; 2], [2; 4]); ([3; 4], [6; 8]); ([5; 6], [10; 12])]
      {| m_train := new 3; m_val := new 3 |}
      (state_of (set_training true initial)) = Done m' s' /\
    train_batch loaders sign_descent squared_error train_phase
      {| m_train := new 3; m_val := new 3 |} ([1; 2], [2; 4])
      (state_of (set_training true initial)) = Done m1 s1 /\
    training (state_of (set_training true initial)) = true /\
    training s1 = false.
Proof.
  pose proof (proj2 (proj1 loaders_well_sized 0%nat)) as HF.
  destruct (train_batches_total loaders sign_descent squared_error train_phase
              _ {| m_train := new 3; m_val := new 3 |}
              (state_of (set_training true initial))
              (proj1 loaders_well_sized) HF acc3_new)
    as (m' & s' & E & _).
  destruct (later_batches_start_in_eval_mode loaders sign_descent
              squared_error train_phase _ _ _ _ _ m' _ s' E)
    as (m1 & m2 & s1 & s2 & H1 & Hmode & _).
  exists m1, m', s1, s'. split; [exact E|]. split; [exact H1|].
  split; [reflexivity|exact Hmode].
Defined.

Lemma get_dataset_loaders_witness :
  exists (train_count validation_count test_count : Z),
    floor (fmul (fmul lit_0_9 (S754_finite false 8246337208320000 (-37)))
             lit_1_0) = Ok train_count /\
    get_dataset mnist mnist "mnist" 60 lit_1_0
    = (if train_count <=? 0
       then Raise (ValueError
              ("num_samples should be a positive integer value, but got num_samples="
               ++ PyFormat.str train_count))
       else if 60 <=? 0
       then Raise (ValueError
              ("batch_size should be a positive integer value, but got batch_size="
               ++ PyFormat.str 60))
       else Ok {| ld_train := {| dl_len := train_count; dl_batch_size := 60;
                                 dl_shuffle := true |};
                  ld_val := {| dl_len := Z.min validation_count
                                           (60000 - train_count);
                               dl_batch_size := 60; dl_shuffle := false |};
                  ld_test := {| dl_len := test_count; dl_batch_size := 60;
                                dl_shuffle := false |} |}) /\
    0 <= train_count <= 60000 /\ 0 <= validation_count /\
    0 <= test_count <= 10000.
Proof.
  destruct (get_dataset_loaders mnist mnist "mnist" 60 lit_1_0 mnist eq_refl
              ltac:(cbn; lia) ltac:(cbn; lia) eq_refl)
    as (fn & ft & tr & va & te & Hfn & _ & Htr & _ & _ & H & Hb).
  exists tr, va, te.
  assert (Efn : of_int (len (source_train mnist))
                = Ok (S754_finite false 8246337208320000 (-37)))
    by (vm_compute; reflexivity).
  rewrite Efn in Hfn. injection Hfn as <-.
  split; [exact Htr|]. split; [exact H|exact Hb].
Defined.

Lemma get_dataset_uses_nothing_witness :
  train_val_counts 60000 fzero = Ok (0, 0, 60000) /\
  test_counts 10000 fzero = Ok (0, 10000) /\
  get_dataset mnist mnist "fashionmnist" 0 fzero
  = Raise (ValueError
      "num_samples should be a positive integer value, but got num_samples=0").
Proof.
  exact (get_dataset_uses_nothing mnist mnist "fashionmnist" 0 mnist eq_refl
           ltac:(cbn; lia) ltac:(cbn; lia)).
Defined.

Lemma create_network_returns_lenet_witness :
  create_network "lenet" [("num_classes", 26)]
  = Ok [LazyLinear 300; Sigmoid; Linear 300 100; Sigmoid; Linear 100 26] /\
  out_width None
    [LazyLinear 300; Sigmoid; Linear 300 100; Sigmoid; Linear 100 26]
  = Some 26 /\
  0 <= 26.
Proof.
  split; [reflexivity|].
  exact (proj2 (proj2 (proj2 (proj2
           (create_network_returns_lenet "lenet" [("num_classes", 26)] _
              eq_refl))))).
Defined.

Lemma create_lenet_unexpected_keyword_witness :
  create_network "lenet" [("num_classes", 26); ("classes", 10)]
  = Raise (TypeError
             "create_lenet() got an unexpected keyword argument 'classes'").
Proof.
  exact (create_lenet_unexpected_keyword [("num_classes", 26)] [] "classes" 10
           ltac:(repeat constructor) ltac:(discriminate)).
Defined.

End ExtraRuns.

(** ** How many batches a run processes *)

Section TimedBatches.
Import PyFloat Accumulators Training.
Context {T : Torch}.

Variable data_loaders : DataLoaders.
Variable optimizer : Optimizer.
Variable loss_fn : Pred -> Y -> Loss.
Variable model_file_name : string.
Variable eval_every_n_epochs : Z.

(** Every pass over the train loader yields [k] batches, every pass over
    the val loader [kv]. *)
Variables k kv : nat.
Hypothesis train_passes :
  forall g, List.length (fst (iter_loader (dl_train data_loaders) g)) = k.
Hypothesis val_passes :
  forall g, List.length (fst (iter_loader (dl_val data_loaders) g)) = kv.

Lemma run_epoch_laps (epoch : Z) (s : State) (metrics : Metrics) (s' : State) :
  run_epoch data_loaders optimizer loss_fn model_file_name eval_every_n_epochs
    epoch s = Done metrics s' ->
  laps_train s' = (laps_train s + k)%nat /\
  laps_val s'
  = (laps_val s + if due eval_every_n_epochs epoch then kv else 0)%nat.
Proof.
  intros H. unfold run_epoch in H.
  apply bind_inv in H as (m & s2 & Hph & H).
  apply bind_inv in H as ([] & s3 & Hrep & H).
  unfold ret in H. injection H as _ ->.
  cbn [run_phases phases] in Hph.
  apply bind_inv in Hph as (m1 & s1 & Htr & Hph).
  apply bind_inv in Hph as (m2 & s2' & Hval & Hph).
  unfold ret in Hph. injection Hph as _ ->.
  rewrite (run_phase_active _ _ _ _ _ _ _ _ (or_introl eq_refl)) in Htr.
  apply train_batches_spec in Htr.
  destruct (batch_steps_laps _ _ _ _ _ _ _ _ _ Htr) as (T1 & T2 & _).
  cbn [laps_of is_train other] in T1, T2.
  rewrite (keeps_phase_start data_loaders laps_train train_phase s
             ltac:(reflexivity)) in T1.
  rewrite (keeps_phase_start data_loaders laps_val train_phase s
             ltac:(reflexivity)) in T2.
  unfold phase_batches in T1. cbn [loader_of] in T1.
  rewrite train_passes in T1.
  pose proof (report_epoch_laps model_file_name eval_every_n_epochs
                train_phase _ _ _ _ Hrep) as R1.
  pose proof (report_epoch_laps model_file_name eval_every_n_epochs
                val_phase _ _ _ _ Hrep) as R2.
  cbn [laps_of is_train] in R1, R2.
  assert (Hn : eval_every_n_epochs <> 0).
  { intros Hn. rewrite (run_phase_zero_cadence _ _ _ _ _ _ _ Hn) in Hval.
    discriminate. }
  unfold due.
  destruct (Z.eqb_spec (epoch mod eval_every_n_epochs) 0) as [Hr|Hr].
  - rewrite (run_phase_active _ _ _ _ _ _ _ _ (or_intror (conj Hn Hr)))
      in Hval.
    apply train_batches_spec in Hval.
    destruct (batch_steps_laps _ _ _ _ _ _ _ _ _ Hval) as (V1 & V2 & _).
    cbn [laps_of is_train other] in V1, V2.
    rewrite (keeps_phase_start data_loaders laps_val val_phase s1
               ltac:(reflexivity)) in V1.
    rewrite (keeps_phase_start data_loaders laps_train val_phase s1
               ltac:(reflexivity)) in V2.
    unfold phase_batches in V1. cbn [loader_of] in V1.
    rewrite val_passes in V1. split; congruence.
  - rewrite (run_phase_skipped _ _ _ _ _ _ _ Hn Hr) in Hval.
    injection Hval as _ <-. rewrite Nat.add_0_r. split; congruence.
Qed.

Lemma run_epochs_laps (epochs : list Z) (metrics metrics' : option Metrics)
    (s s' : State) :
  run_epochs data_loaders optimizer loss_fn model_file_name
    eval_every_n_epochs epochs metrics s = Done metrics' s' ->
  laps_train s' = (laps_train s + List.length epochs * k)%nat /\
  laps_val s'
  = (laps_val s
     + List.length (filter (due eval_every_n_epochs) epochs) * kv)%nat.
Proof.
  revert metrics s. induction epochs as [|epoch rest IH]; intros metrics s H.
  - cbn [run_epochs] in H. unfold ret in H. injection H as _ <-.
    cbn [filter List.length]. lia.
  - cbn [run_epochs] in H. apply bind_inv in H as (m & s1 & H1 & H).
    apply run_epoch_laps in H1 as (A1 & A2).
    apply IH in H as (B1 & B2). rewrite B1, B2, A1, A2.
    cbn [filter List.length].
    destruct (due eval_every_n_epochs epoch); cbn [List.length]; lia.
Qed.

(** X15: when every pass over the train loader yields [k] batches and
    every pass over the val loader [kv], a run of [train] that completes has
    processed and timed [k] train batches in each of its epochs, and [kv] val
    batches in each epoch with [epoch % eval_every_n_epochs == 0] and in no
    other. *)
Theorem timed_batches_of_a_run (learning_rate : float) (epochs : Z)
    (s s' : State) :
  train data_loaders optimizer loss_fn model_file_name eval_every_n_epochs
    learning_rate epochs s = Done tt s' ->
  laps_train s' = (Z.to_nat epochs * k)%nat /\
  laps_val s'
  = (List.length (filter (due eval_every_n_epochs) (range epochs)) * kv)%nat.
Proof.
  intros H. apply train_inv in H as (om & s1 & Hloop & Hfin).
  apply run_epochs_laps in Hloop as (L1 & L2).
  cbn [train_start laps_train laps_val] in L1, L2.
  assert (K : forall p, laps_of p s' = laps_of p s1).
  { intros p.
    pose proof (preserves_finish (keeps (laps_of p)) (keeps_refl _)
                  (keeps_trans _) loss_fn
                  ltac:(intros mode s0; reflexivity)
                  (keeps_iterate (laps_of p) ltac:(reflexivity))
                  data_loaders model_file_name
                  ltac:(intros path s0; reflexivity)
                  ltac:(intros line s0; reflexivity) om s1) as K.
    rewrite Hfin in K. exact K. }
  pose proof (K train_phase) as K1. pose proof (K val_phase) as K2.
  cbn [laps_of is_train] in K1, K2.
  unfold range in L1 at 1. rewrite length_map, length_seq in L1.
  split; [rewrite K1, L1|rewrite K2, L2]; reflexivity.
Qed.

End TimedBatches.

Section TimedBatchesExample.
Import PyFloat Accumulators Training Example.

Lemma example_passes :
  (forall g, List.length (fst (iter_loader (dl_train loaders) g)) = 3%nat) /\
  (forall g, List.length (fst (iter_loader (dl_val loaders) g)) = 1%nat).
Proof.
  split; intros g; cbn [iter_loader linear_model loaders dl_train dl_val fst
                          snd andb]; [destruct (Nat.odd g)|]; reflexivity.
Qed.

Lemma timed_batches_of_a_run_witness :
  exists s' : State,
    train loaders sign_descent squared_error "lenet" 2 learning_rate 3
      initial = Done tt s' /\
    laps_train s' = 9%nat /\ laps_val s' = 2%nat.
Proof.
  destruct (train_total loaders sign_descent squared_error "lenet" 2
              learning_rate 3 initial ltac:(lia) ltac:(discriminate)
              (proj1 loaders_well_sized) (proj1 (proj2 loaders_well_sized))
              (proj2 (proj2 loaders_well_sized))) as (s' & E).
  exists s'. split; [exact E|].
  exact (timed_batches_of_a_run loaders sign_descent squared_error "lenet" 2
           3 1 (proj1 example_passes) (proj2 example_passes) learning_rate 3
           initial s' E).
Defined.

End TimedBatchesExample.

(** ** Every batch evaluates the whole phase *)

Section WholePhase.
Import PyFloat Accumulators Training.
Context {T : Torch}.
Local Open Scope result_scope.

Variable data_loaders : DataLoaders.
Variable optimizer : Optimizer.
Variable loss_fn : Pred -> Y -> Loss.
Variable eval_every_n_epochs : Z.

(** The loss over all the batches of a pass, for a network with the
    parameters [p] in mode [mode]: the sum of the batch losses over the
    number of their elements, both summed in the order of the pass. *)
Definition pass_loss (p : Params) (mode : bool) (batches : list (X * Y))
  : result float :=
  let loss xy := loss_fn (net_call p mode (fst xy)) (snd xy) in
  fs <-? floats_of_sizes (map (fun xy => d2l_size_loss (loss xy)) batches) ;;
  fdiv (running_total fzero (map (fun xy => d2l_reduce_sum (loss xy)) batches))
    (running_total fzero fs).

(** The accuracy over all the batches of a pass, for a network with the
    parameters [p] in evaluation mode: the number of correct predictions
    over the number of predictions. *)
Definition pass_accuracy (p : Params) (batches : list (X * Y)) : result float :=
  fs <-? floats_of_sizes (map (fun xy => d2l_size (snd xy)) batches) ;;
  fdiv (running_total fzero
          (map (fun xy => d2l_accuracy (net_call p false (fst xy)) (snd xy))
             batches))
    (running_total fzero fs).

(** The optimizer state and the parameters after the optional update of a
    batch: one step on the gradients of the loss of that batch in the train
    phase, no change in the val phase. *)
Definition updated (phase : Phase) (xy : X * Y) (s : State)
  : OptState * Params :=
  if is_train phase
  then opt_step optimizer (opt_state s) (params s)
         (backward (loss_fn (net_call (params s) (training s) (fst xy))
                      (snd xy)))
  else (opt_state s, params s).

(** One batch as the spec describes it.  With the parameters the optional
    update leaves, the loss is taken over all the batches of a fresh pass of
    the loader of the phase, the accuracy over all the batches of a second
    pass; the accumulator of the phase grows by the loss times the size of
    the batch, the accuracy times that size, and that size; the other
    accumulator is left alone; the timer of the phase counts one lap. *)
Definition whole_phase_step (phase : Phase) (metrics : Metrics) (xy : X * Y)
    (s : State) (metrics' : Metrics) (s' : State) : Prop :=
  let l := loader_of data_loaders phase in
  let p := snd (updated phase xy s) in
  let pass1 := iter_loader l (rng s) in
  let pass2 := iter_loader l (snd pass1) in
  exists loss accuracy size t u c : float,
    pass_loss p (training s) (fst pass1) = Ok loss /\
    pass_accuracy p (fst pass2) = Ok accuracy /\
    of_int (shape0 (fst xy)) = Ok size /\
    metrics_of metrics phase = [t; u; c] /\
    metrics_of metrics' phase
    = [fadd t (fmul loss size); fadd u (fmul accuracy size); fadd c size] /\
    metrics_of metrics' (other phase) = metrics_of metrics (other phase) /\
    s' = {| params := p; training := false;
            opt_state := fst (updated phase xy s); rng := snd pass2;
            files := files s; curves := curves s;
            laps_train := (if is_train phase then S (laps_train s)
                           else laps_train s);
            laps_val := (if is_train phase then laps_val s
                         else S (laps_val s));
            stdout := stdout s |}.

(** The same for every batch of a pass, in the order of the pass. *)
Inductive whole_phase_steps (phase : Phase)
  : list (X * Y) -> Metrics -> State -> Metrics -> State -> Prop :=
| whole_nil (metrics : Metrics) (s : State) :
    whole_phase_steps phase [] metrics s metrics s
| whole_cons (xy : X * Y) (rest : list (X * Y)) (m m1 m2 : Metrics)
    (s s1 s2 : State) :
    whole_phase_step phase m xy s m1 s1 ->
    whole_phase_steps phase rest m1 s1 m2 s2 ->
    whole_phase_steps phase (xy :: rest) m s m2 s2.

Lemma evaluate_accuracy_loop_value (batches : list (X * Y)) (t c : float)
    (s : State) :
  evaluate_accuracy_loop batches [t; c] s
  = match floats_of_sizes (map (fun xy => d2l_size (snd xy)) batches) with
    | Ok fs =>
        Done [running_total t
                (map (fun xy => d2l_accuracy
                                  (net_call (params s) (training s) (fst xy))
                                  (snd xy)) batches);
              running_total c fs] s
    | Raise e => Fail e s
    end.
Proof.
  revert t c. induction batches as [|[x y] rest IH]; intros t c.
  - reflexivity.
  - cbn [evaluate_accuracy_loop map floats_of_sizes]. unfold bind at 1, forward.
    unfold bind at 1. rewrite add_row2. cbn [fst snd].
    destruct (of_int (d2l_size y)) as [f|e]; cbn [rbind lift]; [|reflexivity].
    rewrite IH.
    destruct (floats_of_sizes _) as [fs|e]; reflexivity.
Qed.

Lemma evaluate_loss_eq (l : Loader) (s : State) :
  evaluate_loss loss_fn l s
  = lift (pass_loss (params s) (training s) (fst (iter_loader l (rng s))))
      (with_mode_rng s (training s) (snd (iter_loader l (rng s)))).
Proof.
  unfold evaluate_loss. rewrite (bind_done _ _ _ _ _ (iterate_eq l s)).
  unfold bind. change (new 2) with [fzero; fzero].
  rewrite evaluate_loss_loop_value, iterate_state.
  unfold pass_loss, batch_loss. cbn [with_mode_rng params training].
  destruct (floats_of_sizes _) as [fs|e]; reflexivity.
Qed.

Lemma evaluate_accuracy_gpu_eq (l : Loader) (s : State) :
  evaluate_accuracy_gpu l s
  = lift (pass_accuracy (params s) (fst (iter_loader l (rng s))))
      (with_mode_rng s false (snd (iter_loader l (rng s)))).
Proof.
  unfold evaluate_accuracy_gpu. unfold bind at 1. cbn [set_training].
  set (s0 := {| params := params s; training := false |}).
  rewrite (bind_done _ _ _ _ _ (iterate_eq l s0)).
  unfold bind. change (new 2) with [fzero; fzero].
  rewrite evaluate_accuracy_loop_value, iterate_state.
  unfold pass_accuracy. subst s0. cbn [with_mode_rng params training rng].
  destruct (floats_of_sizes _) as [fs|e]; reflexivity.
Qed.

(** [evaluate] returns exactly when both reads do, with their values. *)
Lemma evaluate_spec (l : Loader) (s s' : State) (loss accuracy : float) :
  evaluate loss_fn l s = Done (loss, accuracy) s' <->
  pass_loss (params s) (training s) (fst (iter_loader l (rng s))) = Ok loss /\
  pass_accuracy (params s)
    (fst (iter_loader l (snd (iter_loader l (rng s))))) = Ok accuracy /\
  s' = with_mode_rng s false
         (snd (iter_loader l (snd (iter_loader l (rng s))))).
Proof.
  unfold evaluate, Training.bind. rewrite evaluate_loss_eq.
  destruct (pass_loss _ _ _) as [v|e]; cbn [lift].
  - rewrite evaluate_accuracy_gpu_eq. cbn [with_mode_rng params rng].
    destruct (pass_accuracy _ _) as [a|e]; cbn [lift Training.ret].
    + split.
      * intros H. injection H as <- <- <-. repeat split.
      * intros (H1 & H2 & ->). injection H1 as <-. injection H2 as <-.
        reflexivity.
    + split; [discriminate|]. intros (_ & H & _). discriminate.
  - split; [discriminate|]. intros (H & _). discriminate.
Qed.

Lemma update_spec (phase : Phase) (x : X) (y : Y) (s : State) :
  update optimizer loss_fn phase x y s
  = Done tt {| params := snd (updated phase (x, y) s);
               training := training s;
               opt_state := fst (updated phase (x, y) s);
               rng := rng s; files := files s; curves := curves s;
               laps_train := laps_train s; laps_val := laps_val s;
               stdout := stdout s |}.
Proof.
  unfold update, updated, optimizer_step. cbn [fst snd].
  destruct (is_train phase).
  - destruct (opt_step optimizer _ _ _) as [o p]. reflexivity.
  - destruct s. reflexivity.
Qed.

Lemma metrics_of_set (metrics metrics' : Metrics) (phase : Phase)
    (acc : Accumulator) :
  metrics' = set_metrics metrics phase acc <->
  metrics_of metrics' phase = acc /\
  metrics_of metrics' (other phase) = metrics_of metrics (other phase).
Proof.
  destruct metrics as [a b], metrics' as [a' b'], phase;
    cbn [set_metrics metrics_of other m_train m_val]; split.
  - intros H. injection H as -> ->. split; reflexivity.
  - intros [-> ->]. reflexivity.
  - intros H. injection H as -> ->. split; reflexivity.
  - intros [-> ->]. reflexivity.
Qed.

(** The body of the batch loop does what the spec says of a batch, and
    nothing else. *)
Lemma whole_phase_step_spec (phase : Phase) (metrics : Metrics) (xy : X * Y)
    (s : State) (metrics' : Metrics) (s' : State) :
  (exists t u c : float, metrics_of metrics phase = [t; u; c]) ->
  train_batch data_loaders optimizer loss_fn phase metrics xy s
  = Done metrics' s' <->
  whole_phase_step phase metrics xy s metrics' s'.
Proof.
  intros (t & u & c & Hm). destruct xy as [x y].
  rewrite train_batch_spec. unfold batch_step_spec, whole_phase_step.
  cbv zeta. cbn [fst snd]. split.
  - intros (s1 & s2 & loss & accuracy & wl & wa & acc
            & Hu & He & H1 & H2 & H3 & Hset & H4).
    rewrite update_spec in Hu. injection Hu as <-.
    apply evaluate_spec in He as (HL & HA & ->).
    cbn [params training rng] in HL, HA.
    unfold fmul_int in H1, H2.
    destruct (of_int (shape0 x)) as [size|e] eqn:Hsize; [|discriminate].
    injection H1 as <-. injection H2 as <-.
    rewrite Hm in H3.
    change [Num_float (fmul loss size); Num_float (fmul accuracy size);
            Num_int (shape0 x)]
      with (batch_row (fmul loss size, fmul accuracy size, shape0 x)) in H3.
    rewrite add_row3, Hsize in H3. cbn [rbind] in H3. injection H3 as <-.
    apply metrics_of_set in Hset as [Hp Ho].
    unfold timer_stop in H4. injection H4 as <-.
    exists loss, accuracy, size, t, u, c.
    repeat split; assumption.
  - intros (loss & accuracy & size & t' & u' & c'
            & HL & HA & Hsize & Hm' & Hp & Ho & ->).
    rewrite Hm in Hm'. injection Hm' as <- <- <-.
    eexists _, _, loss, accuracy, (fmul loss size), (fmul accuracy size), _.
    split; [apply update_spec|].
    split; [apply evaluate_spec; cbn [params training rng];
            split; [exact HL|split; [exact HA|reflexivity]]|].
    split; [unfold fmul_int; rewrite Hsize; reflexivity|].
    split; [unfold fmul_int; rewrite Hsize; reflexivity|].
    split.
    { rewrite Hm.
      change [Num_float (fmul loss size); Num_float (fmul accuracy size);
              Num_int (shape0 x)]
        with (batch_row (fmul loss size, fmul accuracy size, shape0 x)).
      rewrite add_row3, Hsize. reflexivity. }
    split; [apply metrics_of_set; split; assumption|].
    reflexivity.
Qed.

Lemma whole_phase_steps_spec (phase : Phase) (batches : list (X * Y))
    (metrics : Metrics) (s : State) (metrics' : Metrics) (s' : State) :
  (exists t u c : float, metrics_of metrics phase = [t; u; c]) ->
  train_batches data_loaders optimizer loss_fn phase batches metrics s
  = Done metrics' s' <->
  whole_phase_steps phase batches metrics s metrics' s'.
Proof.
  revert metrics s. induction batches as [|xy rest IH]; intros metrics s Hm.
  - cbn [train_batches]. unfold Training.ret. split.
    + intros H. injection H as <- <-. constructor.
    + intros H. inversion H; subst. reflexivity.
  - cbn [train_batches]. split.
    + intros H. apply bind_inv in H as (m1 & s1 & H1 & H).
      apply (whole_phase_step_spec _ _ _ _ _ _ Hm) in H1.
      assert (Hm1 : exists t u c : float, metrics_of m1 phase = [t; u; c]).
      { destruct H1 as (? & ? & ? & ? & ? & ? & _ & _ & _ & _ & E & _).
        eexists _, _, _. exact E. }
      apply (IH _ _ Hm1) in H. econstructor; eassumption.
    + intros H. inversion H as [|? ? ? m1 ? ? s1 ? Hstep Hrest]; subst.
      assert (Hm1 : exists t u c : float, metrics_of m1 phase = [t; u; c]).
      { destruct Hstep as (? & ? & ? & ? & ? & ? & _ & _ & _ & _ & E & _).
        eexists _, _, _. exact E. }
      apply (whole_phase_step_spec _ _ _ _ _ _ Hm) in Hstep.
      rewrite (bind_done _ _ _ _ _ Hstep). apply (IH _ _ Hm1). exact Hrest.
Qed.

(** C2: in the training loop a phase either is the val phase of an epoch
    with [epoch % eval_every_n_epochs <> 0], and then does nothing, or is
    active; an active phase puts the network in the mode of the phase,
    begins a pass over its loader and, for every batch of that pass in
    order, the last one like the others, makes the optional parameter
    update, then evaluates the loss and the accuracy over all the batches of
    two fresh passes of the loader of that phase, and adds the loss times
    the size of the batch, the accuracy times that size, and that size to
    the accumulator of that phase.  The phase returns exactly when all of
    this can be done. *)
Theorem every_batch_evaluates_whole_phase (epoch : Z) (metrics : Metrics)
    (phase : Phase) (s : State) (metrics' : Metrics) (s' : State) :
  (exists t u c : float, metrics_of metrics phase = [t; u; c]) ->
  run_phase data_loaders optimizer loss_fn eval_every_n_epochs epoch metrics
    phase s = Done metrics' s' <->
  (phase = val_phase /\ eval_every_n_epochs <> 0 /\
   epoch mod eval_every_n_epochs <> 0 /\ metrics' = metrics /\ s' = s) \/
  ((phase = train_phase \/
    (eval_every_n_epochs <> 0 /\ epoch mod eval_every_n_epochs = 0)) /\
   let pass := iter_loader (loader_of data_loaders phase) (rng s) in
   whole_phase_steps phase (fst pass) metrics
     (with_mode_rng s (is_train phase) (snd pass)) metrics' s').
Proof.
  intros Hm. cbv zeta.
  assert (Hactive :
    phase = train_phase \/
    (eval_every_n_epochs <> 0 /\ epoch mod eval_every_n_epochs = 0) ->
    run_phase data_loaders optimizer loss_fn eval_every_n_epochs epoch metrics
      phase s = Done metrics' s' <->
    whole_phase_steps phase
      (fst (iter_loader (loader_of data_loaders phase) (rng s))) metrics
      (with_mode_rng s (is_train phase)
         (snd (iter_loader (loader_of data_loaders phase) (rng s))))
      metrics' s').
  { intros Ha. rewrite (run_phase_active data_loaders optimizer loss_fn
               eval_every_n_epochs epoch metrics _ s Ha).
    unfold phase_batches, phase_start. rewrite iterate_state.
    cbn [set_training state_of training rng with_mode_rng params opt_state
         files curves laps_train laps_val stdout].
    apply whole_phase_steps_spec. exact Hm. }
  destruct phase.
  - rewrite (Hactive (or_introl eq_refl)). split.
    + intros H. right. split; [left; reflexivity|exact H].
    + intros [(Hc & _)|[_ H]]; [discriminate Hc|exact H].
  - destruct (Z.eq_dec eval_every_n_epochs 0) as [Hn|Hn].
    + rewrite (run_phase_zero_cadence data_loaders optimizer loss_fn
                 eval_every_n_epochs epoch metrics s Hn). split.
      * discriminate.
      * intros [(_ & Hc & _)|[[Hc|[Hc _]] _]];
          [contradiction|discriminate Hc|contradiction].
    + destruct (Z.eq_dec (epoch mod eval_every_n_epochs) 0) as [Hr|Hr].
      * rewrite (Hactive (or_intror (conj Hn Hr))). split.
        -- intros H. right. split; [right; split; assumption|exact H].
        -- intros [(_ & _ & Hc & _)|[_ H]]; [contradiction|exact H].
      * rewrite (run_phase_skipped data_loaders optimizer loss_fn
                   eval_every_n_epochs epoch metrics s Hn Hr). split.
        -- intros H. injection H as <- <-. left. repeat split; assumption.
        -- intros [(_ & _ & _ & -> & ->)|[[Hc|[_ Hc]] _]];
             [reflexivity|discriminate Hc|contradiction].
Qed.

End WholePhase.

Section WholePhaseExample.
Import PyFloat Accumulators Training Example.

Lemma every_batch_evaluates_whole_phase_witness :
  exists (m' : Metrics) (s' : State),
    run_phase loaders sign_descent squared_error 100 0
      {| m_train := new 3; m_val := new 3 |} train_phase initial
    = Done m' s' /\
    whole_phase_steps loaders sign_descent squared_error train_phase
      [([1; 2], [2; 4]); ([3; 4], [6; 8]); ([5; 6], [10; 12])]
      {| m_train := new 3; m_val := new 3 |}
      (with_mode_rng initial true 1%nat) m' s'.
Proof.
  destruct (run_phase_train_total loaders sign_descent squared_error 100 0
              {| m_train := new 3; m_val := new 3 |} initial
              (proj1 loaders_well_sized) acc3_new) as (m' & s' & E & _).
  exists m', s'. split; [exact E|].
  destruct (proj1 (every_batch_evaluates_whole_phase loaders sign_descent
                     squared_error 100 0
                     {| m_train := new 3; m_val := new 3 |} train_phase
                     initial m' s'
                     ltac:(exists fzero, fzero, fzero; reflexivity)) E)
    as [(Hc & _)|[_ Hsteps]]; [discriminate Hc|exact Hsteps].
Defined.

End WholePhaseExample.
